(** * cagent: resolution and validation of the agent configuration

    A shallow embedding of [config.go] of cloudradar/cagent: the defaults
    builder ([NewConfig], [NewMinimumConfig]), the environment overlay
    ([MinValuableConfig.applyEnv]), the migration of the deprecated
    [windows_updates_watcher_interval] key ([Config.migrate]), the validator
    ([Config.validate] and the [Validate] methods of the nested blocks), the
    bandwidth parser ([Config.GetParsedNetInterfaceMaxSpeed]) and the
    bootstrap generator ([GenerateDefaultConfigFile]).

    Conventions.
    - A Go [string] is a Rocq [string] (a sequence of bytes); [float64] is
      the kernel's binary64 [float]; [int] and [uint32] are [Z], with the
      wrap-around of a conversion written out where the source converts.
    - A method with a pointer receiver that assigns to its receiver returns
      the updated receiver; [error] results are [option error], [None] for
      Go's [nil].
    - Warnings written through logrus are returned as a list of messages.
    - The process environment is a finite map from names to values, the file
      system a finite map from paths to nodes. *)

From Stdlib Require Import ZArith String Ascii List Bool Floats Lia.
From stdpp Require Import gmap strings.

Open Scope string_scope.
Open Scope Z_scope.

(** ** Errors *)

(** The error numbers of [syscall] the file system below reports. *)
Inductive Errno : Type := ENOENT | EEXIST | ENOTEMPTY | ENOTDIR | EISDIR.

(** An [error] value, by the call that builds it.  [fmt.Errorf] keeps its
    format string and its operands; the operand [arg_error e] stands for the
    text [e.Error()] passed to a [%s]. *)
Inductive error : Type :=
| errors_New (msg : string)
| fmt_Errorf (format : string) (args : list fmt_arg)
| strconv_NumError (Func Num : string) (Err : error)
| strconv_ErrSyntax
| strconv_ErrRange
| os_PathError (Op Path : string) (Err : error)
| os_ErrExist
| os_ErrNotExist
| syscall_Errno (e : Errno)
| foreign_error (pkg msg : string)
with fmt_arg : Type :=
| arg_string (s : string)
| arg_int (n : Z)
| arg_float (f : float)
| arg_byte (c : ascii)
| arg_strings (l : list string)
| arg_error (e : error).

(** [err != nil] *)
Definition is_err (e : option error) : bool :=
  match e with Some _ => true | None => false end.

(** [runtime.GOOS] is a constant of the build; the functions that read it
    take it as their first argument. *)
Definition is_windows (GOOS : string) : bool := (GOOS =? "windows")%string.

(** [type LogLevel string] with [LogLevelError = "error"], declared beside
    [config.go] in package [cagent]. *)
Definition LogLevel : Type := string.
Definition LogLevelError : LogLevel := "error".

Definition IOModeFile : string := "file".
Definition IOModeHTTP : string := "http".

Definition OperationModeFull : string := "full".
Definition OperationModeMinimal : string := "minimal".
Definition OperationModeHeartbeat : string := "heartbeat".

(** ** [MinValuableConfig] and the environment overlay *)

Module MinValuableConfig.

Record t : Type := mk {
  LogLevel : LogLevel;
  IOMode : string;
  OutFile : string;
  HubURL : string;
  HubUser : string;
  HubPassword : string;
}.

Definition set_IOMode (v : string) (c : t) : t :=
  mk (LogLevel c) v (OutFile c) (HubURL c) (HubUser c) (HubPassword c).
Definition set_OutFile (v : string) (c : t) : t :=
  mk (LogLevel c) (IOMode c) v (HubURL c) (HubUser c) (HubPassword c).
Definition set_HubURL (v : string) (c : t) : t :=
  mk (LogLevel c) (IOMode c) (OutFile c) v (HubUser c) (HubPassword c).
Definition set_HubUser (v : string) (c : t) : t :=
  mk (LogLevel c) (IOMode c) (OutFile c) (HubURL c) v (HubPassword c).
Definition set_HubPassword (v : string) (c : t) : t :=
  mk (LogLevel c) (IOMode c) (OutFile c) (HubURL c) (HubUser c) v.

(** [func (mvc *MinValuableConfig) applyEnv(force bool)]; [env !! name] is
    [os.LookupEnv(name)]. *)
Definition applyEnv (env : gmap string string) (force : bool) (mvc : t) : t :=
  let mvc :=
    match env !! "CAGENT_HUB_URL" with
    | Some val => if (HubURL mvc =? "")%string || force then set_HubURL val mvc else mvc
    | None => mvc
    end in
  let mvc :=
    match env !! "CAGENT_HUB_USER" with
    | Some val => if (HubUser mvc =? "")%string || force then set_HubUser val mvc else mvc
    | None => mvc
    end in
  let mvc :=
    match env !! "CAGENT_HUB_PASSWORD" with
    | Some val => if (HubPassword mvc =? "")%string || force then set_HubPassword val mvc else mvc
    | None => mvc
    end in
  mvc.

End MinValuableConfig.

(** ** Packages of the repository and libraries outside [config.go] *)

(** What [config.go] imports and this development leaves open: the MySQL and
    process monitoring blocks of [pkg/monitoring], the feed constant of the
    self-updater, [net/url]'s parser and the TOML encoder.  [mysql_Validate]
    returns the receiver as the call leaves it, since a Go method may assign
    to it; [toml_Encode] returns the bytes the encoder writes for a
    [MinValuableConfig], and its error. *)
Class Externals : Type := {
  mysql_Config : Type;
  mysql_Config_zero : mysql_Config;
  mysql_Validate : mysql_Config -> mysql_Config * option error;
  processes_Config : Type;
  processes_GetDefaultConfig : processes_Config;
  SelfUpdatesFeedURL : string;
  url_Parse : string -> option error;
  toml_Encode : MinValuableConfig.t -> string * option error;
}.

(** [func defaultMinValuableConfig() *MinValuableConfig]: the fields the
    literal leaves out hold Go's zero value. *)
Definition defaultMinValuableConfig : MinValuableConfig.t :=
  {| MinValuableConfig.LogLevel := LogLevelError;
     MinValuableConfig.IOMode := IOModeHTTP;
     MinValuableConfig.OutFile := "";
     MinValuableConfig.HubURL := "";
     MinValuableConfig.HubUser := "";
     MinValuableConfig.HubPassword := "" |}.

(** [func NewMinimumConfig() *MinValuableConfig] *)
Definition NewMinimumConfig (GOOS : string) (env : gmap string string)
  : MinValuableConfig.t :=
  let cfg := defaultMinValuableConfig in
  let cfg := MinValuableConfig.applyEnv env false cfg in
  if (MinValuableConfig.HubURL cfg =? "")%string then
    let cfg := MinValuableConfig.set_IOMode IOModeFile cfg in
    if (GOOS =? "windows")%string then MinValuableConfig.set_OutFile "NUL" cfg
    else MinValuableConfig.set_OutFile "/dev/null" cfg
  else MinValuableConfig.set_IOMode IOModeHTTP cfg.

(** ** Library functions [config.go] calls *)

(** [strings.HasPrefix(s, prefix)] *)
Definition strings_HasPrefix (s prefix : string) : bool := String.prefix prefix s.

(** [strings.Contains(s, substr)] *)
Definition strings_Contains (s substr : string) : bool :=
  match String.index 0 substr s with
  | Some _ => true
  | None => false
  end.

(** [s[i]] for an index within the string; every use is guarded by a
    test on the length, as an index out of range panics in Go. *)
Definition byte_at (s : string) (i : nat) : ascii :=
  match String.get i s with
  | Some c => c
  | None => Ascii.zero
  end.

(** [common.StrInSlice(s, list)] of [pkg/common]: membership in a slice. *)
Definition StrInSlice (s : string) (l : list string) : bool :=
  existsb (String.eqb s) l.

Module filepath.

Definition isSlash (c : ascii) : bool := (c =? "\")%char || (c =? "/")%char.

Definition isLetter (c : ascii) : bool :=
  let n := N_of_ascii c in
  ((97 <=? n) && (n <=? 122) || (65 <=? n) && (n <=? 90))%N.

Definition toUpper (c : ascii) : ascii :=
  let n := N_of_ascii c in
  if ((97 <=? n) && (n <=? 122))%N then ascii_of_N (n - 32) else c.

Definition reservedNames : list string :=
  ["CON"; "PRN"; "AUX"; "NUL";
   "COM1"; "COM2"; "COM3"; "COM4"; "COM5"; "COM6"; "COM7"; "COM8"; "COM9";
   "LPT1"; "LPT2"; "LPT3"; "LPT4"; "LPT5"; "LPT6"; "LPT7"; "LPT8"; "LPT9"].

Fixpoint upper (s : string) : string :=
  match s with
  | EmptyString => EmptyString
  | String c r => String (toUpper c) (upper r)
  end.

(** [strings.EqualFold] against one of the names above, all ASCII. *)
Definition isReservedName (path : string) : bool :=
  existsb (String.eqb (upper path)) reservedNames.

(** The inner loop of [volumeNameLen]: the index of the first separator at
    or after [n], or the length of the path; [s] is [path[n:]]. *)
Fixpoint share_end (s : string) (n : nat) : nat :=
  match s with
  | EmptyString => n
  | String c r => if isSlash c then n else share_end r (S n)
  end.

(** The outer loop [for n := 3; n < l-1; n++] of [volumeNameLen]; [s] is
    [path[n:]]. *)
Fixpoint unc_scan (s : string) (n : nat) : nat :=
  match s with
  | String c (String d _ as r) =>
      if isSlash c then
        if negb (isSlash d) then
          if (d =? ".")%char then 0%nat else share_end r (S n)
        else 0%nat
      else unc_scan r (S n)
  | _ => 0%nat
  end.

(** [volumeNameLen] of [path/filepath] on Windows: a drive letter with its
    colon, or the server and share of a UNC path. *)
Definition volumeNameLen (path : string) : nat :=
  match path with
  | String c (String p1 r1) =>
      if (p1 =? ":")%char && isLetter c then 2%nat
      else
        match r1 with
        | String p2 r2 =>
            if (5 <=? String.length path)%nat && isSlash c && isSlash p1
               && negb (isSlash p2) && negb (p2 =? ".")%char
            then unc_scan r2 3 else 0%nat
        | EmptyString => 0%nat
        end
  | _ => 0%nat
  end.

(** [IsAbs] on Windows, as in the Go releases up to 1.19: a reserved device
    name, or a volume name followed by a separator. *)
Definition IsAbs_windows (path : string) : bool :=
  if isReservedName path then true
  else
    let l := volumeNameLen path in
    if (l =? 0)%nat then false
    else
      match String.substring l (String.length path - l) path with
      | EmptyString => false
      | String c _ => isSlash c
      end.

(** [IsAbs] on Unix. *)
Definition IsAbs_unix (path : string) : bool := strings_HasPrefix path "/".

(** [filepath.IsAbs], which the build selects by operating system. *)
Definition IsAbs (GOOS : string) (path : string) : bool :=
  if is_windows GOOS then IsAbs_windows path else IsAbs_unix path.

(** The separator of a Unix path. *)
Definition isSep (c : ascii) : bool := (c =? "/")%char.

(** The index after the last separator of [s], 0 when there is none. *)
Fixpoint after_last_sep (s : string) (i : nat) (last : nat) : nat :=
  match s with
  | EmptyString => last
  | String c r => after_last_sep r (S i) (if isSep c then S i else last)
  end.

(** [filepath.Dir] on a clean Unix path: the path up to its last separator,
    without that separator unless it is the root; [.] for a path with no
    separator.  (On other paths the library also cleans the result.) *)
Definition Dir (path : string) : string :=
  match after_last_sep path 0 0 with
  | O => "."
  | S O => "/"
  | S k => String.substring 0 k path
  end.

End filepath.

(** [pkg/jobmon]: the severities of a failed job. *)
Module jobmon.

(** Modelled from the spec: [pkg/jobmon] is not part of [config.go]; the
    severity is one of a fixed enumerated set, which the comment on
    [JobMonitoringConfig.Severity] lists as alert, warning or none, with
    alert the default. *)
Definition Severity : Type := string.
Definition SeverityAlert : Severity := "alert".
Definition SeverityWarning : Severity := "warning".
Definition SeverityNone : Severity := "none".
Definition ValidSeverities : list Severity :=
  [SeverityAlert; SeverityWarning; SeverityNone].
Definition IsValidJobMonitoringSeverity (s : Severity) : bool :=
  existsb (String.eqb s) ValidSeverities.

End jobmon.

(** A line written through logrus. *)
Inductive log_entry : Type :=
| log_Warningf (format : string) (args : list fmt_arg)
| log_Warn (msg : string)
| log_Errorf (cause : error) (format : string) (args : list fmt_arg).

Definition minIntervalValue : float := 30.0%float.
Definition minHeartbeatIntervalValue : float := 5.0%float.
Definition minHubRequestTimeout : Z := 1.
Definition maxHubRequestTimeout : Z := 600.
Definition minSystemUpdatesCheckInterval : Z := 300.
Definition minSelfUpdatesCheckInterval : Z := 600.

(** The conversion [int64(n)], and the result of an [int64] operation whose
    exact value is [n]: the value of its low 64 bits, in two's complement. *)
Definition int64_of (n : Z) : Z := (n + 2 ^ 63) mod 2 ^ 64 - 2 ^ 63.

(** [time.Second], a [time.Duration] in nanoseconds. *)
Definition time_Second : Z := 1000000000.

Definition operationModes : list string :=
  [OperationModeFull; OperationModeMinimal; OperationModeHeartbeat].

(** ** The nested configuration blocks *)

Module LogsFilesConfig.
Record t : Type := mk { HubFile : string }.
End LogsFilesConfig.

Module CPUUtilisationAnalysisConfig.
Record t : Type := mk {
  Threshold : float;
  Function : string;
  Metric : string;
  GatheringMode : string;
  ReportProcesses : Z;
  TrailingProcessAnalysisMinutes : Z;
}.
End CPUUtilisationAnalysisConfig.

Module StorCLIConfig.
Record t : Type := mk { BinaryPath : string }.
End StorCLIConfig.

Module DockerMonitoringConfig.
Record t : Type := mk { Enabled : bool }.
End DockerMonitoringConfig.

Module ConfigDeprecated.
Record t : Type := mk { WindowsUpdatesWatcherInterval : Z }.
End ConfigDeprecated.

Module UpdatesMonitoringConfig.

(** [FetchTimeout] and [CheckInterval] are [uint32]. *)
Record t : Type := mk {
  Enabled : bool;
  FetchTimeout : Z;
  CheckInterval : Z;
}.

Definition set_Enabled (v : bool) (l : t) : t := mk v (FetchTimeout l) (CheckInterval l).
Definition set_CheckInterval (v : Z) (l : t) : t := mk (Enabled l) (FetchTimeout l) v.

(** [func (l *UpdatesMonitoringConfig) Validate() error] *)
Definition Validate (l : t) : t * list log_entry * option error :=
  if FetchTimeout l >=? CheckInterval l then
    (l, [], Some (errors_New "fetch_timeout should be less than check_interval"))
  else if CheckInterval l <? minSystemUpdatesCheckInterval then
    (set_CheckInterval minSystemUpdatesCheckInterval l,
     [log_Warningf
        "system_updates_checks.check_interval is less than minimum(%d). It was set to %d"
        [arg_int minSystemUpdatesCheckInterval; arg_int minSystemUpdatesCheckInterval]],
     None)
  else (l, [], None).

End UpdatesMonitoringConfig.

Module UpdatesConfig.

(** [CheckInterval] is [uint32]. *)
Record t : Type := mk {
  Enabled : bool;
  URL : string;
  CheckInterval : Z;
}.

Definition set_Enabled (v : bool) (u : t) : t := mk v (URL u) (CheckInterval u).
Definition set_URL (v : string) (u : t) : t := mk (Enabled u) v (CheckInterval u).

(** [func (u *UpdatesConfig) Validate() error] *)
Definition Validate (u : t) : option error :=
  if CheckInterval u <? minSelfUpdatesCheckInterval then
    Some (fmt_Errorf "check_interval must be greater than %d seconds"
            [arg_int minSelfUpdatesCheckInterval])
  else None.

(** [func (u *UpdatesConfig) GetCheckInterval() time.Duration]: the
    product of two [int64], a [time.Duration] in nanoseconds. *)
Definition GetCheckInterval (u : t) : Z :=
  int64_of (int64_of (CheckInterval u) * int64_of time_Second).

End UpdatesConfig.

Module JobMonitoringConfig.

Record t : Type := mk {
  SpoolDirPath : string;
  RecordStdErr : bool;
  RecordStdOut : bool;
  Severity : jobmon.Severity;
}.

Definition set_SpoolDirPath (v : string) (j : t) : t :=
  mk v (RecordStdErr j) (RecordStdOut j) (Severity j).

(** [func (j *JobMonitoringConfig) Validate() error] *)
Definition Validate (GOOS : string) (j : t) : option error :=
  if (String.length (SpoolDirPath j) =? 0)%nat then
    Some (errors_New "spool_dir is empty")
  else if negb (filepath.IsAbs GOOS (SpoolDirPath j)) then
    Some (errors_New "spool_dir path must be absolute")
  else if negb (jobmon.IsValidJobMonitoringSeverity (Severity j)) then
    Some (fmt_Errorf "severity has invalid value. Must be one of %v"
            [arg_strings jobmon.ValidSeverities])
  else None.

End JobMonitoringConfig.

(** ** [strconv.ParseFloat] and the conversion to [uint64] *)

(** The standard library's parser of floating-point numbers, by its
    documented contract: the syntax [readFloat] accepts since Go 1.13
    (decimal and hexadecimal numbers, underscores between digits) and the
    special values, and as result the [float64] nearest to the number
    written, ties to even. *)
Module strconv.

(** [lower(c)] of [strconv]: [c | ('x' - 'X')]. *)
Definition lower (c : ascii) : N := N.lor (N_of_ascii c) 32.

Definition isDigit (c : ascii) : bool :=
  let n := N_of_ascii c in ((48 <=? n) && (n <=? 57))%N.

Definition digitVal (c : ascii) : Z := Z.of_N (N_of_ascii c) - 48.

Definition isHexLetter (c : ascii) : bool :=
  ((97 <=? lower c) && (lower c <=? 102))%N.

Definition hexLetterVal (c : ascii) : Z := Z.of_N (lower c) - 97 + 10.

(** ASCII letters in lower case, as [commonPrefixLenIgnoreCase] folds them. *)
Fixpoint fold_case (s : string) : string :=
  match s with
  | EmptyString => EmptyString
  | String c r =>
      let n := N_of_ascii c in
      String (if ((65 <=? n) && (n <=? 90))%N then ascii_of_N (n + 32) else c)
             (fold_case r)
  end.

(** [special]: the strings that denote an infinity or a NaN, when they make
    up the whole input. *)
Definition special (s : string) : option float :=
  let inf (t : string) : bool :=
    ((fold_case t =? "inf") || (fold_case t =? "infinity"))%string in
  match s with
  | String "+" t => if inf t then Some infinity else None
  | String "-" t => if inf t then Some neg_infinity else None
  | _ =>
      if inf s then Some infinity
      else if (fold_case s =? "nan")%string then Some nan
      else None
  end.

(** What the digit loop of [readFloat] has seen: the digits read as one
    integer in the base, how many of them stood after the point, and the
    flags of the source. *)
Record mantissa : Type := mk_mantissa {
  digits : Z;
  after_dot : Z;
  sawdot : bool;
  sawdigits : bool;
  underscores : bool;
}.

(** The digit loop of [readFloat]; returns what is left of the input at the
    byte that ends the loop. *)
Fixpoint read_digits (hex : bool) (s : string) (m : mantissa) : mantissa * string :=
  match s with
  | EmptyString => (m, s)
  | String c r =>
      let base := if hex then 16 else 10 in
      let push (v : Z) :=
        mk_mantissa (digits m * base + v)
                    (if sawdot m then after_dot m + 1 else after_dot m)
                    (sawdot m) true (underscores m) in
      if (c =? "_")%char then
        read_digits hex r
          (mk_mantissa (digits m) (after_dot m) (sawdot m) (sawdigits m) true)
      else if (c =? ".")%char then
        if sawdot m then (m, s)
        else read_digits hex r
               (mk_mantissa (digits m) (after_dot m) true (sawdigits m) (underscores m))
      else if isDigit c then read_digits hex r (push (digitVal c))
      else if hex && isHexLetter c then read_digits hex r (push (hexLetterVal c))
      else (m, s)
  end.

(** The digits of an exponent, underscores skipped; [e] stops growing at
    10000 as in the source.  Returns [None] at a byte that is neither. *)
Fixpoint read_exp_digits (s : string) (e : Z) (us : bool) : option (Z * bool) :=
  match s with
  | EmptyString => Some (e, us)
  | String c r =>
      if (c =? "_")%char then read_exp_digits r e true
      else if isDigit c then
        read_exp_digits r (if e <? 10000 then e * 10 + digitVal c else e) us
      else None
  end.

(** The exponent part after its letter: an optional sign and at least one
    digit, up to the end of the input. *)
Definition read_exponent (s : string) : option (Z * bool) :=
  let unsigned (esign : Z) (t : string) :=
    match t with
    | String c _ =>
        if isDigit c then
          match read_exp_digits t 0 false with
          | Some (e, us) => Some (e * esign, us)
          | None => None
          end
        else None
    | EmptyString => None
    end in
  match s with
  | String "+" t => unsigned 1 t
  | String "-" t => unsigned (-1) t
  | _ => unsigned 1 s
  end.

(** [underscoreOK]: an underscore stands between two digits, or between the
    base prefix and a digit. *)
Inductive seen : Type := seen_start | seen_digit | seen_underscore | seen_other.

Fixpoint underscore_scan (hex : bool) (s : string) (saw : seen) : bool :=
  match s with
  | EmptyString => match saw with seen_underscore => false | _ => true end
  | String c r =>
      if isDigit c || hex && isHexLetter c then underscore_scan hex r seen_digit
      else if (c =? "_")%char then
        match saw with
        | seen_digit => underscore_scan hex r seen_underscore
        | _ => false
        end
      else
        match saw with
        | seen_underscore => false
        | _ => underscore_scan hex r seen_other
        end
  end.

Definition underscoreOK (s : string) : bool :=
  let s := match s with
           | String "+" t => t
           | String "-" t => t
           | _ => s
           end in
  match s with
  | String "0" (String c r) =>
      if ((lower c =? 98) || (lower c =? 111) || (lower c =? 120))%N
      then underscore_scan (lower c =? 120)%N r seen_digit
      else underscore_scan false s seen_start
  | _ => underscore_scan false s seen_start
  end.

(** A number that [readFloat] accepts over the whole input: its sign, its
    digits as an integer, and the power of [radix] that scales them. *)
Record number : Type := mk_number {
  neg : bool;
  mant : Z;
  radix : Z;
  scale : Z;
}.

Definition readFloat (s : string) : option number :=
  let (neg, t) :=
    match s with
    | String "+" t => (false, t)
    | String "-" t => (true, t)
    | _ => (false, s)
    end in
  let (hex, t) :=
    match t with
    | String "0" (String x (String _ _ as u)) =>
        if (lower x =? 120)%N then (true, u) else (false, t)
    | _ => (false, t)
    end in
  let (m, rest) := read_digits hex t (mk_mantissa 0 0 false false false) in
  if negb (sawdigits m) then None
  else
    let expChar : N := if hex then 112%N else 101%N in
    let finish (e : Z) (us : bool) : option number :=
      if (underscores m || us) && negb (underscoreOK s) then None
      else if hex then Some (mk_number neg (digits m) 2 (e - 4 * after_dot m))
      else Some (mk_number neg (digits m) 10 (e - after_dot m)) in
    match rest with
    | EmptyString => if hex then None else finish 0 false
    | String c r =>
        if (lower c =? expChar)%N then
          match read_exponent r with
          | Some (e, us) => finish e us
          | None => None
          end
        else None
    end.

(** *** Rounding to the nearest [float64], ties to even *)

(** [floor (n / (d * 2^e))] and the remainder, as numerator and denominator
    of the same scaling. *)
Definition scaled (n d e : Z) : Z * Z :=
  if 0 <=? e then (n, d * 2 ^ e) else (n * 2 ^ (- e), d).

(** The binary64 nearest to [n / d] for positive [n] and [d]: the exponent
    [e] of the last place is the one that leaves a 53-bit quotient, not
    below -1074; a quotient rounded up to [2^53] moves one place.  [None]
    when the result exceeds the largest finite number. *)
Definition round_ratio (sign : bool) (n d : Z) : option float :=
  let e0 := Z.log2 n - Z.log2 d - 52 in
  let (n0, d0) := scaled n d e0 in
  let q0 := n0 / d0 in
  let e1 := if q0 <? 2 ^ 52 then e0 - 1 else if 2 ^ 53 <=? q0 then e0 + 1 else e0 in
  let e := Z.max e1 (-1074) in
  let (n1, d1) := scaled n d e in
  let q := n1 / d1 in
  let r := n1 mod d1 in
  let q := if (d1 <? 2 * r) || ((d1 =? 2 * r) && Z.odd q) then q + 1 else q in
  let (q, e) := if q =? 2 ^ 53 then (2 ^ 52, e + 1) else (q, e) in
  if 1024 <? e + 53 then None
  else
    match q with
    | Zpos p => Some (SF2Prim (S754_finite sign p e))
    | _ => Some (SF2Prim (S754_zero sign))
    end.

Fixpoint decimal_digits_pos (fuel : nat) (n : Z) : Z :=
  match fuel with
  | O => 0
  | S f => if n <=? 0 then 0 else 1 + decimal_digits_pos f (n / 10)
  end.

(** The number of decimal digits of [n], 0 for 0. *)
Definition decimal_digits (n : Z) : Z :=
  decimal_digits_pos (S (Z.to_nat (Z.log2 n))) n.

(** The value of an accepted number, or [None] for an overflow.  The two
    early exits are those of [decimal.floatBits] (a decimal point beyond
    310 digits overflows, one below -330 gives zero) and their binary
    counterparts; they keep the powers below small. *)
Definition value (x : number) : option float :=
  if mant x =? 0 then Some (SF2Prim (S754_zero (neg x)))
  else if radix x =? 10 then
    let dp := decimal_digits (mant x) + scale x in
    if 310 <? dp then None
    else if dp <? -330 then Some (SF2Prim (S754_zero (neg x)))
    else if 0 <=? scale x then round_ratio (neg x) (mant x * 10 ^ scale x) 1
    else round_ratio (neg x) (mant x) (10 ^ (- scale x))
  else
    let bp := Z.log2 (mant x) + 1 + scale x in
    if 1025 <? bp then None
    else if bp <? -1100 then Some (SF2Prim (S754_zero (neg x)))
    else if 0 <=? scale x then round_ratio (neg x) (mant x * 2 ^ scale x) 1
    else round_ratio (neg x) (mant x) (2 ^ (- scale x)).

Definition syntaxError (fn str : string) : error :=
  strconv_NumError fn str strconv_ErrSyntax.
Definition rangeError (fn str : string) : error :=
  strconv_NumError fn str strconv_ErrRange.

(** [strconv.ParseFloat(s, bitSize)] for a [bitSize] other than 32: the
    special values, else the nearest [float64] of the decimal or hexadecimal
    number [s] spells; a syntax error gives 0, a value out of range the
    infinity of its sign. *)
Definition ParseFloat (s : string) : float * option error :=
  match special s with
  | Some f => (f, None)
  | None =>
      match readFloat s with
      | None => (0%float, Some (syntaxError "ParseFloat" s))
      | Some x =>
          match value x with
          | Some f => (f, None)
          | None =>
              ((if neg x then neg_infinity else infinity),
               Some (rangeError "ParseFloat" s))
          end
      end
  end.

End strconv.

(** The conversion [uint64(f)] of a [float64]: the fraction is discarded.
    The Go specification leaves the result open when the truncated value
    does not fit (and for a NaN); that case is [None]. *)
Definition uint64_of_float64 (f : float) : option Z :=
  match Prim2SF f with
  | S754_zero _ => Some 0
  | S754_finite s m e =>
      let t := if 0 <=? e then Z.pos m * 2 ^ e else Z.pos m / 2 ^ (- e) in
      let t := if s then - t else t in
      if (0 <=? t) && (t <? 2 ^ 64) then Some t else None
  | _ => None
  end.

(** [toml.MetaData] of the decoder: the keys the decoded text defines, each
    with the tables that lead to it. *)
Module toml.

Definition MetaData : Type := gset (list string).

(** [func (md *MetaData) IsDefined(key ...string) bool]; an empty key is
    never defined. *)
Definition IsDefined (md : MetaData) (key : list string) : bool :=
  match key with
  | [] => false
  | _ => bool_decide (key ∈ md)
  end.

End toml.

(** The conversion [uint32(n)] of an [int]. *)
Definition uint32_of_int (n : Z) : Z := n mod 2 ^ 32.

(** ** [Config] *)

Module Config.

Declare Scope check_scope.
Delimit Scope check_scope with check.

Section Methods.

Context `{Externals}.

(** The fields in the order of the source; [HubRequestTimeout] and
    [OnHTTP5xxRetries] are [int], a slice is the list of its elements. *)
Record t : Type := mk {

  OperationMode : string;
  Interval : float;
  HeartbeatInterval : float;
  PidFile : string;
  LogFile : string;
  LogSyslog : string;
  MinValuableConfig : MinValuableConfig.t;
  HubGzip : bool;
  HubRequestTimeout : Z;
  HubProxy : string;
  HubProxyUser : string;
  HubProxyPassword : string;
  CPULoadDataGather : list string;
  CPUUtilDataGather : list string;
  CPUUtilTypes : list string;
  FSTypeInclude : list string;
  FSPathExclude : list string;
  FSPathExcludeRecurse : bool;
  FSMetrics : list string;
  FSIdentifyMountpointsByDevice : bool;
  NetInterfaceExclude : list string;
  NetInterfaceExcludeRegex : list string;
  NetInterfaceExcludeDisconnected : bool;
  NetInterfaceExcludeLoopback : bool;
  NetMetrics : list string;
  NetInterfaceMaxSpeed : string;
  SystemFields : list string;
  VirtualMachinesStat : list string;
  HardwareInventory : bool;
  DiscoverAutostartingServicesOnly : bool;
  CPUUtilisationAnalysis : CPUUtilisationAnalysisConfig.t;
  TemperatureMonitoring : bool;
  SoftwareRAIDMonitoring : bool;
  SMARTMonitoring : bool;
  SMARTCtl : string;
  Logs : LogsFilesConfig.t;
  StorCLI : StorCLIConfig.t;
  JobMonitoring : JobMonitoringConfig.t;
  SystemUpdatesChecks : UpdatesMonitoringConfig.t;
  MysqlMonitoring : mysql_Config;
  ProcessMonitoring : processes_Config;
  Updates : UpdatesConfig.t;
  DockerMonitoring : DockerMonitoringConfig.t;
  MemMonitoring : bool;
  CPUMonitoring : bool;
  FSMonitoring : bool;
  NetMonitoring : bool;
  OnHTTP5xxRetries : Z;
  OnHTTP5xxRetryInterval : float;

}.

(** A configuration rebuilt from its fields: the shape every assignment to a
    field starts from. *)
Definition fields (c : t) : t :=
  mk (OperationMode c)
     (Interval c)
     (HeartbeatInterval c)
     (PidFile c)
     (LogFile c)
     (LogSyslog c)
     (MinValuableConfig c)
     (HubGzip c)
     (HubRequestTimeout c)
     (HubProxy c)
     (HubProxyUser c)
     (HubProxyPassword c)
     (CPULoadDataGather c)
     (CPUUtilDataGather c)
     (CPUUtilTypes c)
     (FSTypeInclude c)
     (FSPathExclude c)
     (FSPathExcludeRecurse c)
     (FSMetrics c)
     (FSIdentifyMountpointsByDevice c)
     (NetInterfaceExclude c)
     (NetInterfaceExcludeRegex c)
     (NetInterfaceExcludeDisconnected c)
     (NetInterfaceExcludeLoopback c)
     (NetMetrics c)
     (NetInterfaceMaxSpeed c)
     (SystemFields c)
     (VirtualMachinesStat c)
     (HardwareInventory c)
     (DiscoverAutostartingServicesOnly c)
     (CPUUtilisationAnalysis c)
     (TemperatureMonitoring c)
     (SoftwareRAIDMonitoring c)
     (SMARTMonitoring c)
     (SMARTCtl c)
     (Logs c)
     (StorCLI c)
     (JobMonitoring c)
     (SystemUpdatesChecks c)
     (MysqlMonitoring c)
     (ProcessMonitoring c)
     (Updates c)
     (DockerMonitoring c)
     (MemMonitoring c)
     (CPUMonitoring c)
     (FSMonitoring c)
     (NetMonitoring c)
     (OnHTTP5xxRetries c)
     (OnHTTP5xxRetryInterval c).

(** [c.f = v]: [fields c] with the field [f c] replaced by [v]. *)
Ltac assign f v c :=
  let e := eval cbv beta delta [fields] in (fields c) in
  lazymatch (eval pattern (f c) in e) with
  | ?g _ => let r := eval cbv beta in (g v) in exact r
  end.

Definition set_Interval (v : float) (c : t) : t :=
  ltac:(assign Interval v c).
Definition set_HeartbeatInterval (v : float) (c : t) : t :=
  ltac:(assign HeartbeatInterval v c).
Definition set_MinValuableConfig (v : MinValuableConfig.t) (c : t) : t :=
  ltac:(assign MinValuableConfig v c).
Definition set_HubProxy (v : string) (c : t) : t :=
  ltac:(assign HubProxy v c).
Definition set_CPULoadDataGather (v : list string) (c : t) : t :=
  ltac:(assign CPULoadDataGather v c).
Definition set_CPUUtilTypes (v : list string) (c : t) : t :=
  ltac:(assign CPUUtilTypes v c).
Definition set_FSMetrics (v : list string) (c : t) : t :=
  ltac:(assign FSMetrics v c).
Definition set_NetInterfaceExcludeRegex (v : list string) (c : t) : t :=
  ltac:(assign NetInterfaceExcludeRegex v c).
Definition set_NetInterfaceMaxSpeed (v : string) (c : t) : t :=
  ltac:(assign NetInterfaceMaxSpeed v c).
Definition set_VirtualMachinesStat (v : list string) (c : t) : t :=
  ltac:(assign VirtualMachinesStat v c).
Definition set_JobMonitoring (v : JobMonitoringConfig.t) (c : t) : t :=
  ltac:(assign JobMonitoring v c).
Definition set_SystemUpdatesChecks (v : UpdatesMonitoringConfig.t) (c : t) : t :=
  ltac:(assign SystemUpdatesChecks v c).
Definition set_MysqlMonitoring (v : mysql_Config) (c : t) : t :=
  ltac:(assign MysqlMonitoring v c).
Definition set_Updates (v : UpdatesConfig.t) (c : t) : t :=
  ltac:(assign Updates v c).
Definition set_OnHTTP5xxRetries (v : Z) (c : t) : t :=
  ltac:(assign OnHTTP5xxRetries v c).
Definition set_OnHTTP5xxRetryInterval (v : float) (c : t) : t :=
  ltac:(assign OnHTTP5xxRetryInterval v c).

(** [func (cfg *Config) GetParsedNetInterfaceMaxSpeed() (uint64, error)];
    the value is [None] where the conversion to [uint64] is left open. *)
Definition GetParsedNetInterfaceMaxSpeed (cfg : t) : option Z * option error :=
  let v := NetInterfaceMaxSpeed cfg in
  if (v =? "")%string then (Some 0, None)
  else if (String.length v <? 2)%nat then (Some 0, Some (fmt_Errorf "can't parse" []))
  else
    let valueStr := String.substring 0 (String.length v - 1) v in
    let unit := byte_at v (String.length v - 1) in
    let (value, err) := strconv.ParseFloat valueStr in
    if is_err err then (Some 0, err)
    else if (value <=? 0.0)%float then (Some 0, Some (fmt_Errorf "should be > 0.0" []))
    else if (unit =? "K")%char then
      (uint64_of_float64 (value * 1000)%float, None)
    else if (unit =? "M")%char then
      (uint64_of_float64 (value * 1000 * 1000)%float, None)
    else if (unit =? "G")%char then
      (uint64_of_float64 (value * 1000 * 1000 * 1000)%float, None)
    else (Some 0, Some (fmt_Errorf "unsupported unit: %c" [arg_byte unit])).

(** *** [validate] *)

(** [validate] runs its checks in order on the configuration it mutates.
    After a check the function either goes on to the next statement or
    returns; both carry the configuration as assigned so far and the
    warnings logged. *)
Definition state : Type := t * list log_entry.

Inductive flow : Type :=
| Next (st : state)
| Return (st : state) (err : option error).

Definition check : Type := state -> flow.

Definition and_then (c1 c2 : check) : check :=
  fun st => match c1 st with
            | Next st' => c2 st'
            | Return st' err => Return st' err
            end.

Notation "c1 ;; c2" := (and_then c1 c2)
  (at level 100, c2 at level 200, right associativity) : check_scope.

Definition check_hub_proxy : check := fun '(cfg, log) =>
  if negb (HubProxy cfg =? "")%string then
    let cfg :=
      if negb (strings_HasPrefix (HubProxy cfg) "http")
      then set_HubProxy ("http://" ++ HubProxy cfg) cfg
      else cfg in
    if is_err (url_Parse (HubProxy cfg)) then
      Return (cfg, log) (Some (fmt_Errorf "failed to parse 'hub_proxy' URL" []))
    else Next (cfg, log)
  else Next (cfg, log).

Definition check_interval : check := fun '(cfg, log) =>
  if (Interval cfg <? minIntervalValue)%float then
    Return (cfg, log)
      (Some (fmt_Errorf "interval value must be >= %.1f" [arg_float minIntervalValue]))
  else Next (cfg, log).

Definition check_heartbeat : check := fun '(cfg, log) =>
  if (HeartbeatInterval cfg <? minHeartbeatIntervalValue)%float then
    Return (cfg, log)
      (Some (fmt_Errorf "heartbeat value must be >= %.1f"
               [arg_float minHeartbeatIntervalValue]))
  else Next (cfg, log).

Definition check_operation_mode : check := fun '(cfg, log) =>
  if negb (StrInSlice (OperationMode cfg) operationModes) then
    Return (cfg, log)
      (Some (fmt_Errorf "invalid operation_mode supplied. Must be one of %v"
               [arg_strings operationModes]))
  else Next (cfg, log).

Definition check_net_interface_max_speed : check := fun '(cfg, log) =>
  match snd (GetParsedNetInterfaceMaxSpeed cfg) with
  | Some err =>
      Return (cfg, log)
        (Some (fmt_Errorf "invalid net_interface_max_speed value supplied: %s"
                 [arg_error err]))
  | None => Next (cfg, log)
  end.

Definition check_hub_request_timeout : check := fun '(cfg, log) =>
  if (HubRequestTimeout cfg <? minHubRequestTimeout)
     || (HubRequestTimeout cfg >? maxHubRequestTimeout) then
    Return (cfg, log)
      (Some (fmt_Errorf "hub_request_timeout must be between %d and %d"
               [arg_int minHubRequestTimeout; arg_int maxHubRequestTimeout]))
  else Next (cfg, log).

Definition check_jobmon (GOOS : string) : check := fun '(cfg, log) =>
  match JobMonitoringConfig.Validate GOOS (JobMonitoring cfg) with
  | Some err =>
      Return (cfg, log) (Some (fmt_Errorf "invalid [jobmon] config: %s" [arg_error err]))
  | None => Next (cfg, log)
  end.

Definition check_system_updates_checks : check := fun '(cfg, log) =>
  let '(l, warnings, err) := UpdatesMonitoringConfig.Validate (SystemUpdatesChecks cfg) in
  let cfg := set_SystemUpdatesChecks l cfg in
  let log := (log ++ warnings)%list in
  match err with
  | Some err =>
      Return (cfg, log)
        (Some (fmt_Errorf "invalid [system_updates_checks] config: %s" [arg_error err]))
  | None => Next (cfg, log)
  end.

Definition check_mysql_monitoring : check := fun '(cfg, log) =>
  let (m, err) := mysql_Validate (MysqlMonitoring cfg) in
  let cfg := set_MysqlMonitoring m cfg in
  match err with
  | Some err =>
      Return (cfg, log)
        (Some (fmt_Errorf "invalid [mysql_monitoring] config: %s" [arg_error err]))
  | None => Next (cfg, log)
  end.

Definition check_updates : check := fun '(cfg, log) =>
  match UpdatesConfig.Validate (Updates cfg) with
  | Some err =>
      Return (cfg, log) (Some (fmt_Errorf "invalid [updates] config: %s" [arg_error err]))
  | None => Next (cfg, log)
  end.

Definition check_on_http_5xx_retries : check := fun '(cfg, log) =>
  if (OnHTTP5xxRetries cfg <? 0) || (OnHTTP5xxRetries cfg >? 5) then
    Return (set_OnHTTP5xxRetries 5 cfg,
            (log ++ [log_Warn "on_http_5xx_retries value out of range (0-5). was reset to 5"])%list)
           None
  else Next (cfg, log).

Definition check_on_http_5xx_retry_interval : check := fun '(cfg, log) =>
  if ((OnHTTP5xxRetryInterval cfg <? 1) || (3 <? OnHTTP5xxRetryInterval cfg))%float then
    Return (set_OnHTTP5xxRetryInterval 3 cfg,
            (log ++ [log_Warn
                       "on_http_5xx_retry_interval value out of range (1-3). was reset to 3"])%list)
           None
  else Next (cfg, log).

(** [func (cfg *Config) validate() error]: the configuration as the call
    leaves it, the warnings it logged and the error it returns. *)
Definition validate (GOOS : string) (cfg : t) : t * list log_entry * option error :=
  match (check_hub_proxy ;;
         check_interval ;;
         check_heartbeat ;;
         check_operation_mode ;;
         check_net_interface_max_speed ;;
         check_hub_request_timeout ;;
         check_jobmon GOOS ;;
         check_system_updates_checks ;;
         check_mysql_monitoring ;;
         check_updates ;;
         check_on_http_5xx_retries ;;
         check_on_http_5xx_retry_interval)%check (cfg, [])
  with
  | Next (cfg, log) => (cfg, log, None)
  | Return (cfg, log) err => (cfg, log, err)
  end.

(** [func (cfg *Config) migrate(cfgDeprecated *ConfigDeprecated, metadata
    toml.MetaData)] *)
Definition migrate (GOOS : string) (cfgDeprecated : ConfigDeprecated.t)
    (metadata : toml.MetaData) (cfg : t) : t :=
  if (GOOS =? "windows")%string
     && toml.IsDefined metadata ["windows_updates_watcher_interval"] then
    if ConfigDeprecated.WindowsUpdatesWatcherInterval cfgDeprecated <=? 0 then
      set_SystemUpdatesChecks
        (UpdatesMonitoringConfig.set_Enabled false (SystemUpdatesChecks cfg)) cfg
    else
      set_SystemUpdatesChecks
        (UpdatesMonitoringConfig.set_CheckInterval
           (uint32_of_int (ConfigDeprecated.WindowsUpdatesWatcherInterval cfgDeprecated))
           (SystemUpdatesChecks cfg)) cfg
  else cfg.

End Methods.

Notation "c1 ;; c2" := (and_then c1 c2)
  (at level 100, c2 at level 200, right associativity) : check_scope.

End Config.

(** ** The defaults builder *)

Section Defaults.

Context `{Externals}.

(** The package variable [defaultLogPath], which [init] assigns once from
    the location of the executable and the operating system. *)
Variable defaultLogPath : string.

(** [func NewConfig() *Config].  A field the composite literal leaves out
    holds Go's zero value: the empty string, [false], the nil slice, the
    zero [mysql.Config]. *)
Definition NewConfig (GOOS : string) : Config.t :=
  let cfg :=
    {| Config.OperationMode := OperationModeFull;
       Config.Interval := 90;
       Config.HeartbeatInterval := 15;
       Config.PidFile := "";
       Config.LogFile := defaultLogPath;
       Config.LogSyslog := "";
       Config.MinValuableConfig :=
         MinValuableConfig.mk "" "" "" "" "" "";
       Config.HubGzip := true;
       Config.HubRequestTimeout := 30;
       Config.HubProxy := "";
       Config.HubProxyUser := "";
       Config.HubProxyPassword := "";
       Config.CPULoadDataGather := ["avg1"];
       Config.CPUUtilDataGather := ["avg1"];
       Config.CPUUtilTypes := ["user"; "system"; "idle"; "iowait"];
       Config.FSTypeInclude :=
         ["ext3"; "ext4"; "xfs"; "jfs"; "ntfs"; "btrfs"; "hfs"; "apfs"; "fat32";
          "smbfs"; "nfs"];
       Config.FSPathExclude := [];
       Config.FSPathExcludeRecurse := false;
       Config.FSMetrics :=
         ["free_B"; "free_percent"; "total_B"; "read_B_per_s"; "write_B_per_s";
          "read_ops_per_s"; "write_ops_per_s"];
       Config.FSIdentifyMountpointsByDevice := true;
       Config.NetInterfaceExclude := [];
       Config.NetInterfaceExcludeRegex :=
         ["^vnet(.*)$"; "^virbr(.*)$"; "^vmnet(.*)$"; "^vEthernet(.*)$"];
       Config.NetInterfaceExcludeDisconnected := true;
       Config.NetInterfaceExcludeLoopback := true;
       Config.NetMetrics :=
         ["in_B_per_s"; "out_B_per_s"; "total_out_B_per_s"; "total_in_B_per_s"];
       Config.NetInterfaceMaxSpeed := "";
       Config.SystemFields :=
         ["uname"; "os_kernel"; "os_family"; "os_arch"; "cpu_model"; "fqdn";
          "memory_total_B"];
       Config.VirtualMachinesStat := [];
       Config.HardwareInventory := true;
       Config.DiscoverAutostartingServicesOnly := true;
       Config.CPUUtilisationAnalysis :=
         {| CPUUtilisationAnalysisConfig.Threshold := 10;
            CPUUtilisationAnalysisConfig.Function := "lt";
            CPUUtilisationAnalysisConfig.Metric := "idle";
            CPUUtilisationAnalysisConfig.GatheringMode := "avg1";
            CPUUtilisationAnalysisConfig.ReportProcesses := 5;
            CPUUtilisationAnalysisConfig.TrailingProcessAnalysisMinutes := 5 |};
       Config.TemperatureMonitoring := true;
       Config.SoftwareRAIDMonitoring := true;
       Config.SMARTMonitoring := false;
       Config.SMARTCtl := "";
       Config.Logs := {| LogsFilesConfig.HubFile := "" |};
       Config.StorCLI := {| StorCLIConfig.BinaryPath := "" |};
       Config.JobMonitoring :=
         {| JobMonitoringConfig.SpoolDirPath := "/var/lib/cagent/jobmon";
            JobMonitoringConfig.RecordStdErr := true;
            JobMonitoringConfig.RecordStdOut := false;
            JobMonitoringConfig.Severity := jobmon.SeverityAlert |};
       Config.SystemUpdatesChecks :=
         {| UpdatesMonitoringConfig.Enabled := true;
            UpdatesMonitoringConfig.FetchTimeout := 30;
            UpdatesMonitoringConfig.CheckInterval := 14400 |};
       Config.MysqlMonitoring := mysql_Config_zero;
       Config.ProcessMonitoring := processes_GetDefaultConfig;
       Config.Updates :=
         {| UpdatesConfig.Enabled := false;
            UpdatesConfig.URL := "";
            UpdatesConfig.CheckInterval := 21600 |};
       Config.DockerMonitoring := {| DockerMonitoringConfig.Enabled := true |};
       Config.MemMonitoring := true;
       Config.CPUMonitoring := true;
       Config.FSMonitoring := true;
       Config.NetMonitoring := true;
       Config.OnHTTP5xxRetries := 4;
       Config.OnHTTP5xxRetryInterval := 2.0 |} in
  let cfg := Config.set_MinValuableConfig defaultMinValuableConfig cfg in
  if (GOOS =? "windows")%string then
    let cfg :=
      Config.set_NetInterfaceExcludeRegex
        (Config.NetInterfaceExcludeRegex cfg ++ ["Pseudo-Interface"])%list cfg in
    let cfg := Config.set_CPULoadDataGather [] cfg in
    let cfg := Config.set_CPUUtilTypes ["user"; "system"; "idle"] cfg in
    let cfg := Config.set_VirtualMachinesStat ["hyper-v"] cfg in
    let cfg :=
      Config.set_JobMonitoring
        (JobMonitoringConfig.set_SpoolDirPath "C:\ProgramData\cagent\jobmon"
           (Config.JobMonitoring cfg)) cfg in
    let cfg :=
      Config.set_Updates (UpdatesConfig.set_Enabled true (Config.Updates cfg)) cfg in
    let cfg :=
      Config.set_Updates
        (UpdatesConfig.set_URL SelfUpdatesFeedURL (Config.Updates cfg)) cfg in
    cfg
  else if (GOOS =? "darwin")%string then
    Config.set_JobMonitoring
      (JobMonitoringConfig.set_SpoolDirPath "/usr/local/var/lib/cagent/jobmon"
         (Config.JobMonitoring cfg)) cfg
  else
    Config.set_FSMetrics (Config.FSMetrics cfg ++ ["inodes_used_percent"])%list cfg.

End Defaults.

(** ** The file system and the bootstrap generator *)

(** The part of package [os] that [GenerateDefaultConfigFile] uses, over a
    Unix file system held as a finite map from clean paths to nodes.  The
    root and the current directory always exist; permissions are not
    modelled, and a write never fails. *)
Module os.

Inductive node : Type :=
| File (data : string)
| Dir.

Definition lookup (fs : gmap string node) (name : string) : option node :=
  if ((name =? "/") || (name =? "."))%string then Some Dir else fs !! name.

(** [os.Stat(name)]: the node in place of its [FileInfo]. *)
Definition Stat (fs : gmap string node) (name : string) : option node * option error :=
  match lookup fs name with
  | Some n => (Some n, None)
  | None => (None, Some (os_PathError "stat" name (syscall_Errno ENOENT)))
  end.

(** [underlyingError]: the error inside a [*PathError]. *)
Definition underlyingError (err : error) : error :=
  match err with
  | os_PathError _ _ e => e
  | _ => err
  end.

(** [os.IsExist(err)] *)
Definition IsExist (err : option error) : bool :=
  match err with
  | None => false
  | Some e =>
      match underlyingError e with
      | os_ErrExist => true
      | syscall_Errno EEXIST => true
      | syscall_Errno ENOTEMPTY => true
      | _ => false
      end
  end.

(** [os.IsNotExist(err)] *)
Definition IsNotExist (err : option error) : bool :=
  match err with
  | None => false
  | Some e =>
      match underlyingError e with
      | os_ErrNotExist => true
      | syscall_Errno ENOENT => true
      | _ => false
      end
  end.

(** [os.Mkdir(name, perm)] *)
Definition Mkdir (fs : gmap string node) (name : string) : gmap string node * option error :=
  match lookup fs name with
  | Some _ => (fs, Some (os_PathError "mkdir" name (syscall_Errno EEXIST)))
  | None =>
      match lookup fs (filepath.Dir name) with
      | Some Dir => (<[name := Dir]> fs, None)
      | Some (File _) => (fs, Some (os_PathError "mkdir" name (syscall_Errno ENOTDIR)))
      | None => (fs, Some (os_PathError "mkdir" name (syscall_Errno ENOENT)))
      end
  end.

(** The two backward scans of [MkdirAll] over [path[:i]]: past the
    separators that end it, then past its last element. *)
Fixpoint skip_back (sep : bool) (path : string) (i : nat) : nat :=
  match i with
  | O => O
  | S k =>
      match String.get k path with
      | Some c => if Bool.eqb (filepath.isSep c) sep then skip_back sep path k else i
      | None => i
      end
  end.

(** [os.MkdirAll(path, perm)].  The call on the parent is on a strictly
    shorter path; [fuel] is at least the length of [path], so it is never
    spent before the path is. *)
Fixpoint MkdirAll_rec (fuel : nat) (fs : gmap string node) (path : string)
  : gmap string node * option error :=
  match Stat fs path with
  | (Some Dir, None) => (fs, None)
  | (Some (File _), None) =>
      (fs, Some (os_PathError "mkdir" path (syscall_Errno ENOTDIR)))
  | _ =>
      let i := skip_back true path (String.length path) in
      let j := skip_back false path i in
      let parent :=
        if (1 <? j)%nat then
          match fuel with
          | S f => MkdirAll_rec f fs (String.substring 0 (j - 1) path)
          | O => (fs, None)
          end
        else (fs, None) in
      match parent with
      | (fs, Some err) => (fs, Some err)
      | (fs, None) =>
          match Mkdir fs path with
          | (fs', Some err) =>
              match lookup fs' path with
              | Some Dir => (fs', None)
              | _ => (fs', Some err)
              end
          | (fs', None) => (fs', None)
          end
      end
  end.

Definition MkdirAll (fs : gmap string node) (path : string)
  : gmap string node * option error :=
  MkdirAll_rec (String.length path) fs path.

(** An open [*os.File]: its name and the offset of the next write. *)
Record file : Type := mk_file { name : string; offset : nat }.

(** [os.OpenFile(name, os.O_WRONLY|os.O_CREATE, 0666)]: an existing file is
    opened as it is, at offset 0 and with its contents kept (the flags have
    neither [O_EXCL] nor [O_TRUNC]); a missing one is created empty. *)
Definition OpenFile_WRONLY_CREATE (fs : gmap string node) (name : string)
  : gmap string node * (file + error) :=
  match lookup fs name with
  | Some (File _) => (fs, inl (mk_file name 0))
  | Some Dir => (fs, inr (os_PathError "open" name (syscall_Errno EISDIR)))
  | None =>
      match lookup fs (filepath.Dir name) with
      | Some Dir => (<[name := File ""]> fs, inl (mk_file name 0))
      | Some (File _) => (fs, inr (os_PathError "open" name (syscall_Errno ENOTDIR)))
      | None => (fs, inr (os_PathError "open" name (syscall_Errno ENOENT)))
      end
  end.

(** The contents of a file after [b] is written at offset [off]: the bytes
    before the offset and those past the end of [b] stay. *)
Definition overwrite (old : string) (off : nat) (b : string) : string :=
  String.substring 0 off old ++ b
  ++ String.substring (off + String.length b)
       (String.length old - (off + String.length b)) old.

(** [f.Write(b)] *)
Definition Write (fs : gmap string node) (f : file) (b : string)
  : gmap string node * file * option error :=
  match fs !! name f with
  | Some (File old) =>
      (<[name f := File (overwrite old (offset f) b)]> fs,
       mk_file (name f) (offset f + String.length b), None)
  | _ => (fs, f, Some (os_PathError "write" (name f) (syscall_Errno ENOENT)))
  end.

(** [f.Close()] *)
Definition Close (fs : gmap string node) (f : file) : option error := None.

(** [os.Open(name)]: a directory opens as a file does; reading it fails. *)
Definition Open (fs : gmap string node) (name : string) : file + error :=
  match lookup fs name with
  | Some _ => inl (mk_file name 0)
  | None => inr (os_PathError "open" name (syscall_Errno ENOENT))
  end.

(** [ioutil.ReadAll(f)]: the bytes from the offset of [f] to the end of the
    file, leaving the offset at the end. *)
Definition ReadAll (fs : gmap string node) (f : file) : string * file * option error :=
  match lookup fs (name f) with
  | Some (File data) =>
      (String.substring (offset f) (String.length data - offset f) data,
       mk_file (name f) (Nat.max (offset f) (String.length data)), None)
  | Some Dir => ("", f, Some (os_PathError "read" (name f) (syscall_Errno EISDIR)))
  | None => ("", f, Some (os_PathError "read" (name f) (syscall_Errno ENOENT)))
  end.

(** [f.Seek(0, 0)]: back to the start of the file. *)
Definition Seek_start (f : file) : file * option error := (mk_file (name f) 0, None).

End os.

Definition configAutogeneratedHeadline : string :=
"# This is an auto-generated config to connect with the cloudradar service
# To see all options of cagent run cagent -p

".

Section Bootstrap.

Context `{Externals}.

(** [toml.NewEncoder(f).Encode(mvc)]: the encoder's bytes go to [f], also
    when it ends in an error. *)
Definition Encode (fs : gmap string os.node) (f : os.file) (mvc : MinValuableConfig.t)
  : gmap string os.node * os.file * option error :=
  let (bytes, err) := toml_Encode mvc in
  match os.Write fs f bytes with
  | (fs, f, Some werr) => (fs, f, Some werr)
  | (fs, f, None) => (fs, f, err)
  end.

(** The deferred closure of [GenerateDefaultConfigFile]: it closes the file
    and logs a failure to do so.  The function's result is unnamed, so the
    closure cannot change the error returned. *)
Definition deferred_close (fs : gmap string os.node) (f : os.file)
    (configFilePath : string) : list log_entry :=
  match os.Close fs f with
  | Some err => [log_Errorf err "failed to close сonfig file: %s" [arg_string configFilePath]]
  | None => []
  end.

(** [func GenerateDefaultConfigFile(mvc *MinValuableConfig, configFilePath
    string) error]: the file system as the call leaves it, what it logged
    and the error it returns. *)
Definition GenerateDefaultConfigFile (mvc : MinValuableConfig.t) (configFilePath : string)
    (fs : gmap string os.node) : gmap string os.node * list log_entry * option error :=
  if os.IsExist (snd (os.Stat fs configFilePath)) then
    (fs, [], Some (fmt_Errorf "сonfig file already exists at path: %s"
                     [arg_string configFilePath]))
  else
    let configPathDir := filepath.Dir configFilePath in
    let (fs, mkerr) :=
      if os.IsNotExist (snd (os.Stat fs configPathDir))
      then os.MkdirAll fs configPathDir
      else (fs, None) in
    match mkerr with
    | Some err =>
        (fs, [], Some (fmt_Errorf
                         "failed to auto-create the default сonfig file directory '%s': %s"
                         [arg_string configPathDir; arg_error err]))
    | None =>
        match os.OpenFile_WRONLY_CREATE fs configFilePath with
        | (fs, inr err) =>
            (fs, [], Some (fmt_Errorf
                             "failed to create the default сonfig file at '%s': %s"
                             [arg_string configFilePath; arg_error err]))
        | (fs, inl f) =>
            match os.Write fs f configAutogeneratedHeadline with
            | (fs, f, Some _) =>
                (fs, deferred_close fs f configFilePath,
                 Some (fmt_Errorf "failed to write headline to сonfig file" []))
            | (fs, f, None) =>
                match Encode fs f mvc with
                | (fs, f, Some _) =>
                    (fs, deferred_close fs f configFilePath,
                     Some (fmt_Errorf "failed to encode сonfig to file" []))
                | (fs, f, None) => (fs, deferred_close fs f configFilePath, None)
                end
            end
        end
    end.

End Bootstrap.

(** ** Saving and loading the configuration file *)

Section Save.

(** [SaveConfigFile] takes its configuration as an [interface{}]; [A] is the
    type of the value passed and [encode] what the TOML encoder writes for
    it. *)
Variable A : Type.
Variable encode : A -> string * option error.

(** [func SaveConfigFile(cfg interface{}, configFilePath string) error] *)
Definition SaveConfigFile (cfg : A) (configFilePath : string)
    (fs : gmap string os.node) : gmap string os.node * list log_entry * option error :=
  match os.OpenFile_WRONLY_CREATE fs configFilePath with
  | (fs, inr _) =>
      (fs, [], Some (fmt_Errorf "failed to open the config file: '%s'"
                       [arg_string configFilePath]))
  | (fs, inl f) =>
      let close (fs : gmap string os.node) (f : os.file) : list log_entry :=
        match os.Close fs f with
        | Some err =>
            [log_Errorf err "failed to close config file: %s" [arg_string configFilePath]]
        | None => []
        end in
      match os.Write fs f configAutogeneratedHeadline with
      | (fs, f, Some _) =>
          (fs, close fs f, Some (fmt_Errorf "failed to write headline to config file" []))
      | (fs, f, None) =>
          let (bytes, err) := encode cfg in
          match os.Write fs f bytes with
          | (fs, f, Some _) =>
              (fs, close fs f, Some (fmt_Errorf "failed to encode config to file" []))
          | (fs, f, None) =>
              match err with
              | Some _ =>
                  (fs, close fs f, Some (fmt_Errorf "failed to encode config to file" []))
              | None => (fs, close fs f, None)
              end
          end
      end
  end.

End Save.

Section Setup.

Context `{Externals}.

(** The TOML decoder on the text of a file: [toml.Decode(data, v)] for a
    [*Config] and for a [*ConfigDeprecated], each returning the value as the
    decoder leaves it, the metadata of the keys it found and its error; and
    the method [Error] of an [error]. *)
Variable toml_Decode_Config :
  string -> Config.t -> Config.t * toml.MetaData * option error.
Variable toml_Decode_ConfigDeprecated :
  string -> ConfigDeprecated.t -> ConfigDeprecated.t * toml.MetaData * option error.
Variable Error : error -> string.

(** [toml.DecodeReader(r, v)]: the decoder reads [r] to its end and decodes
    what it read. *)
Definition DecodeReader {V : Type} (decode : string -> V -> V * toml.MetaData * option error)
    (fs : gmap string os.node) (r : os.file) (v : V)
  : V * toml.MetaData * os.file * option error :=
  match os.ReadAll fs r with
  | (_, r, Some err) => (v, ∅, r, Some err)
  | (data, r, None) =>
      let '(v, meta, err) := decode data v in
      (v, meta, r, err)
  end.

(** [func TryUpdateConfigFromFile(cfg *Config, configFilePath string) error]:
    the configuration as the call leaves it, and its error. *)
Definition TryUpdateConfigFromFile (GOOS : string) (cfg : Config.t)
    (configFilePath : string) (fs : gmap string os.node) : Config.t * option error :=
  match snd (os.Stat fs configFilePath) with
  | Some err => (cfg, Some err)
  | None =>
      match os.Open fs configFilePath with
      | inr err => (cfg, Some err)
      | inl cfgFile =>
          match DecodeReader toml_Decode_Config fs cfgFile cfg with
          | (cfg, _, _, Some err) => (cfg, Some err)
          | (cfg, _, cfgFile, None) =>
              match os.Seek_start cfgFile with
              | (_, Some err) => (cfg, Some err)
              | (cfgFile, None) =>
                  let deprecatedCfg := ConfigDeprecated.mk 0 in
                  match DecodeReader toml_Decode_ConfigDeprecated fs cfgFile
                          deprecatedCfg with
                  | (_, _, _, Some err) => (cfg, Some err)
                  | (deprecatedCfg, meta, _, None) =>
                      (Config.migrate GOOS deprecatedCfg meta cfg, None)
                  end
              end
          end
      end
  end.

Variable defaultLogPath : string.

(** [func HandleAllConfigSetup(configFilePath string)], which returns a
    pointer to a [Config] and an [error]: the configuration, [None] for a
    nil pointer, with the file system as the call leaves it, what it logged
    and its error. *)
Definition HandleAllConfigSetup (GOOS : string) (env : gmap string string)
    (configFilePath : string) (fs : gmap string os.node)
  : option Config.t * gmap string os.node * list log_entry * option error :=
  let cfg := NewConfig defaultLogPath GOOS in
  let (cfg, err) := TryUpdateConfigFromFile GOOS cfg configFilePath fs in
  let validated (cfg : Config.t) (fs : gmap string os.node) (log : list log_entry) :=
    match Config.validate GOOS cfg with
    | (_, vlog, Some err) => (None, fs, (log ++ vlog)%list, Some err)
    | (cfg, vlog, None) => (Some cfg, fs, (log ++ vlog)%list, None)
    end in
  if os.IsNotExist err then
    let mvc := NewMinimumConfig GOOS env in
    match GenerateDefaultConfigFile mvc configFilePath fs with
    | (fs, log, Some err) => (None, fs, log, Some err)
    | (fs, log, None) => validated (Config.set_MinValuableConfig mvc cfg) fs log
    end
  else
    match err with
    | Some err =>
        if strings_Contains (Error err)
             "cannot load TOML value of type int64 into a Go float"
        then (None, fs, [],
              Some (fmt_Errorf
                      "Config load error: please use numbers with a decimal point for numerical values"
                      []))
        else (None, fs, [], Some (fmt_Errorf "Config load error: %s" [arg_error err]))
    | None => validated cfg fs []
    end.

End Setup.

(** * Vocabulary of the properties *)

(** What the environment overlay leaves in a field: the value of the
    variable when it is set and either the mode is forced or the field is
    empty, the field otherwise. *)
Definition overlay (force : bool) (var : option string) (field : string) : string :=
  match var with
  | Some val => if force then val else if (field =? "")%string then val else field
  | None => field
  end.


(** The null device that [NewMinimumConfig] writes to. *)
Definition null_device (GOOS : string) : string :=
  if (GOOS =? "windows")%string then "NUL" else "/dev/null".

(** A positive decimal number followed by a unit, as the description of
    [net_interface_max_speed] words it: digits with at most one point
    among them, one digit at least not zero, then [K], [M] or [G]. *)
Fixpoint decimal_number (s : string) (dots : nat) (nonzero : bool) : bool :=
  match s with
  | EmptyString => false
  | String u EmptyString =>
      nonzero && (dots <=? 1)%nat
      && ((u =? "K") || (u =? "M") || (u =? "G"))%char
  | String c r =>
      if (c =? ".")%char then decimal_number r (S dots) nonzero
      else if strconv.isDigit c then
        decimal_number r dots (nonzero || negb (c =? "0")%char)
      else false
  end.

Definition positive_decimal_with_unit (s : string) : bool := decimal_number s 0 false.

(** A stand-in for the packages left open, to run the definitions on
    examples: monitoring blocks reduced to their [enabled] switch, a MySQL
    validator that accepts every block, a URL parser that refuses the ASCII
    control bytes, and an encoder that writes one line per key. *)
Module Sample.

Definition has_control_byte (s : string) : bool :=
  existsb (fun c => (N_of_ascii c <? 32)%N || (N_of_ascii c =? 127)%N)
          (list_ascii_of_string s).

Definition quoted (s : string) : string := String "034" (s ++ String "034" "").

Definition encode_mvc (mvc : MinValuableConfig.t) : string * option error :=
  ("log_level = " ++ quoted (MinValuableConfig.LogLevel mvc) ++ String "010" ""
   ++ "# io_mode = " ++ quoted (MinValuableConfig.IOMode mvc) ++ String "010" ""
   ++ "out_file = " ++ quoted (MinValuableConfig.OutFile mvc) ++ String "010" ""
   ++ "# hub_url = " ++ quoted (MinValuableConfig.HubURL mvc) ++ String "010" ""
   ++ "# hub_user = " ++ quoted (MinValuableConfig.HubUser mvc) ++ String "010" ""
   ++ "# hub_password = " ++ quoted (MinValuableConfig.HubPassword mvc) ++ String "010" "",
   None)%string.

Definition externals : Externals :=
  {| mysql_Config := bool;
     mysql_Config_zero := false;
     mysql_Validate := fun m => (m, None);
     processes_Config := bool;
     processes_GetDefaultConfig := true;
     SelfUpdatesFeedURL := "https://updates.example/cagent/feed";
     url_Parse := fun s =>
       if has_control_byte s
       then Some (foreign_error "net/url" "invalid control character in URL")
       else None;
     toml_Encode := encode_mvc |}.

End Sample.

(** Stand-ins for the TOML decoder and for the method [Error], to run the
    loader on examples. *)
Module SampleDecoders.

(** The lines of a text. *)
Fixpoint lines_of (s line : string) : list string :=
  match s with
  | EmptyString => [line]
  | String c r =>
      if (c =? "010")%char then line :: lines_of r ""
      else lines_of r (line ++ String c "")
  end.

(** The text after [key = ] on a line that assigns to [key]. *)
Definition assigned (key line : string) : option string :=
  let lhs := (key ++ " = ")%string in
  if String.prefix lhs line
  then Some (String.substring (String.length lhs)
               (String.length line - String.length lhs) line)
  else None.

(** The string between two single quotes. *)
Definition unquoted (v : string) : option string :=
  if (2 <=? String.length v)%nat
     && (byte_at v 0 =? "'")%char
     && (byte_at v (String.length v - 1) =? "'")%char
  then Some (String.substring 1 (String.length v - 2) v)
  else None.

(** The value of a string of decimal digits. *)
Fixpoint decimal (s : string) (n : Z) : option Z :=
  match s with
  | EmptyString => Some n
  | String c r =>
      if strconv.isDigit c then decimal r (n * 10 + strconv.digitVal c) else None
  end.

Section Decoders.

Context `{Externals}.

(** A decoder into [*Config] that knows two keys: [hub_url], a string, and
    [interval], a float, for which it refuses an integer as the TOML
    decoder does; it skips every other line. *)
Definition decode_Config (data : string) (cfg : Config.t)
  : Config.t * toml.MetaData * option error :=
  fold_left
    (fun (st : Config.t * toml.MetaData * option error) line =>
       match st with
       | (_, _, Some _) => st
       | (cfg, meta, None) =>
           match assigned "hub_url" line, assigned "interval" line with
           | Some v, _ =>
               match unquoted v with
               | Some url =>
                   (Config.set_MinValuableConfig
                      (MinValuableConfig.set_HubURL url (Config.MinValuableConfig cfg)) cfg,
                    meta ∪ {[ ["hub_url"] ]}, None)
               | None => (cfg, meta, Some (foreign_error "toml" "expected a string"))
               end
           | None, Some v =>
               match decimal v 0 with
               | Some _ =>
                   (cfg, meta,
                    Some (foreign_error "toml"
                            "toml: cannot load TOML value of type int64 into a Go float"))
               | None =>
                   match strconv.ParseFloat v with
                   | (f, None) =>
                       (Config.set_Interval f cfg, meta ∪ {[ ["interval"] ]}, None)
                   | (_, Some _) =>
                       (cfg, meta, Some (foreign_error "toml" "expected a number"))
                   end
               end
           | None, None => (cfg, meta, None)
           end
       end)
    (lines_of data "") (cfg, ∅, None).

End Decoders.

(** A decoder into [*ConfigDeprecated], which has one key. *)
Definition decode_ConfigDeprecated (data : string) (d : ConfigDeprecated.t)
  : ConfigDeprecated.t * toml.MetaData * option error :=
  fold_left
    (fun (st : ConfigDeprecated.t * toml.MetaData * option error) line =>
       match st with
       | (_, _, Some _) => st
       | (d, meta, None) =>
           match assigned "windows_updates_watcher_interval" line with
           | Some v =>
               match decimal v 0 with
               | Some n =>
                   (ConfigDeprecated.mk n,
                    meta ∪ {[ ["windows_updates_watcher_interval"] ]}, None)
               | None => (d, meta, Some (foreign_error "toml" "expected an integer"))
               end
           | None => (d, meta, None)
           end
       end)
    (lines_of data "") (d, ∅, None).

(** The text of an error, with the format of a [fmt.Errorf] in place of
    the formatted text. *)
Fixpoint Error (err : error) : string :=
  match err with
  | errors_New msg => msg
  | fmt_Errorf format _ => format
  | strconv_NumError func num e =>
      "strconv." ++ func ++ ": parsing " ++ num ++ ": " ++ Error e
  | strconv_ErrSyntax => "invalid syntax"
  | strconv_ErrRange => "value out of range"
  | os_PathError op path e => op ++ " " ++ path ++ ": " ++ Error e
  | os_ErrExist => "file already exists"
  | os_ErrNotExist => "file does not exist"
  | syscall_Errno ENOENT => "no such file or directory"
  | syscall_Errno EEXIST => "file exists"
  | syscall_Errno ENOTEMPTY => "directory not empty"
  | syscall_Errno ENOTDIR => "not a directory"
  | syscall_Errno EISDIR => "is a directory"
  | foreign_error _ msg => msg
  end.

End SampleDecoders.

(** ** The rules of the validator *)

Section Rules.

Context `{Externals}.
Variable GOOS : string.

Import Config.

(** The proxy URL as [validate] parses it: with [http://] in front unless
    it starts with [http]. *)
Definition proxy_url (cfg : t) : string :=
  if strings_HasPrefix (HubProxy cfg) "http" then HubProxy cfg
  else "http://" ++ HubProxy cfg.

(** The rules of [validate] that end in an error, each as the test of the
    source negated. *)
Definition hub_proxy_ok (cfg : t) : bool :=
  (HubProxy cfg =? "")%string || negb (is_err (url_Parse (proxy_url cfg))).

Definition interval_ok (cfg : t) : bool :=
  negb (Interval cfg <? minIntervalValue)%float.

Definition heartbeat_ok (cfg : t) : bool :=
  negb (HeartbeatInterval cfg <? minHeartbeatIntervalValue)%float.

Definition operation_mode_ok (cfg : t) : bool :=
  StrInSlice (OperationMode cfg) operationModes.

Definition net_interface_max_speed_ok (cfg : t) : bool :=
  negb (is_err (snd (GetParsedNetInterfaceMaxSpeed cfg))).

Definition hub_request_timeout_ok (cfg : t) : bool :=
  (minHubRequestTimeout <=? HubRequestTimeout cfg)
  && (HubRequestTimeout cfg <=? maxHubRequestTimeout).

Definition jobmon_ok (cfg : t) : bool :=
  negb (is_err (JobMonitoringConfig.Validate GOOS (JobMonitoring cfg))).

Definition system_updates_checks_ok (cfg : t) : bool :=
  UpdatesMonitoringConfig.FetchTimeout (SystemUpdatesChecks cfg)
  <? UpdatesMonitoringConfig.CheckInterval (SystemUpdatesChecks cfg).

Definition mysql_monitoring_ok (cfg : t) : bool :=
  negb (is_err (snd (mysql_Validate (MysqlMonitoring cfg)))).

Definition updates_ok (cfg : t) : bool :=
  negb (is_err (UpdatesConfig.Validate (Updates cfg))).

(** Valid in every respect but the two intervals. *)
Definition other_rules_ok (cfg : t) : bool :=
  hub_proxy_ok cfg && operation_mode_ok cfg && net_interface_max_speed_ok cfg
  && hub_request_timeout_ok cfg && jobmon_ok cfg && system_updates_checks_ok cfg
  && mysql_monitoring_ok cfg && updates_ok cfg.

(** Valid under every rule that precedes the one on the retry count. *)
Definition earlier_rules_ok (cfg : t) : bool :=
  other_rules_ok cfg && interval_ok cfg && heartbeat_ok cfg.

(** [cfg] with the four fields [validate] may assign replaced. *)
Definition patch (proxy : string) (retries : Z) (retry_interval : float)
    (check_interval : Z) (cfg : t) : t :=
  set_HubProxy proxy
    (set_OnHTTP5xxRetries retries
       (set_OnHTTP5xxRetryInterval retry_interval
          (set_SystemUpdatesChecks
             (UpdatesMonitoringConfig.set_CheckInterval check_interval
                (SystemUpdatesChecks cfg)) cfg))).

(** [cfg'] agrees with [cfg] on every field but those four. *)
Definition same_outside_validated (cfg cfg' : t) : Prop :=
  cfg' = patch (HubProxy cfg') (OnHTTP5xxRetries cfg') (OnHTTP5xxRetryInterval cfg')
               (UpdatesMonitoringConfig.CheckInterval (SystemUpdatesChecks cfg')) cfg.

(** The configuration after the first rule has put the scheme in front of
    the proxy URL. *)
Definition with_proxy_scheme (cfg : t) : t :=
  if (HubProxy cfg =? "")%string then cfg
  else if strings_HasPrefix (HubProxy cfg) "http" then cfg
  else set_HubProxy ("http://" ++ HubProxy cfg) cfg.

(** The block of the system updates after its validator has run: the check
    interval raised to the minimum when it was below. *)
Definition raised (l : UpdatesMonitoringConfig.t) : UpdatesMonitoringConfig.t :=
  if UpdatesMonitoringConfig.CheckInterval l <? minSystemUpdatesCheckInterval
  then UpdatesMonitoringConfig.set_CheckInterval minSystemUpdatesCheckInterval l
  else l.

(** The configuration and the log after the rules that end in an error,
    when none of them does. *)
Definition after_failing_rules (cfg : t) : state :=
  let cfg := with_proxy_scheme cfg in
  let r := UpdatesMonitoringConfig.Validate (SystemUpdatesChecks cfg) in
  let cfg := set_SystemUpdatesChecks (fst (fst r)) cfg in
  let cfg := set_MysqlMonitoring (fst (mysql_Validate (MysqlMonitoring cfg))) cfg in
  (cfg, snd (fst r)).

Definition result_of (f : flow) : t * list log_entry * option error :=
  match f with
  | Next (cfg, log) => (cfg, log, None)
  | Return (cfg, log) err => (cfg, log, err)
  end.

(** [cfg'] is [cfg] with the four fields replaced by some values. *)
Definition patched (cfg cfg' : t) : Prop :=
  exists proxy retries retry_interval check_interval,
    cfg' = patch proxy retries retry_interval check_interval cfg.

(** The configuration a check leaves, whether it goes on or returns. *)
Definition config_of (f : flow) : t :=
  match f with
  | Next (cfg, _) => cfg
  | Return (cfg, _) _ => cfg
  end.

Definition keeps_frame (k : check) : Prop :=
  forall cfg log, patched cfg (config_of (k (cfg, log))).

(** A check whose rule fails returns an error. *)
Definition fails (k : check) (cfg : t) (log : list log_entry) : Prop :=
  exists st err, k (cfg, log) = Return st (Some err).

(** The configuration after the rules that can fail, for a MySQL validator
    that leaves its block alone. *)
Definition corrected_blocks (cfg : t) : t :=
  set_SystemUpdatesChecks (raised (SystemUpdatesChecks (with_proxy_scheme cfg)))
    (with_proxy_scheme cfg).

Definition retries_out_of_range (cfg : t) : bool :=
  (OnHTTP5xxRetries cfg <? 0) || (OnHTTP5xxRetries cfg >? 5).

Definition retry_interval_out_of_range (cfg : t) : bool :=
  ((OnHTTP5xxRetryInterval cfg <? 1) || (3 <? OnHTTP5xxRetryInterval cfg))%float.

(** A configuration in which [validate] finds nothing to reject and nothing
    to correct, the retry interval apart. *)
Definition settled (cfg : t) : Prop :=
  with_proxy_scheme cfg = cfg
  /\ earlier_rules_ok cfg = true
  /\ (UpdatesMonitoringConfig.CheckInterval (SystemUpdatesChecks cfg)
      <? minSystemUpdatesCheckInterval) = false
  /\ retries_out_of_range cfg = false.

End Rules.

(** A [float64] that is neither a NaN nor an infinity. *)
Definition is_finite (f : float) : bool :=
  match Prim2SF f with
  | S754_zero _ => true
  | S754_finite _ _ _ => true
  | _ => false
  end.

(** The bytes of a maximum speed before its unit, and the unit. *)
Definition number_part (v : string) : string :=
  String.substring 0 (String.length v - 1) v.

Definition unit_part (v : string) : ascii := byte_at v (String.length v - 1).

(** The strings of two bytes or more whose number [strconv.ParseFloat]
    reads, without error, as a NaN or an infinity. *)
Definition reads_non_finite (v : string) : bool :=
  (2 <=? String.length v)%nat
  && negb (is_err (snd (strconv.ParseFloat (number_part v))))
  && negb (is_finite (fst (strconv.ParseFloat (number_part v)))).

(** A number of kilobytes, megabytes or gigabytes per second in bytes per
    second: multiplied by 1000 once, twice or three times. *)
Definition bytes_per_second (value : float) (unit : ascii) : float :=
  if (unit =? "K")%char then (value * 1000)%float
  else if (unit =? "M")%char then (value * 1000 * 1000)%float
  else (value * 1000 * 1000 * 1000)%float.

(** The empty string, and the strings of two bytes or more that end in
    [K], [M] or [G] after a number that [strconv.ParseFloat] reads without
    error as a value above 0. *)
Definition max_speed_accepted (v : string) : bool :=
  (v =? "")%string
  || ((2 <=? String.length v)%nat
      && (negb (is_err (snd (strconv.ParseFloat (number_part v))))
          && (0 <? fst (strconv.ParseFloat (number_part v)))%float)
      && ((unit_part v =? "K") || (unit_part v =? "M") || (unit_part v =? "G"))%char).

(** ** Inputs for the examples *)

Module Examples.

Import Config.

(** The defaults on Linux. *)
Definition linux_defaults : @t Sample.externals :=
  @NewConfig Sample.externals "/var/log/cagent/cagent.log" "linux".

Definition windows_defaults : @t Sample.externals :=
  @NewConfig Sample.externals "C:\Program Files\cagent\cagent.log" "windows".

Definition darwin_defaults : @t Sample.externals :=
  @NewConfig Sample.externals "/Users/admin/.cagent/cagent.log" "darwin".

(** Nine retries, and a retry interval of ten seconds. *)
Definition nine_retries : @t Sample.externals :=
  set_OnHTTP5xxRetryInterval 10 (set_OnHTTP5xxRetries 9 linux_defaults).

Definition interval_below_floor : @t Sample.externals :=
  set_Interval 29.5 linux_defaults.

Definition intervals_at_floor : @t Sample.externals :=
  set_HeartbeatInterval 5 (set_Interval 30 linux_defaults).

(** A proxy without scheme, a check interval below its minimum and a retry
    count out of range: [validate] assigns all three. *)
Definition to_correct : @t Sample.externals :=
  set_HubProxy "proxy.example:3128"
    (set_SystemUpdatesChecks (UpdatesMonitoringConfig.mk true 30 120)
       (set_OnHTTP5xxRetries 9 linux_defaults)).

Definition deprecated_key_present : toml.MetaData :=
  {[ ["windows_updates_watcher_interval"] ]}.

Fixpoint zeros (n : nat) : string :=
  match n with
  | O => ""
  | S k => String "0" (zeros k)
  end.

(** A positive decimal number too small for a [float64], in kilobytes. *)
Definition tiny_speed : string := "0." ++ zeros 400 ++ "1K".

(** A configuration file an operator wrote, and a file system that holds
    it at the default path. *)
Definition operator_conf : string :=
  "hub_url = 'https://hub.example'
hub_user = 'agent'
hub_password = 'secret'
interval = 120.0
heartbeat = 30.0
log_level = 'debug'
io_mode = 'http'
operation_mode = 'minimal'
net_interface_max_speed = '125M'
".

Definition conf_path : string := "/etc/cagent/cagent.conf".

Definition fs_with_conf : gmap string os.node :=
  {[ "/etc" := os.Dir;
     "/etc/cagent" := os.Dir;
     conf_path := os.File operator_conf ]}.

End Examples.

(** * Properties of the environment overlay *)

Section EnvironmentOverlay.

Import MinValuableConfig.

(** Unfolds the overlay down to its tests on strings, and decides one. *)
Ltac run_overlay :=
  cbv beta iota zeta
      delta [applyEnv NewMinimumConfig defaultMinValuableConfig overlay null_device
             set_HubURL set_HubUser set_HubPassword set_IOMode set_OutFile
             LogLevel IOMode OutFile HubURL HubUser HubPassword orb default].

Ltac case_empty :=
  match goal with
  | |- context [(?a =? "")%string] => destruct (a =? "")%string eqn:?
  end.

(** C7.  For each of the hub URL, the user and the password, [applyEnv]
    leaves in the field the value of its environment variable when the
    variable is set and the call is forced or the field was empty, and
    the field as it was otherwise: unset variables change nothing in
    either mode.  The other three fields are not touched. *)
Theorem applyEnv_overlay (env : gmap string string) (force : bool) (mvc : t) :
  let mvc' := applyEnv env force mvc in
  HubURL mvc' = overlay force (env !! "CAGENT_HUB_URL") (HubURL mvc)
  /\ HubUser mvc' = overlay force (env !! "CAGENT_HUB_USER") (HubUser mvc)
  /\ HubPassword mvc' = overlay force (env !! "CAGENT_HUB_PASSWORD") (HubPassword mvc)
  /\ LogLevel mvc' = LogLevel mvc
  /\ IOMode mvc' = IOMode mvc
  /\ OutFile mvc' = OutFile mvc.
Proof.
  run_overlay.
  destruct (env !! "CAGENT_HUB_URL") as [url|],
           (env !! "CAGENT_HUB_USER") as [user|],
           (env !! "CAGENT_HUB_PASSWORD") as [password|];
    destruct force, mvc as [lvl mode out u us pw];
    run_overlay; repeat (case_empty; run_overlay);
    repeat split; congruence.
Qed.

(** C8.  [NewMinimumConfig] takes the hub URL from the environment in
    fill-if-empty mode; when that URL is empty the I/O mode is the file
    mode and the output target is the null device of the operating system,
    and when it is not empty the I/O mode is the HTTP mode. *)
Theorem NewMinimumConfig_io_mode (GOOS : string) (env : gmap string string) :
  let cfg := NewMinimumConfig GOOS env in
  HubURL cfg = HubURL (applyEnv env false defaultMinValuableConfig)
  /\ HubURL cfg = default "" (env !! "CAGENT_HUB_URL")
  /\ (if (HubURL cfg =? "")%string
      then IOMode cfg = IOModeFile /\ OutFile cfg = null_device GOOS
      else IOMode cfg = IOModeHTTP).
Proof.
  run_overlay.
  destruct (env !! "CAGENT_HUB_URL") as [url|],
           (env !! "CAGENT_HUB_USER") as [user|],
           (env !! "CAGENT_HUB_PASSWORD") as [password|];
    destruct (GOOS =? "windows")%string;
    run_overlay; simpl; repeat (case_empty; run_overlay; simpl);
    repeat split; congruence.
Qed.

End EnvironmentOverlay.

(** * Properties of the validator *)

(** C4.  [UpdatesConfig.Validate] returns its error exactly when the check
    interval is below 600: an interval of 600 itself, which does not exceed
    the floor its message names, passes. *)
Theorem UpdatesConfig_Validate_floor :
  (forall u : UpdatesConfig.t,
      is_err (UpdatesConfig.Validate u) = true <-> UpdatesConfig.CheckInterval u < 600)
  /\ (forall (enabled : bool) (url : string),
         UpdatesConfig.Validate (UpdatesConfig.mk enabled url 600) = None).
Proof.
  split.
  - intros u. unfold UpdatesConfig.Validate, minSelfUpdatesCheckInterval.
    destruct (Z.ltb_spec (UpdatesConfig.CheckInterval u) 600); simpl; split;
      intros; try lia; congruence.
  - reflexivity.
Qed.

Section Validator.

Context `{Externals}.
Variable GOOS : string.

Import Config.

Lemma and_then_next (c1 c2 : check) (st st' : state) :
  c1 st = Next st' -> (c1 ;; c2)%check st = c2 st'.
Proof. unfold and_then. intros ->. reflexivity. Qed.

Lemma and_then_return (c1 c2 : check) (st st' : state) (err : option error) :
  c1 st = Return st' err -> (c1 ;; c2)%check st = Return st' err.
Proof. unfold and_then. intros ->. reflexivity. Qed.

Lemma check_hub_proxy_passes (cfg : t) (log : list log_entry) :
  hub_proxy_ok cfg = true ->
  check_hub_proxy (cfg, log) = Next (with_proxy_scheme cfg, log).
Proof.
  unfold hub_proxy_ok, proxy_url, check_hub_proxy, with_proxy_scheme.
  destruct (HubProxy cfg =? "")%string; simpl; [reflexivity|].
  destruct (strings_HasPrefix (HubProxy cfg) "http"); simpl;
    intros Hp; apply negb_true_iff in Hp.
  - rewrite Hp. reflexivity.
  - change (HubProxy (set_HubProxy ("http://" ++ HubProxy cfg) cfg))
      with ("http://" ++ HubProxy cfg).
    rewrite Hp. reflexivity.
Qed.

Lemma check_interval_passes (cfg : t) (log : list log_entry) :
  interval_ok cfg = true -> check_interval (cfg, log) = Next (cfg, log).
Proof.
  unfold interval_ok, check_interval. intros Hi. apply negb_true_iff in Hi.
  rewrite Hi. reflexivity.
Qed.

Lemma check_heartbeat_passes (cfg : t) (log : list log_entry) :
  heartbeat_ok cfg = true -> check_heartbeat (cfg, log) = Next (cfg, log).
Proof.
  unfold heartbeat_ok, check_heartbeat. intros Hi. apply negb_true_iff in Hi.
  rewrite Hi. reflexivity.
Qed.

Lemma check_operation_mode_passes (cfg : t) (log : list log_entry) :
  operation_mode_ok cfg = true -> check_operation_mode (cfg, log) = Next (cfg, log).
Proof.
  unfold operation_mode_ok, check_operation_mode. intros ->. reflexivity.
Qed.

Lemma check_net_interface_max_speed_passes (cfg : t) (log : list log_entry) :
  net_interface_max_speed_ok cfg = true ->
  check_net_interface_max_speed (cfg, log) = Next (cfg, log).
Proof.
  unfold net_interface_max_speed_ok, check_net_interface_max_speed.
  destruct (snd (GetParsedNetInterfaceMaxSpeed cfg)); simpl; [discriminate | reflexivity].
Qed.

Lemma check_hub_request_timeout_passes (cfg : t) (log : list log_entry) :
  hub_request_timeout_ok cfg = true ->
  check_hub_request_timeout (cfg, log) = Next (cfg, log).
Proof.
  unfold hub_request_timeout_ok, check_hub_request_timeout. intros Ht.
  apply andb_prop in Ht. destruct Ht as [Hlo Hhi].
  apply Z.leb_le in Hlo, Hhi.
  destruct (Z.ltb_spec (HubRequestTimeout cfg) minHubRequestTimeout); [lia|].
  rewrite Z.gtb_ltb.
  destruct (Z.ltb_spec maxHubRequestTimeout (HubRequestTimeout cfg)); [lia|].
  reflexivity.
Qed.

Lemma check_jobmon_passes (cfg : t) (log : list log_entry) :
  jobmon_ok GOOS cfg = true -> check_jobmon GOOS (cfg, log) = Next (cfg, log).
Proof.
  unfold jobmon_ok, check_jobmon.
  destruct (JobMonitoringConfig.Validate GOOS (JobMonitoring cfg)); simpl;
    [discriminate | reflexivity].
Qed.

Lemma UpdatesMonitoringConfig_Validate_passes (l : UpdatesMonitoringConfig.t) :
  (UpdatesMonitoringConfig.FetchTimeout l <? UpdatesMonitoringConfig.CheckInterval l) = true ->
  exists warnings, UpdatesMonitoringConfig.Validate l = (raised l, warnings, None).
Proof.
  intros Hlt. apply Z.ltb_lt in Hlt.
  unfold UpdatesMonitoringConfig.Validate, raised.
  destruct (Z.geb_spec (UpdatesMonitoringConfig.FetchTimeout l)
                       (UpdatesMonitoringConfig.CheckInterval l)); [lia|].
  destruct (UpdatesMonitoringConfig.CheckInterval l <? minSystemUpdatesCheckInterval);
    eexists; reflexivity.
Qed.

Lemma check_system_updates_checks_passes (cfg : t) (log : list log_entry) :
  system_updates_checks_ok cfg = true ->
  check_system_updates_checks (cfg, log)
  = Next (set_SystemUpdatesChecks
            (fst (fst (UpdatesMonitoringConfig.Validate (SystemUpdatesChecks cfg)))) cfg,
          (log ++ snd (fst (UpdatesMonitoringConfig.Validate (SystemUpdatesChecks cfg))))%list).
Proof.
  unfold system_updates_checks_ok, check_system_updates_checks. intros Hs.
  destruct (UpdatesMonitoringConfig_Validate_passes _ Hs) as [w ->]. reflexivity.
Qed.

Lemma check_mysql_monitoring_passes (cfg : t) (log : list log_entry) :
  mysql_monitoring_ok cfg = true ->
  check_mysql_monitoring (cfg, log)
  = Next (set_MysqlMonitoring (fst (mysql_Validate (MysqlMonitoring cfg))) cfg, log).
Proof.
  unfold mysql_monitoring_ok, check_mysql_monitoring.
  destruct (mysql_Validate (MysqlMonitoring cfg)) as [m [err|]]; simpl;
    [discriminate | reflexivity].
Qed.

Lemma check_updates_passes (cfg : t) (log : list log_entry) :
  updates_ok cfg = true -> check_updates (cfg, log) = Next (cfg, log).
Proof.
  unfold updates_ok, check_updates.
  destruct (UpdatesConfig.Validate (Updates cfg)); simpl; [discriminate | reflexivity].
Qed.

(** Every rule reads fields that the rules before it leave alone. *)
Lemma with_proxy_scheme_cases (cfg : t) :
  with_proxy_scheme cfg = cfg
  \/ with_proxy_scheme cfg = set_HubProxy ("http://" ++ HubProxy cfg) cfg.
Proof.
  unfold with_proxy_scheme.
  destruct (HubProxy cfg =? "")%string; [now left|].
  destruct (strings_HasPrefix (HubProxy cfg) "http"); [now left | now right].
Qed.

Lemma validate_passes (cfg : t) :
  earlier_rules_ok GOOS cfg = true ->
  validate GOOS cfg =
  result_of ((check_on_http_5xx_retries ;; check_on_http_5xx_retry_interval)%check
               (after_failing_rules cfg)).
Proof.
  unfold earlier_rules_ok, other_rules_ok. intros Hok.
  repeat (apply andb_prop in Hok; destruct Hok as [Hok ?]).
  unfold validate, after_failing_rules.
  rewrite (and_then_next _ _ _ _ (check_hub_proxy_passes _ _ Hok)).
  assert (Hcfg : with_proxy_scheme cfg = cfg
                 \/ with_proxy_scheme cfg = set_HubProxy ("http://" ++ HubProxy cfg) cfg)
    by apply with_proxy_scheme_cases.
  set (cfg1 := with_proxy_scheme cfg) in *.
  assert (interval_ok cfg1 = true) by (destruct Hcfg as [-> | ->]; assumption).
  assert (heartbeat_ok cfg1 = true) by (destruct Hcfg as [-> | ->]; assumption).
  assert (operation_mode_ok cfg1 = true) by (destruct Hcfg as [-> | ->]; assumption).
  assert (net_interface_max_speed_ok cfg1 = true) by (destruct Hcfg as [-> | ->]; assumption).
  assert (hub_request_timeout_ok cfg1 = true) by (destruct Hcfg as [-> | ->]; assumption).
  assert (jobmon_ok GOOS cfg1 = true) by (destruct Hcfg as [-> | ->]; assumption).
  assert (system_updates_checks_ok cfg1 = true) by (destruct Hcfg as [-> | ->]; assumption).
  assert (Hmysql : mysql_monitoring_ok cfg1 = true)
    by (destruct Hcfg as [-> | ->]; assumption).
  assert (Hupdates : updates_ok cfg1 = true)
    by (destruct Hcfg as [-> | ->]; assumption).
  clearbody cfg1.
  rewrite (and_then_next _ _ _ _ (check_interval_passes _ _ ltac:(eassumption))).
  rewrite (and_then_next _ _ _ _ (check_heartbeat_passes _ _ ltac:(eassumption))).
  rewrite (and_then_next _ _ _ _ (check_operation_mode_passes _ _ ltac:(eassumption))).
  rewrite (and_then_next _ _ _ _
             (check_net_interface_max_speed_passes _ _ ltac:(eassumption))).
  rewrite (and_then_next _ _ _ _ (check_hub_request_timeout_passes _ _ ltac:(eassumption))).
  rewrite (and_then_next _ _ _ _ (check_jobmon_passes _ _ ltac:(eassumption))).
  rewrite (and_then_next _ _ _ _
             (check_system_updates_checks_passes _ _ ltac:(eassumption))).
  match goal with
  | |- context [and_then check_mysql_monitoring _ (?c, _)] =>
      rewrite (and_then_next _ _ _ _ (check_mysql_monitoring_passes c _ Hmysql))
  end.
  match goal with
  | |- context [and_then check_updates _ (?c, _)] =>
      rewrite (and_then_next _ _ _ _ (check_updates_passes c _ Hupdates))
  end.
  reflexivity.
Qed.

(** C2.  When every rule before the one on the retry count passes and the
    count is outside 0..5, [validate] sets the count to 5, logs its warning
    and returns no error; the retry interval is the one it was given,
    whatever its value, as the rule on the interval is not reached. *)
Theorem validate_clamps_retries (cfg : t) :
  earlier_rules_ok GOOS cfg = true ->
  OnHTTP5xxRetries cfg < 0 \/ 5 < OnHTTP5xxRetries cfg ->
  let '(cfg', log, err) := validate GOOS cfg in
  err = None
  /\ OnHTTP5xxRetries cfg' = 5
  /\ OnHTTP5xxRetryInterval cfg' = OnHTTP5xxRetryInterval cfg
  /\ exists before,
       log = (before ++ [log_Warn
                "on_http_5xx_retries value out of range (0-5). was reset to 5"])%list.
Proof.
  intros Hok Hout. rewrite (validate_passes cfg Hok).
  unfold after_failing_rules, and_then, check_on_http_5xx_retries.
  set (r := UpdatesMonitoringConfig.Validate _).
  assert (Hretries : forall c l m,
             OnHTTP5xxRetries
               (set_MysqlMonitoring m (set_SystemUpdatesChecks l c)) = OnHTTP5xxRetries c)
    by reflexivity.
  assert (Hinterval : forall c l m v,
             OnHTTP5xxRetryInterval
               (set_OnHTTP5xxRetries v
                  (set_MysqlMonitoring m (set_SystemUpdatesChecks l c)))
             = OnHTTP5xxRetryInterval c)
    by reflexivity.
  rewrite Hretries.
  assert (Hsame : OnHTTP5xxRetries (with_proxy_scheme cfg) = OnHTTP5xxRetries cfg
                  /\ OnHTTP5xxRetryInterval (with_proxy_scheme cfg)
                     = OnHTTP5xxRetryInterval cfg)
    by (destruct (with_proxy_scheme_cases cfg) as [-> | ->]; split; reflexivity).
  destruct Hsame as [Hr Hi]. rewrite Hr.
  assert (Htest : (OnHTTP5xxRetries cfg <? 0) || (OnHTTP5xxRetries cfg >? 5) = true).
  { rewrite Z.gtb_ltb. apply orb_true_iff.
    destruct Hout; [left; apply Z.ltb_lt | right; apply Z.ltb_lt]; assumption. }
  rewrite Htest. cbv beta iota delta [result_of].
  repeat split.
  - rewrite Hinterval. exact Hi.
  - eexists. reflexivity.
Qed.

Lemma check_hub_proxy_cases (cfg : t) (log : list log_entry) :
  (exists cfg' err, check_hub_proxy (cfg, log) = Return (cfg', log) (Some err))
  \/ check_hub_proxy (cfg, log) = Next (with_proxy_scheme cfg, log).
Proof.
  unfold check_hub_proxy, with_proxy_scheme.
  destruct (HubProxy cfg =? "")%string; simpl; [now right|].
  destruct (strings_HasPrefix (HubProxy cfg) "http"); simpl.
  - destruct (is_err (url_Parse (HubProxy cfg))); [left; eauto | now right].
  - destruct (is_err _); [left; eauto | now right].
Qed.

(** C5.  [validate] returns an error for every configuration whose push
    interval is below 30 or whose heartbeat interval is below 5, and
    returns none for a configuration that is valid in all other respects
    and has the two intervals at exactly 30 and 5. *)
Theorem validate_interval_floors (cfg : t) :
  ((Interval cfg <? 30)%float = true \/ (HeartbeatInterval cfg <? 5)%float = true ->
   is_err (snd (validate GOOS cfg)) = true)
  /\ (other_rules_ok GOOS cfg = true ->
      Interval cfg = 30%float -> HeartbeatInterval cfg = 5%float ->
      snd (validate GOOS cfg) = None).
Proof.
  split.
  - intros Hlow. unfold validate.
    destruct (check_hub_proxy_cases cfg []) as [(cfg' & err & Hp) | Hp].
    + rewrite (and_then_return _ _ _ _ _ Hp). reflexivity.
    + rewrite (and_then_next _ _ _ _ Hp).
      assert (Hsame : Interval (with_proxy_scheme cfg) = Interval cfg
                      /\ HeartbeatInterval (with_proxy_scheme cfg) = HeartbeatInterval cfg)
        by (destruct (with_proxy_scheme_cases cfg) as [-> | ->]; split; reflexivity).
      destruct Hsame as [Hi Hh].
      unfold and_then at 1. unfold check_interval at 1.
      rewrite Hi. change minIntervalValue with 30%float.
      destruct (Interval cfg <? 30)%float eqn:Ei; [reflexivity|].
      unfold and_then at 1. unfold check_heartbeat at 1.
      rewrite Hh. change minHeartbeatIntervalValue with 5%float.
      destruct Hlow as [Hlow | Hlow]; [congruence|].
      rewrite Hlow. reflexivity.
  - intros Hother Hi Hh.
    assert (Hok : earlier_rules_ok GOOS cfg = true).
    { unfold earlier_rules_ok, interval_ok, heartbeat_ok.
      rewrite Hother, Hi, Hh. reflexivity. }
    rewrite (validate_passes cfg Hok).
    unfold and_then, check_on_http_5xx_retries, check_on_http_5xx_retry_interval.
    destruct (after_failing_rules cfg) as [c l].
    destruct (_ || _); [reflexivity|].
    destruct (_ || _); reflexivity.
Qed.

(** *** The frame of [validate] *)

Lemma patched_same (cfg cfg' : t) : patched cfg cfg' -> same_outside_validated cfg cfg'.
Proof.
  intros (p & r & i & ci & ->). reflexivity.
Qed.

Lemma patched_refl (cfg : t) : patched cfg cfg.
Proof.
  exists (HubProxy cfg), (OnHTTP5xxRetries cfg), (OnHTTP5xxRetryInterval cfg),
    (UpdatesMonitoringConfig.CheckInterval (SystemUpdatesChecks cfg)).
  destruct cfg; simpl.
  match goal with l : UpdatesMonitoringConfig.t |- _ => destruct l end.
  reflexivity.
Qed.

Lemma patched_trans (c1 c2 c3 : t) : patched c1 c2 -> patched c2 c3 -> patched c1 c3.
Proof.
  intros (p & r & i & ci & ->) (p' & r' & i' & ci' & ->).
  exists p', r', i', ci'. reflexivity.
Qed.

Lemma patched_set_HubProxy (v : string) (cfg : t) : patched cfg (set_HubProxy v cfg).
Proof.
  apply patched_trans with cfg; [apply patched_refl|].
  exists v, (OnHTTP5xxRetries cfg), (OnHTTP5xxRetryInterval cfg),
    (UpdatesMonitoringConfig.CheckInterval (SystemUpdatesChecks cfg)).
  destruct cfg; simpl.
  match goal with l : UpdatesMonitoringConfig.t |- _ => destruct l end.
  reflexivity.
Qed.

Lemma patched_set_OnHTTP5xxRetries (v : Z) (cfg : t) :
  patched cfg (set_OnHTTP5xxRetries v cfg).
Proof.
  exists (HubProxy cfg), v, (OnHTTP5xxRetryInterval cfg),
    (UpdatesMonitoringConfig.CheckInterval (SystemUpdatesChecks cfg)).
  destruct cfg; simpl.
  match goal with l : UpdatesMonitoringConfig.t |- _ => destruct l end.
  reflexivity.
Qed.

Lemma patched_set_OnHTTP5xxRetryInterval (v : float) (cfg : t) :
  patched cfg (set_OnHTTP5xxRetryInterval v cfg).
Proof.
  exists (HubProxy cfg), (OnHTTP5xxRetries cfg), v,
    (UpdatesMonitoringConfig.CheckInterval (SystemUpdatesChecks cfg)).
  destruct cfg; simpl.
  match goal with l : UpdatesMonitoringConfig.t |- _ => destruct l end.
  reflexivity.
Qed.

Lemma patched_set_CheckInterval (v : Z) (cfg : t) :
  patched cfg
    (set_SystemUpdatesChecks
       (UpdatesMonitoringConfig.set_CheckInterval v (SystemUpdatesChecks cfg)) cfg).
Proof.
  exists (HubProxy cfg), (OnHTTP5xxRetries cfg), (OnHTTP5xxRetryInterval cfg), v.
  destruct cfg; reflexivity.
Qed.

Lemma set_SystemUpdatesChecks_same (cfg : t) :
  set_SystemUpdatesChecks (SystemUpdatesChecks cfg) cfg = cfg.
Proof. destruct cfg; reflexivity. Qed.

Lemma set_MysqlMonitoring_same (cfg : t) :
  set_MysqlMonitoring (MysqlMonitoring cfg) cfg = cfg.
Proof. destruct cfg; reflexivity. Qed.

Lemma keeps_frame_and_then (k1 k2 : check) :
  keeps_frame k1 -> keeps_frame k2 -> keeps_frame (k1 ;; k2)%check.
Proof.
  intros H1 H2 cfg log. unfold and_then.
  specialize (H1 cfg log).
  destruct (k1 (cfg, log)) as [[c l] | [c l] err]; simpl in H1.
  - apply patched_trans with c; [assumption | apply H2].
  - assumption.
Qed.

(** A check that only reads the configuration. *)
Ltac reads_only :=
  intros cfg log; cbv beta iota delta [check_interval check_heartbeat
    check_operation_mode check_net_interface_max_speed check_hub_request_timeout
    check_jobmon check_updates];
  match goal with
  | |- context [if ?b then _ else _] => destruct b
  | |- context [match ?o with Some _ => _ | None => _ end] => destruct o
  end; apply patched_refl.

Lemma keeps_frame_hub_proxy : keeps_frame check_hub_proxy.
Proof.
  intros cfg log. unfold check_hub_proxy.
  destruct (negb _); [|apply patched_refl].
  destruct (negb _); destruct (is_err _); simpl;
    first [apply patched_refl | apply patched_set_HubProxy].
Qed.

Lemma keeps_frame_interval : keeps_frame check_interval.
Proof. reads_only. Qed.

Lemma keeps_frame_heartbeat : keeps_frame check_heartbeat.
Proof. reads_only. Qed.

Lemma keeps_frame_operation_mode : keeps_frame check_operation_mode.
Proof. reads_only. Qed.

Lemma keeps_frame_net_interface_max_speed : keeps_frame check_net_interface_max_speed.
Proof. reads_only. Qed.

Lemma keeps_frame_hub_request_timeout : keeps_frame check_hub_request_timeout.
Proof. reads_only. Qed.

Lemma keeps_frame_jobmon : keeps_frame (check_jobmon GOOS).
Proof. reads_only. Qed.

Lemma keeps_frame_updates : keeps_frame check_updates.
Proof. reads_only. Qed.

Lemma keeps_frame_system_updates_checks : keeps_frame check_system_updates_checks.
Proof.
  intros cfg log. unfold check_system_updates_checks, UpdatesMonitoringConfig.Validate.
  destruct (_ >=? _); simpl.
  - rewrite set_SystemUpdatesChecks_same. apply patched_refl.
  - destruct (_ <? _); simpl.
    + apply patched_set_CheckInterval.
    + rewrite set_SystemUpdatesChecks_same. apply patched_refl.
Qed.

Lemma keeps_frame_mysql_monitoring :
  (forall m, fst (mysql_Validate m) = m) -> keeps_frame check_mysql_monitoring.
Proof.
  intros Hm cfg log. unfold check_mysql_monitoring.
  specialize (Hm (MysqlMonitoring cfg)).
  destruct (mysql_Validate (MysqlMonitoring cfg)) as [m err]. simpl in Hm. subst m.
  rewrite set_MysqlMonitoring_same. destruct err; apply patched_refl.
Qed.

Lemma keeps_frame_on_http_5xx_retries : keeps_frame check_on_http_5xx_retries.
Proof.
  intros cfg log. unfold check_on_http_5xx_retries.
  destruct (_ || _); simpl; [apply patched_set_OnHTTP5xxRetries | apply patched_refl].
Qed.

Lemma keeps_frame_on_http_5xx_retry_interval :
  keeps_frame check_on_http_5xx_retry_interval.
Proof.
  intros cfg log. unfold check_on_http_5xx_retry_interval.
  destruct (_ || _); simpl;
    [apply patched_set_OnHTTP5xxRetryInterval | apply patched_refl].
Qed.

(** C9.  Provided the validator of the MySQL block, which is not part of
    [config.go], leaves that block as it is, the configuration [validate]
    leaves is the one it was given with at most [HubProxy],
    [OnHTTP5xxRetries], [OnHTTP5xxRetryInterval] and
    [SystemUpdatesChecks.CheckInterval] assigned: every other field is the
    same, whether the call returns an error or not. *)
Theorem validate_frame (cfg : t) :
  (forall m, fst (mysql_Validate m) = m) ->
  same_outside_validated cfg (fst (fst (validate GOOS cfg))).
Proof.
  intros Hm. apply patched_same. unfold validate.
  match goal with
  | |- context [?k (cfg, [])] =>
      assert (Hk : keeps_frame k);
      [| specialize (Hk cfg []); destruct (k (cfg, [])) as [[c l] | [c l] err]; exact Hk]
  end.
  repeat apply keeps_frame_and_then;
    auto using keeps_frame_hub_proxy, keeps_frame_interval, keeps_frame_heartbeat,
      keeps_frame_operation_mode, keeps_frame_net_interface_max_speed,
      keeps_frame_hub_request_timeout, keeps_frame_jobmon,
      keeps_frame_system_updates_checks, keeps_frame_mysql_monitoring,
      keeps_frame_updates, keeps_frame_on_http_5xx_retries,
      keeps_frame_on_http_5xx_retry_interval.
Qed.

(** *** The defaults are valid *)

(** A configuration that passes every rule with nothing to correct is
    returned as it is, with no warning. *)
Lemma validate_unchanged (cfg : t) :
  HubProxy cfg = "" ->
  earlier_rules_ok GOOS cfg = true ->
  mysql_Validate (MysqlMonitoring cfg) = (MysqlMonitoring cfg, None) ->
  (UpdatesMonitoringConfig.CheckInterval (SystemUpdatesChecks cfg)
   <? minSystemUpdatesCheckInterval) = false ->
  (OnHTTP5xxRetries cfg <? 0) || (OnHTTP5xxRetries cfg >? 5) = false ->
  ((OnHTTP5xxRetryInterval cfg <? 1) || (3 <? OnHTTP5xxRetryInterval cfg))%float = false ->
  validate GOOS cfg = (cfg, [], None).
Proof.
  intros Hproxy Hok Hmysql Hcheck Hretries Hinterval.
  rewrite (validate_passes cfg Hok).
  assert (Hsys : system_updates_checks_ok cfg = true).
  { unfold earlier_rules_ok, other_rules_ok in Hok.
    repeat (apply andb_prop in Hok; destruct Hok as [Hok ?]). assumption. }
  destruct (UpdatesMonitoringConfig_Validate_passes _ Hsys) as [w Hw].
  assert (Hafter : after_failing_rules cfg = (cfg, [])).
  { unfold after_failing_rules, with_proxy_scheme. rewrite Hproxy. simpl.
    unfold UpdatesMonitoringConfig.Validate in *.
    unfold system_updates_checks_ok in Hsys. apply Z.ltb_lt in Hsys.
    destruct (Z.geb_spec
                (UpdatesMonitoringConfig.FetchTimeout (SystemUpdatesChecks cfg))
                (UpdatesMonitoringConfig.CheckInterval (SystemUpdatesChecks cfg)));
      [lia|].
    rewrite Hcheck. simpl.
    rewrite set_SystemUpdatesChecks_same, Hmysql. simpl.
    rewrite set_MysqlMonitoring_same. reflexivity. }
  rewrite Hafter. unfold and_then, check_on_http_5xx_retries.
  rewrite Hretries. unfold check_on_http_5xx_retry_interval.
  rewrite Hinterval. reflexivity.
Qed.

(** C10.  On every operating system the configuration [NewConfig] builds
    passes [validate] as it is: no error, no warning and no field changed,
    provided the MySQL validator, which is not part of [config.go], accepts
    the zero block [NewConfig] leaves in place and does not assign to it. *)
Theorem NewConfig_validates (defaultLogPath : string) :
  mysql_Validate mysql_Config_zero = (mysql_Config_zero, None) ->
  validate GOOS (NewConfig defaultLogPath GOOS)
  = (NewConfig defaultLogPath GOOS, [], None).
Proof.
  intros Hm.
  assert (Hmysql : forall os, MysqlMonitoring (NewConfig defaultLogPath os) = mysql_Config_zero).
  { intros os. unfold NewConfig.
    destruct (os =? "windows")%string; [reflexivity|].
    destruct (os =? "darwin")%string; reflexivity. }
  apply validate_unchanged.
  - unfold NewConfig.
    destruct (GOOS =? "windows")%string; [reflexivity|].
    destruct (GOOS =? "darwin")%string; reflexivity.
  - unfold earlier_rules_ok, other_rules_ok, mysql_monitoring_ok.
    rewrite Hmysql, Hm.
    unfold jobmon_ok, JobMonitoringConfig.Validate, filepath.IsAbs, is_windows, NewConfig.
    destruct (GOOS =? "windows")%string; [reflexivity|].
    destruct (GOOS =? "darwin")%string; reflexivity.
  - rewrite Hmysql. exact Hm.
  - unfold NewConfig.
    destruct (GOOS =? "windows")%string; [reflexivity|].
    destruct (GOOS =? "darwin")%string; reflexivity.
  - unfold NewConfig.
    destruct (GOOS =? "windows")%string; [reflexivity|].
    destruct (GOOS =? "darwin")%string; reflexivity.
  - unfold NewConfig.
    destruct (GOOS =? "windows")%string; [reflexivity|].
    destruct (GOOS =? "darwin")%string; reflexivity.
Qed.



End Validator.

(** * Properties of the migration *)

Section Migration.

Context `{Externals}.

Import Config.

(** C6, as the code has it.  On a Windows build, when the metadata marks
    [windows_updates_watcher_interval] as present, [migrate] switches the
    system updates checks off for a value of 0 or less, and sets their
    check interval to the value when it is positive and below [2^32]; no
    other field changes.  On any other operating system, or when the key
    is absent, [migrate] returns the configuration as it is. *)
Theorem migrate_on_windows (GOOS : string) (cfgDeprecated : ConfigDeprecated.t)
    (metadata : toml.MetaData) (cfg : t) :
  let v := ConfigDeprecated.WindowsUpdatesWatcherInterval cfgDeprecated in
  let present := toml.IsDefined metadata ["windows_updates_watcher_interval"] in
  (GOOS = "windows" -> present = true -> v <= 0 ->
   migrate GOOS cfgDeprecated metadata cfg
   = set_SystemUpdatesChecks
       (UpdatesMonitoringConfig.set_Enabled false (SystemUpdatesChecks cfg)) cfg)
  /\ (GOOS = "windows" -> present = true -> 0 < v < 2 ^ 32 ->
      migrate GOOS cfgDeprecated metadata cfg
      = set_SystemUpdatesChecks
          (UpdatesMonitoringConfig.set_CheckInterval v (SystemUpdatesChecks cfg)) cfg)
  /\ (GOOS <> "windows" \/ present = false ->
      migrate GOOS cfgDeprecated metadata cfg = cfg).
Proof.
  intros v present. unfold migrate. fold v. fold present.
  repeat split.
  - intros -> -> Hv. simpl.
    destruct (Z.leb_spec v 0); [reflexivity | lia].
  - intros -> -> Hv. simpl.
    destruct (Z.leb_spec v 0); [lia|].
    unfold uint32_of_int. rewrite Z.mod_small by lia. reflexivity.
  - intros [Hos | ->].
    + destruct (String.eqb_spec GOOS "windows"); [contradiction | reflexivity].
    + rewrite andb_false_r. reflexivity.
Qed.

End Migration.

(** * Properties of the bandwidth parser *)


Section Bandwidth.

Context `{Externals}.

Import Config.

(** On a finite number the test [value <= 0.0] of the source fails exactly
    when the number is above 0. *)
Lemma above_zero_finite (f : float) :
  is_finite f = true -> (0 <? f)%float = negb (f <=? 0)%float.
Proof.
  unfold is_finite. rewrite ltb_spec, leb_spec.
  change (Prim2SF 0) with (S754_zero false).
  destruct (Prim2SF f) as [s | s | | s m e]; try discriminate; intros _.
  - reflexivity.
  - destruct s; reflexivity.
Qed.

Lemma GetParsedNetInterfaceMaxSpeed_value (cfg : t) (value : float) :
  NetInterfaceMaxSpeed cfg <> "" ->
  strconv.ParseFloat (number_part (NetInterfaceMaxSpeed cfg)) = (value, None) ->
  snd (GetParsedNetInterfaceMaxSpeed cfg) = None ->
  fst (GetParsedNetInterfaceMaxSpeed cfg)
  = uint64_of_float64 (bytes_per_second value (unit_part (NetInterfaceMaxSpeed cfg))).
Proof.
  unfold GetParsedNetInterfaceMaxSpeed, bytes_per_second.
  set (v := NetInterfaceMaxSpeed cfg).
  fold (number_part v). fold (unit_part v).
  intros Hne Hparse.
  destruct (String.eqb_spec v ""); [contradiction|].
  destruct (String.length v <? 2)%nat; [discriminate|].
  rewrite Hparse. cbv beta iota delta [is_err].
  destruct (value <=? 0)%float; [discriminate|].
  destruct (unit_part v =? "K")%char; [reflexivity|].
  destruct (unit_part v =? "M")%char; [reflexivity|].
  destruct (unit_part v =? "G")%char; [reflexivity | discriminate].
Qed.

Lemma GetParsedNetInterfaceMaxSpeed_of (v : string) (cfg : t) :
  NetInterfaceMaxSpeed cfg = v ->
  reads_non_finite v = false ->
  negb (is_err (snd (GetParsedNetInterfaceMaxSpeed cfg))) = max_speed_accepted v.
Proof.
  intros <-. unfold GetParsedNetInterfaceMaxSpeed, max_speed_accepted, reads_non_finite.
  set (v := NetInterfaceMaxSpeed cfg).
  fold (number_part v). fold (unit_part v).
  destruct (v =? "")%string; [reflexivity|].
  rewrite orb_false_l.
  destruct (Nat.ltb_spec (String.length v) 2), (Nat.leb_spec 2 (String.length v));
    try lia; [reflexivity|].
  rewrite !andb_true_l.
  destruct (strconv.ParseFloat (number_part v)) as [value [err|]];
    cbv beta iota delta [is_err fst snd negb andb]; [reflexivity|].
  intros Hfinite. apply negb_false_iff in Hfinite.
  rewrite (above_zero_finite value Hfinite).
  destruct (value <=? 0)%float; cbv beta iota delta [snd is_err negb]; [reflexivity|].
  destruct (unit_part v =? "K")%char; [reflexivity|].
  destruct (unit_part v =? "M")%char; [reflexivity|].
  destruct (unit_part v =? "G")%char; reflexivity.
Qed.

(** C3, as the code has it.  [GetParsedNetInterfaceMaxSpeed] returns
    125,000,000 for [125M], 12,500,000,000 for [12.5G] and 0 for the empty
    string, each with no error, and an error for [5X] and for [abc].
    Leaving aside the strings whose number [strconv.ParseFloat] reads as a
    NaN or an infinity, it returns no error exactly on the empty string and
    on the strings of two bytes or more that end in [K], [M] or [G] after a
    number that [strconv.ParseFloat] reads without error as a value above
    0; the value it returns for a string it accepts, other than the empty
    one, is that number multiplied by 1000 once for [K], twice for [M] and
    three times for [G], converted to [uint64]. *)
Theorem GetParsedNetInterfaceMaxSpeed_accepts (cfg : t) :
  GetParsedNetInterfaceMaxSpeed (set_NetInterfaceMaxSpeed "125M" cfg)
  = (Some 125000000, None)
  /\ GetParsedNetInterfaceMaxSpeed (set_NetInterfaceMaxSpeed "12.5G" cfg)
     = (Some 12500000000, None)
  /\ GetParsedNetInterfaceMaxSpeed (set_NetInterfaceMaxSpeed "" cfg) = (Some 0, None)
  /\ is_err (snd (GetParsedNetInterfaceMaxSpeed (set_NetInterfaceMaxSpeed "5X" cfg))) = true
  /\ is_err (snd (GetParsedNetInterfaceMaxSpeed (set_NetInterfaceMaxSpeed "abc" cfg))) = true
  /\ (reads_non_finite (NetInterfaceMaxSpeed cfg) = false ->
      (snd (GetParsedNetInterfaceMaxSpeed cfg) = None
       <-> max_speed_accepted (NetInterfaceMaxSpeed cfg) = true))
  /\ (forall value,
         NetInterfaceMaxSpeed cfg <> "" ->
         strconv.ParseFloat (number_part (NetInterfaceMaxSpeed cfg)) = (value, None) ->
         snd (GetParsedNetInterfaceMaxSpeed cfg) = None ->
         fst (GetParsedNetInterfaceMaxSpeed cfg)
         = uint64_of_float64
             (bytes_per_second value (unit_part (NetInterfaceMaxSpeed cfg)))).
Proof.
  do 5 (split; [vm_compute; reflexivity|]).
  split; [|intros value; apply GetParsedNetInterfaceMaxSpeed_value].
  intros Hfinite.
  rewrite <- (GetParsedNetInterfaceMaxSpeed_of _ cfg eq_refl Hfinite).
  destruct (snd (GetParsedNetInterfaceMaxSpeed cfg)); simpl; split;
    intros; congruence.
Qed.

End Bandwidth.

(** * Properties of the bootstrap generator *)

Section FileSystem.

(** [MkdirAll] is not cut short: every amount of fuel that covers the length
    of the path gives the same result. *)
Lemma skip_back_le (sep : bool) (path : string) (i : nat) :
  (os.skip_back sep path i <= i)%nat.
Proof.
  induction i as [|k IH]; simpl; [lia|].
  destruct (String.get k path) as [c|]; [|lia].
  destruct (Bool.eqb (filepath.isSep c) sep); lia.
Qed.

Lemma length_substring_0 (m : nat) (s : string) :
  (String.length (String.substring 0 m s) <= m)%nat.
Proof.
  revert s. induction m as [|m IH]; intros [|c s]; simpl; try lia.
  specialize (IH s). lia.
Qed.

Lemma MkdirAll_rec_fuel (fuel fuel' : nat) (fs : gmap string os.node) (path : string) :
  (String.length path <= fuel)%nat -> (String.length path <= fuel')%nat ->
  os.MkdirAll_rec fuel fs path = os.MkdirAll_rec fuel' fs path.
Proof.
  revert fuel' fs path.
  induction fuel as [|fuel IH]; intros fuel' fs path Hlen Hlen'.
  - destruct fuel' as [|fuel']; [reflexivity|].
    simpl. destruct (os.Stat fs path) as [[[data|]|] [err|]]; try reflexivity;
      pose proof (skip_back_le true path (String.length path));
      pose proof (skip_back_le false path
                    (os.skip_back true path (String.length path)));
      destruct (Nat.ltb_spec 1
                  (os.skip_back false path
                     (os.skip_back true path (String.length path))));
      try lia; reflexivity.
  - destruct fuel' as [|fuel'].
    + simpl. destruct (os.Stat fs path) as [[[data|]|] [err|]]; try reflexivity;
        pose proof (skip_back_le true path (String.length path));
        pose proof (skip_back_le false path
                      (os.skip_back true path (String.length path)));
        destruct (Nat.ltb_spec 1
                    (os.skip_back false path
                       (os.skip_back true path (String.length path))));
        try lia; reflexivity.
    + simpl.
      set (j := os.skip_back false path (os.skip_back true path (String.length path))).
      assert (Hj : (j <= String.length path)%nat).
      { pose proof (skip_back_le true path (String.length path)).
        pose proof (skip_back_le false path
                      (os.skip_back true path (String.length path))).
        unfold j. lia. }
      pose proof (length_substring_0 (j - 1) path) as Hsub.
      rewrite (IH fuel' fs (String.substring 0 (j - 1) path)) by
        (destruct (Nat.ltb_spec 1 j); lia).
      reflexivity.
Qed.

End FileSystem.

Section BootstrapProperties.

Context `{Externals}.

(** The guard on an existing file never fires: [os.Stat] returns no error
    for a path that exists and [ENOENT] for one that does not, and
    [os.IsExist] is true of neither. *)
Lemma IsExist_Stat (fs : gmap string os.node) (name : string) :
  os.IsExist (snd (os.Stat fs name)) = false.
Proof.
  unfold os.Stat. destruct (os.lookup fs name); reflexivity.
Qed.

Lemma lookup_file (fs : gmap string os.node) (name data : string) :
  os.lookup fs name = Some (os.File data) -> fs !! name = Some (os.File data).
Proof.
  unfold os.lookup. destruct (_ || _); [discriminate | trivial].
Qed.

(** C1, as the code has it.  When a file exists at the path (in an
    existing directory) and the encoder succeeds, [GenerateDefaultConfigFile]
    returns no error and writes the headline and the encoded configuration
    over the beginning of the file. *)
Theorem GenerateDefaultConfigFile_existing_file (mvc : MinValuableConfig.t)
    (configFilePath data bytes : string) (fs : gmap string os.node) :
  os.lookup fs configFilePath = Some (os.File data) ->
  os.lookup fs (filepath.Dir configFilePath) = Some os.Dir ->
  toml_Encode mvc = (bytes, None) ->
  GenerateDefaultConfigFile mvc configFilePath fs
  = (<[configFilePath :=
         os.File (os.overwrite (os.overwrite data 0 configAutogeneratedHeadline)
                    (String.length configAutogeneratedHeadline) bytes)]> fs,
     [], None).
Proof.
  intros Hfile Hdir Hencode. unfold GenerateDefaultConfigFile.
  rewrite IsExist_Stat.
  unfold os.Stat at 1. rewrite Hdir.
  cbv beta iota delta [snd os.IsNotExist].
  unfold os.OpenFile_WRONLY_CREATE. rewrite Hfile.
  apply lookup_file in Hfile.
  unfold os.Write at 1. cbv beta iota delta [os.name os.offset]. rewrite Hfile.
  unfold Encode. rewrite Hencode.
  unfold os.Write. cbv beta iota delta [os.name os.offset].
  rewrite lookup_insert_eq. rewrite insert_insert_eq.
  reflexivity.
Qed.

End BootstrapProperties.


(** * The properties on concrete inputs *)

Import Examples.

(** C2 at nine retries and a retry interval of ten seconds. *)
Lemma validate_clamps_retries_witness :
  earlier_rules_ok "linux" nine_retries = true
  /\ (Config.OnHTTP5xxRetries nine_retries < 0 \/ 5 < Config.OnHTTP5xxRetries nine_retries)
  /\ let '(cfg', log, err) := Config.validate "linux" nine_retries in
     err = None
     /\ Config.OnHTTP5xxRetries cfg' = 5
     /\ Config.OnHTTP5xxRetryInterval cfg' = Config.OnHTTP5xxRetryInterval nine_retries
     /\ exists before,
          log = (before ++ [log_Warn
                   "on_http_5xx_retries value out of range (0-5). was reset to 5"])%list.
Proof.
  split; [vm_compute; reflexivity|].
  split; [right; vm_compute; reflexivity|].
  apply (validate_clamps_retries "linux" nine_retries).
  - vm_compute; reflexivity.
  - right. vm_compute. reflexivity.
Defined.

(** C5 at an interval of 29.5 seconds, and at the two floors. *)
Lemma validate_interval_floors_witness :
  ((Config.Interval interval_below_floor <? 30)%float = true
   /\ is_err (snd (Config.validate "linux" interval_below_floor)) = true)
  /\ (other_rules_ok "linux" intervals_at_floor = true
      /\ Config.Interval intervals_at_floor = 30%float
      /\ Config.HeartbeatInterval intervals_at_floor = 5%float
      /\ snd (Config.validate "linux" intervals_at_floor) = None).
Proof.
  split.
  - split; [vm_compute; reflexivity|].
    apply (proj1 (validate_interval_floors "linux" interval_below_floor)).
    left. vm_compute. reflexivity.
  - repeat (split; [vm_compute; reflexivity|]).
    apply (proj2 (validate_interval_floors "linux" intervals_at_floor));
      vm_compute; reflexivity.
Defined.

(** C9 on a configuration in which [validate] corrects the proxy, the check
    interval and the retry count. *)
Lemma validate_frame_witness :
  (forall m, fst (@mysql_Validate Sample.externals m) = m)
  /\ same_outside_validated to_correct (fst (fst (Config.validate "linux" to_correct))).
Proof.
  split; [intros m; reflexivity|].
  apply (validate_frame "linux" to_correct). intros m. reflexivity.
Defined.

(** C10 on Windows, macOS and Linux, with a MySQL validator that accepts
    the zero block. *)
Lemma NewConfig_validates_witness :
  @mysql_Validate Sample.externals mysql_Config_zero = (mysql_Config_zero, None)
  /\ Config.validate "windows" windows_defaults = (windows_defaults, [], None)
  /\ Config.validate "darwin" darwin_defaults = (darwin_defaults, [], None)
  /\ Config.validate "linux" linux_defaults = (linux_defaults, [], None).
Proof.
  split; [reflexivity|].
  split; [|split].
  - apply (@NewConfig_validates Sample.externals "windows"). reflexivity.
  - apply (@NewConfig_validates Sample.externals "darwin"). reflexivity.
  - apply (@NewConfig_validates Sample.externals "linux"). reflexivity.
Defined.

(** C6, as the code has it, on the Windows defaults for the values 0 and
    7200, and on the Linux defaults. *)
Lemma migrate_on_windows_witness :
  toml.IsDefined deprecated_key_present ["windows_updates_watcher_interval"] = true
  /\ UpdatesMonitoringConfig.Enabled
       (Config.SystemUpdatesChecks
          (Config.migrate "windows" (ConfigDeprecated.mk 0) deprecated_key_present
             windows_defaults)) = false
  /\ UpdatesMonitoringConfig.CheckInterval
       (Config.SystemUpdatesChecks
          (Config.migrate "windows" (ConfigDeprecated.mk 7200) deprecated_key_present
             windows_defaults)) = 7200
  /\ Config.migrate "linux" (ConfigDeprecated.mk 7200) deprecated_key_present linux_defaults
     = linux_defaults.
Proof.
  split; [vm_compute; reflexivity|].
  split; [|split].
  - rewrite (proj1 (migrate_on_windows "windows" (ConfigDeprecated.mk 0)
                      deprecated_key_present windows_defaults));
      [reflexivity | reflexivity | vm_compute; reflexivity | simpl; lia].
  - rewrite (proj1 (proj2 (migrate_on_windows "windows" (ConfigDeprecated.mk 7200)
                             deprecated_key_present windows_defaults)));
      [reflexivity | reflexivity | vm_compute; reflexivity | simpl; lia].
  - apply (proj2 (proj2 (migrate_on_windows "linux" (ConfigDeprecated.mk 7200)
                           deprecated_key_present linux_defaults))).
    left. discriminate.
Defined.

(** C6 as stated fails off Windows: on a Linux build, with the deprecated
    key present in the metadata, the value 0 leaves the system updates
    checks enabled and the value 7200 leaves the check interval at its
    default of 14400. *)
Lemma migrate_ignores_key_on_linux :
  toml.IsDefined deprecated_key_present ["windows_updates_watcher_interval"] = true
  /\ UpdatesMonitoringConfig.Enabled
       (Config.SystemUpdatesChecks
          (Config.migrate "linux" (ConfigDeprecated.mk 0) deprecated_key_present
             linux_defaults)) = true
  /\ UpdatesMonitoringConfig.CheckInterval
       (Config.SystemUpdatesChecks
          (Config.migrate "linux" (ConfigDeprecated.mk 7200) deprecated_key_present
             linux_defaults)) = 14400.
Proof. repeat split; vm_compute; reflexivity. Qed.

(** On Windows a value of [2^32] or more does not reach the check interval
    as it is: the conversion to [uint32] keeps its low 32 bits. *)
Example migrate_wraps_large_values :
  UpdatesMonitoringConfig.CheckInterval
    (Config.SystemUpdatesChecks
       (Config.migrate "windows" (ConfigDeprecated.mk 4294974496) deprecated_key_present
          windows_defaults)) = 7200.
Proof. vm_compute. reflexivity. Qed.

(** C3 as stated fails in both directions: [1e3K], [InfK] and [NaNK] are
    accepted and are no decimal number with a unit, and a positive decimal
    number below the smallest [float64], in kilobytes, is refused. *)
Lemma GetParsedNetInterfaceMaxSpeed_is_not_decimal_only :
  (positive_decimal_with_unit "1e3K" = false
   /\ Config.GetParsedNetInterfaceMaxSpeed
        (Config.set_NetInterfaceMaxSpeed "1e3K" linux_defaults) = (Some 1000000, None))
  /\ (positive_decimal_with_unit "InfK" = false
      /\ snd (Config.GetParsedNetInterfaceMaxSpeed
                (Config.set_NetInterfaceMaxSpeed "InfK" linux_defaults)) = None)
  /\ (positive_decimal_with_unit "NaNK" = false
      /\ snd (Config.GetParsedNetInterfaceMaxSpeed
                (Config.set_NetInterfaceMaxSpeed "NaNK" linux_defaults)) = None)
  /\ (positive_decimal_with_unit tiny_speed = true
      /\ snd (Config.GetParsedNetInterfaceMaxSpeed
                (Config.set_NetInterfaceMaxSpeed tiny_speed linux_defaults))
         = Some (fmt_Errorf "should be > 0.0" [])).
Proof. repeat split; vm_compute; reflexivity. Qed.

(** C3, as the code has it, on a number with an exponent: [1e3K] has a
    finite number above 0 and is accepted. *)
Lemma GetParsedNetInterfaceMaxSpeed_accepts_witness :
  reads_non_finite "1e3K" = false
  /\ max_speed_accepted "1e3K" = true
  /\ snd (Config.GetParsedNetInterfaceMaxSpeed
            (Config.set_NetInterfaceMaxSpeed "1e3K" linux_defaults)) = None.
Proof.
  split; [vm_compute; reflexivity|].
  split; [vm_compute; reflexivity|].
  apply (proj1 (proj2 (proj2 (proj2 (proj2 (proj2
           (GetParsedNetInterfaceMaxSpeed_accepts
              (Config.set_NetInterfaceMaxSpeed "1e3K" linux_defaults)))))))).
  - vm_compute. reflexivity.
  - vm_compute. reflexivity.
Defined.

(** The description of the accepted strings agrees with the parser on the
    examples of the decimal form. *)
Example positive_decimal_with_unit_examples :
  positive_decimal_with_unit "125M" = true
  /\ positive_decimal_with_unit "12.5G" = true
  /\ positive_decimal_with_unit "0.5K" = true
  /\ positive_decimal_with_unit "" = false
  /\ positive_decimal_with_unit "0K" = false
  /\ positive_decimal_with_unit "5X" = false
  /\ positive_decimal_with_unit "abc" = false
  /\ positive_decimal_with_unit "1.2.3K" = false.
Proof. repeat split; reflexivity. Qed.

(** Numbers [strconv.ParseFloat] reads beyond the plain decimal form. *)
Example GetParsedNetInterfaceMaxSpeed_other_forms :
  Config.GetParsedNetInterfaceMaxSpeed
    (Config.set_NetInterfaceMaxSpeed "1e3K" linux_defaults) = (Some 1000000, None)
  /\ Config.GetParsedNetInterfaceMaxSpeed
       (Config.set_NetInterfaceMaxSpeed "+5K" linux_defaults) = (Some 5000, None)
  /\ Config.GetParsedNetInterfaceMaxSpeed
       (Config.set_NetInterfaceMaxSpeed "0x1p4M" linux_defaults) = (Some 16000000, None)
  /\ snd (Config.GetParsedNetInterfaceMaxSpeed
            (Config.set_NetInterfaceMaxSpeed "-5K" linux_defaults))
     = Some (fmt_Errorf "should be > 0.0" [])
  /\ snd (Config.GetParsedNetInterfaceMaxSpeed
            (Config.set_NetInterfaceMaxSpeed "1e400K" linux_defaults))
     = Some (strconv_NumError "ParseFloat" "1e400" strconv_ErrRange)
  /\ snd (Config.GetParsedNetInterfaceMaxSpeed
            (Config.set_NetInterfaceMaxSpeed "K" linux_defaults))
     = Some (fmt_Errorf "can't parse" []).
Proof. repeat split; vm_compute; reflexivity. Qed.

(** [validate] on a configuration it corrects in three places: the proxy
    gets its scheme, the check interval its minimum and the retry count its
    maximum, with two warnings; the intervals, for one, are as they were. *)
Example validate_corrects :
  let '(cfg, log, err) := Config.validate "linux" to_correct in
  err = None
  /\ Config.HubProxy cfg = "http://proxy.example:3128"
  /\ UpdatesMonitoringConfig.CheckInterval (Config.SystemUpdatesChecks cfg) = 300
  /\ Config.OnHTTP5xxRetries cfg = 5
  /\ Config.OnHTTP5xxRetryInterval cfg = 2%float
  /\ Config.Interval cfg = 90%float
  /\ Config.HeartbeatInterval cfg = 15%float
  /\ List.length log = 2%nat.
Proof. vm_compute. repeat split; reflexivity. Qed.

(** C1, as the code has it, on a file system that holds an operator's
    configuration at the path. *)
Lemma GenerateDefaultConfigFile_existing_file_witness :
  os.lookup fs_with_conf conf_path = Some (os.File operator_conf)
  /\ os.lookup fs_with_conf (filepath.Dir conf_path) = Some os.Dir
  /\ @toml_Encode Sample.externals (NewMinimumConfig "linux" ∅)
     = (fst (Sample.encode_mvc (NewMinimumConfig "linux" ∅)), None)
  /\ @GenerateDefaultConfigFile Sample.externals (NewMinimumConfig "linux" ∅)
       conf_path fs_with_conf
     = (<[conf_path :=
            os.File (os.overwrite (os.overwrite operator_conf 0 configAutogeneratedHeadline)
                       (String.length configAutogeneratedHeadline)
                       (fst (Sample.encode_mvc (NewMinimumConfig "linux" ∅))))]>
          fs_with_conf,
        [], None).
Proof.
  split; [vm_compute; reflexivity|].
  split; [vm_compute; reflexivity|].
  split; [reflexivity|].
  apply (@GenerateDefaultConfigFile_existing_file Sample.externals).
  - vm_compute; reflexivity.
  - vm_compute; reflexivity.
  - reflexivity.
Defined.

(** The call on the existing file returns no error, and the file no longer
    starts with the operator's first line but with the headline. *)
Example GenerateDefaultConfigFile_overwrites :
  let '(fs, _, err) :=
    @GenerateDefaultConfigFile Sample.externals (NewMinimumConfig "linux" ∅)
      conf_path fs_with_conf in
  err = None
  /\ strings_HasPrefix operator_conf "hub_url = 'https://hub.example'" = true
  /\ match fs !! conf_path with
     | Some (os.File data) =>
         strings_HasPrefix data configAutogeneratedHeadline = true
         /\ strings_HasPrefix data "hub_url = 'https://hub.example'" = false
     | _ => False
     end.
Proof. vm_compute. repeat split; reflexivity. Qed.

(** Without a file at the path the generator creates the directory and the
    file, which then holds the headline and the encoded configuration. *)
Example GenerateDefaultConfigFile_creates :
  let '(fs, log, err) :=
    @GenerateDefaultConfigFile Sample.externals (NewMinimumConfig "linux" ∅)
      conf_path {[ "/etc" := os.Dir ]} in
  err = None /\ log = []
  /\ fs !! "/etc/cagent" = Some os.Dir
  /\ fs !! conf_path
     = Some (os.File (configAutogeneratedHeadline
                      ++ fst (Sample.encode_mvc (NewMinimumConfig "linux" ∅)))).
Proof. vm_compute. repeat split; reflexivity. Qed.

(** * Further properties of the nested blocks *)

(** X1.  [UpdatesMonitoringConfig.Validate] returns its error exactly when
    the fetch timeout is not below the check interval, and then leaves the
    block as it is and logs nothing.  Otherwise it changes the check
    interval only, to the larger of its value and 300, so that the block it
    leaves has a fetch timeout below a check interval of 300 at least; it
    warns exactly when it raised the interval. *)
Theorem UpdatesMonitoringConfig_Validate_effect (l : UpdatesMonitoringConfig.t) :
  let '(l', warnings, err) := UpdatesMonitoringConfig.Validate l in
  (is_err err = true
   <-> UpdatesMonitoringConfig.CheckInterval l <= UpdatesMonitoringConfig.FetchTimeout l)
  /\ (is_err err = true -> l' = l /\ warnings = [])
  /\ (err = None ->
      UpdatesMonitoringConfig.Enabled l' = UpdatesMonitoringConfig.Enabled l
      /\ UpdatesMonitoringConfig.FetchTimeout l' = UpdatesMonitoringConfig.FetchTimeout l
      /\ UpdatesMonitoringConfig.CheckInterval l'
         = Z.max (UpdatesMonitoringConfig.CheckInterval l) 300
      /\ UpdatesMonitoringConfig.FetchTimeout l' < UpdatesMonitoringConfig.CheckInterval l'
      /\ (warnings = [] <-> 300 <= UpdatesMonitoringConfig.CheckInterval l)).
Proof.
  unfold UpdatesMonitoringConfig.Validate, minSystemUpdatesCheckInterval.
  destruct l as [enabled fetch check]; simpl.
  destruct (Z.geb_spec fetch check).
  - simpl. repeat split; intros; try lia; try discriminate.
  - destruct (Z.ltb_spec check 300); simpl; repeat split; intros;
      try lia; try discriminate.
Qed.

(** X2.  A block that [UpdatesMonitoringConfig.Validate] has accepted is
    accepted again as it is, with no warning: the validator is idempotent
    on its results. *)
Theorem UpdatesMonitoringConfig_Validate_idempotent
    (l l' : UpdatesMonitoringConfig.t) (warnings : list log_entry) :
  UpdatesMonitoringConfig.Validate l = (l', warnings, None) ->
  UpdatesMonitoringConfig.Validate l' = (l', [], None).
Proof.
  unfold UpdatesMonitoringConfig.Validate, minSystemUpdatesCheckInterval.
  destruct l as [enabled fetch check]; simpl.
  destruct (Z.geb_spec fetch check); [discriminate|].
  destruct (Z.ltb_spec check 300); intros [= <- _]; simpl.
  - destruct (Z.geb_spec fetch 300); [lia | reflexivity].
  - destruct (Z.geb_spec fetch check); [lia|].
    destruct (Z.ltb_spec check 300); [lia | reflexivity].
Qed.

(** X2 on a block with a check interval of two minutes. *)
Lemma UpdatesMonitoringConfig_Validate_idempotent_witness :
  UpdatesMonitoringConfig.Validate (UpdatesMonitoringConfig.mk true 30 120)
  = (UpdatesMonitoringConfig.mk true 30 300,
     [log_Warningf
        "system_updates_checks.check_interval is less than minimum(%d). It was set to %d"
        [arg_int 300; arg_int 300]], None)
  /\ UpdatesMonitoringConfig.Validate (UpdatesMonitoringConfig.mk true 30 300)
     = (UpdatesMonitoringConfig.mk true 30 300, [], None).
Proof.
  split; [reflexivity|].
  apply (UpdatesMonitoringConfig_Validate_idempotent
           (UpdatesMonitoringConfig.mk true 30 120) _ _ eq_refl).
Defined.

Lemma int64_of_small (n : Z) : - 2 ^ 63 <= n < 2 ^ 63 -> int64_of n = n.
Proof.
  unfold int64_of.
  change (2 ^ 63) with 9223372036854775808.
  change (2 ^ 64) with 18446744073709551616.
  intros Hn. rewrite Z.mod_small by lia. lia.
Qed.

(** X3.  For a check interval that fits its [uint32] field,
    [UpdatesConfig.GetCheckInterval] is the interval in nanoseconds: the
    product of the two [int64] does not overflow. *)
Theorem GetCheckInterval_exact (u : UpdatesConfig.t) :
  0 <= UpdatesConfig.CheckInterval u < 2 ^ 32 ->
  UpdatesConfig.GetCheckInterval u = UpdatesConfig.CheckInterval u * 1000000000
  /\ 0 <= UpdatesConfig.GetCheckInterval u < 2 ^ 63.
Proof.
  change (2 ^ 32) with 4294967296. change (2 ^ 63) with 9223372036854775808.
  intros Hrange. unfold UpdatesConfig.GetCheckInterval, time_Second.
  rewrite (int64_of_small 1000000000)
    by (change (2 ^ 63) with 9223372036854775808; lia).
  rewrite (int64_of_small (UpdatesConfig.CheckInterval u))
    by (change (2 ^ 63) with 9223372036854775808; lia).
  rewrite int64_of_small by (change (2 ^ 63) with 9223372036854775808; lia).
  lia.
Qed.

(** X3 at the largest check interval. *)
Lemma GetCheckInterval_exact_witness :
  0 <= 4294967295 < 2 ^ 32
  /\ UpdatesConfig.GetCheckInterval (UpdatesConfig.mk true "" 4294967295)
     = 4294967295000000000.
Proof.
  split; [lia|].
  apply (proj1 (GetCheckInterval_exact (UpdatesConfig.mk true "" 4294967295)
                  ltac:(simpl; lia))).
Defined.

(** * Further properties of the environment overlay *)

Section OverlayAlgebra.

Import MinValuableConfig.

Ltac overlay_cases :=
  cbv beta iota zeta
      delta [applyEnv NewMinimumConfig defaultMinValuableConfig
             set_HubURL set_HubUser set_HubPassword set_IOMode set_OutFile
             LogLevel IOMode OutFile HubURL HubUser HubPassword orb];
  repeat (match goal with
          | |- context [(?a =? ?b)%string] => destruct (a =? b)%string eqn:?
          end;
          cbv beta iota zeta
              delta [LogLevel IOMode OutFile HubURL HubUser HubPassword]).

(** X4.  [applyEnv] is idempotent in either mode: applying the same
    environment a second time changes nothing. *)
Theorem applyEnv_idempotent (env : gmap string string) (force : bool) (mvc : t) :
  applyEnv env force (applyEnv env force mvc) = applyEnv env force mvc.
Proof.
  unfold applyEnv.
  destruct (env !! "CAGENT_HUB_URL") as [url|],
           (env !! "CAGENT_HUB_USER") as [user|],
           (env !! "CAGENT_HUB_PASSWORD") as [password|];
    destruct force, mvc as [lvl mode out u us pw];
    overlay_cases; congruence.
Qed.

(** X5.  The forced overlay absorbs the fill-if-empty one: whether the
    fields were filled from the environment before or are filled after,
    the result is that of the forced overlay alone. *)
Theorem applyEnv_force_absorbs (env : gmap string string) (mvc : t) :
  applyEnv env true (applyEnv env false mvc) = applyEnv env true mvc
  /\ applyEnv env false (applyEnv env true mvc) = applyEnv env true mvc.
Proof.
  unfold applyEnv.
  destruct (env !! "CAGENT_HUB_URL") as [url|],
           (env !! "CAGENT_HUB_USER") as [user|],
           (env !! "CAGENT_HUB_PASSWORD") as [password|];
    destruct mvc as [lvl mode out u us pw];
    split; overlay_cases; congruence.
Qed.

(** X6.  Whatever the environment and the operating system, the minimal
    configuration is in one of the two I/O modes, in the file mode exactly
    when it has no hub URL, and with an output file exactly in the file
    mode; its log level is [error], and its user and password are those of
    the environment, empty when unset. *)
Theorem NewMinimumConfig_invariants (GOOS : string) (env : gmap string string) :
  let cfg := NewMinimumConfig GOOS env in
  (IOMode cfg = IOModeFile \/ IOMode cfg = IOModeHTTP)
  /\ (IOMode cfg = IOModeFile <-> HubURL cfg = "")
  /\ (OutFile cfg <> "" <-> IOMode cfg = IOModeFile)
  /\ LogLevel cfg = LogLevelError
  /\ HubUser cfg = default "" (env !! "CAGENT_HUB_USER")
  /\ HubPassword cfg = default "" (env !! "CAGENT_HUB_PASSWORD").
Proof.
  unfold NewMinimumConfig, applyEnv, IOModeFile, IOModeHTTP, LogLevelError.
  destruct (env !! "CAGENT_HUB_URL") as [url|],
           (env !! "CAGENT_HUB_USER") as [user|],
           (env !! "CAGENT_HUB_PASSWORD") as [password|]; simpl;
    overlay_cases;
    repeat match goal with
           | H : (_ =? _)%string = true |- _ => apply String.eqb_eq in H
           | H : (_ =? _)%string = false |- _ => apply String.eqb_neq in H
           end;
    repeat split; intros; subst; auto; try congruence; try discriminate.
Qed.

End OverlayAlgebra.

(** * Further properties of the validator *)

Section ValidatorResults.

Context `{Externals}.
Variable GOOS : string.

Import Config.

Lemma check_hub_proxy_fails (cfg : t) (log : list log_entry) :
  hub_proxy_ok cfg = false -> fails check_hub_proxy cfg log.
Proof.
  unfold hub_proxy_ok, proxy_url, check_hub_proxy, fails.
  destruct (HubProxy cfg =? "")%string; simpl; [discriminate|].
  destruct (strings_HasPrefix (HubProxy cfg) "http"); simpl;
    intros Hp; apply negb_false_iff in Hp.
  - rewrite Hp. eauto.
  - change (HubProxy (set_HubProxy ("http://" ++ HubProxy cfg) cfg))
      with ("http://" ++ HubProxy cfg).
    rewrite Hp. eauto.
Qed.

Lemma check_interval_fails (cfg : t) (log : list log_entry) :
  interval_ok cfg = false -> fails check_interval cfg log.
Proof.
  unfold interval_ok, check_interval, fails. intros Hi.
  apply negb_false_iff in Hi. rewrite Hi. eauto.
Qed.

Lemma check_heartbeat_fails (cfg : t) (log : list log_entry) :
  heartbeat_ok cfg = false -> fails check_heartbeat cfg log.
Proof.
  unfold heartbeat_ok, check_heartbeat, fails. intros Hi.
  apply negb_false_iff in Hi. rewrite Hi. eauto.
Qed.

Lemma check_operation_mode_fails (cfg : t) (log : list log_entry) :
  operation_mode_ok cfg = false -> fails check_operation_mode cfg log.
Proof.
  unfold operation_mode_ok, check_operation_mode, fails. intros ->. simpl. eauto.
Qed.

Lemma check_net_interface_max_speed_fails (cfg : t) (log : list log_entry) :
  net_interface_max_speed_ok cfg = false -> fails check_net_interface_max_speed cfg log.
Proof.
  unfold net_interface_max_speed_ok, check_net_interface_max_speed, fails.
  destruct (snd (GetParsedNetInterfaceMaxSpeed cfg)); simpl; [eauto | discriminate].
Qed.

Lemma check_hub_request_timeout_fails (cfg : t) (log : list log_entry) :
  hub_request_timeout_ok cfg = false -> fails check_hub_request_timeout cfg log.
Proof.
  unfold hub_request_timeout_ok, check_hub_request_timeout, fails,
    minHubRequestTimeout, maxHubRequestTimeout.
  rewrite Z.gtb_ltb. intros Ht. apply andb_false_iff in Ht.
  destruct (Z.ltb_spec (HubRequestTimeout cfg) 1); simpl; [eauto|].
  destruct (Z.ltb_spec 600 (HubRequestTimeout cfg)); simpl; [eauto|].
  destruct Ht as [Ht | Ht]; apply Z.leb_gt in Ht; lia.
Qed.

Lemma check_jobmon_fails (cfg : t) (log : list log_entry) :
  jobmon_ok GOOS cfg = false -> fails (check_jobmon GOOS) cfg log.
Proof.
  unfold jobmon_ok, check_jobmon, fails.
  destruct (JobMonitoringConfig.Validate GOOS (JobMonitoring cfg)); simpl;
    [eauto | discriminate].
Qed.

Lemma check_system_updates_checks_fails (cfg : t) (log : list log_entry) :
  system_updates_checks_ok cfg = false -> fails check_system_updates_checks cfg log.
Proof.
  unfold system_updates_checks_ok, check_system_updates_checks, fails,
    UpdatesMonitoringConfig.Validate.
  intros Hs. apply Z.ltb_ge in Hs.
  destruct (Z.geb_spec (UpdatesMonitoringConfig.FetchTimeout (SystemUpdatesChecks cfg))
                       (UpdatesMonitoringConfig.CheckInterval (SystemUpdatesChecks cfg)));
    [eauto | lia].
Qed.

Lemma check_mysql_monitoring_fails (cfg : t) (log : list log_entry) :
  mysql_monitoring_ok cfg = false -> fails check_mysql_monitoring cfg log.
Proof.
  unfold mysql_monitoring_ok, check_mysql_monitoring, fails.
  destruct (mysql_Validate (MysqlMonitoring cfg)) as [m [err|]]; simpl;
    [eauto | discriminate].
Qed.

Lemma check_updates_fails (cfg : t) (log : list log_entry) :
  updates_ok cfg = false -> fails check_updates cfg log.
Proof.
  unfold updates_ok, check_updates, fails.
  destruct (UpdatesConfig.Validate (Updates cfg)); simpl; [eauto | discriminate].
Qed.

Lemma fails_and_then (k1 k2 : check) (cfg : t) (log : list log_entry) :
  fails k1 cfg log -> fails (k1 ;; k2)%check cfg log.
Proof.
  intros (st & err & Hk). exists st, err. apply and_then_return. exact Hk.
Qed.

Lemma fails_is_err (k : check) (cfg : t) (log : list log_entry) :
  fails k cfg log -> is_err (snd (result_of (k (cfg, log)))) = true.
Proof.
  intros (st & err & ->). destruct st. reflexivity.
Qed.

(** [validate] returns an error when one of the rules before the retry
    count fails. *)
Lemma validate_fails (cfg : t) :
  earlier_rules_ok GOOS cfg = false -> is_err (snd (validate GOOS cfg)) = true.
Proof.
  intros Hbad.
  change (validate GOOS cfg) with
    (result_of ((check_hub_proxy ;; check_interval ;; check_heartbeat ;;
                 check_operation_mode ;; check_net_interface_max_speed ;;
                 check_hub_request_timeout ;; check_jobmon GOOS ;;
                 check_system_updates_checks ;; check_mysql_monitoring ;;
                 check_updates ;; check_on_http_5xx_retries ;;
                 check_on_http_5xx_retry_interval)%check (cfg, []))).
  apply fails_is_err.
  destruct (hub_proxy_ok cfg) eqn:Hproxy;
    [| apply fails_and_then, check_hub_proxy_fails; assumption].
  unfold fails. rewrite (and_then_next _ _ _ _ (check_hub_proxy_passes cfg [] Hproxy)).
  assert (Hp1 : hub_proxy_ok (with_proxy_scheme cfg) = true).
  { unfold with_proxy_scheme.
    destruct (HubProxy cfg =? "")%string eqn:He; [assumption|].
    destruct (strings_HasPrefix (HubProxy cfg) "http") eqn:Hpre; [assumption|].
    unfold hub_proxy_ok, proxy_url in *. rewrite He, Hpre in Hproxy.
    change (HubProxy (set_HubProxy ("http://" ++ HubProxy cfg) cfg))
      with ("http://" ++ HubProxy cfg).
    change (strings_HasPrefix ("http://" ++ HubProxy cfg) "http") with true.
    cbv beta iota. rewrite orb_false_l in Hproxy. rewrite Hproxy.
    apply orb_true_r. }
  assert (Hsame : earlier_rules_ok GOOS (with_proxy_scheme cfg) = false).
  { unfold earlier_rules_ok, other_rules_ok in *.
    rewrite Hp1. rewrite Hproxy in Hbad.
    destruct (with_proxy_scheme_cases cfg) as [-> | ->]; exact Hbad. }
  revert Hp1 Hsame. generalize (with_proxy_scheme cfg) as c. clear cfg Hbad Hproxy.
  intros c Hp1 Hbad. unfold earlier_rules_ok, other_rules_ok in Hbad.
  rewrite Hp1 in Hbad.
  destruct (interval_ok c) eqn:Hi;
    [| apply fails_and_then, check_interval_fails; assumption].
  unfold fails. rewrite (and_then_next _ _ _ _ (check_interval_passes c [] Hi)).
  destruct (heartbeat_ok c) eqn:Hh;
    [| apply fails_and_then, check_heartbeat_fails; assumption].
  rewrite (and_then_next _ _ _ _ (check_heartbeat_passes c [] Hh)).
  destruct (operation_mode_ok c) eqn:Hm;
    [| apply fails_and_then, check_operation_mode_fails; assumption].
  rewrite (and_then_next _ _ _ _ (check_operation_mode_passes c [] Hm)).
  destruct (net_interface_max_speed_ok c) eqn:Hn;
    [| apply fails_and_then, check_net_interface_max_speed_fails; assumption].
  rewrite (and_then_next _ _ _ _ (check_net_interface_max_speed_passes c [] Hn)).
  destruct (hub_request_timeout_ok c) eqn:Ht;
    [| apply fails_and_then, check_hub_request_timeout_fails; assumption].
  rewrite (and_then_next _ _ _ _ (check_hub_request_timeout_passes c [] Ht)).
  destruct (jobmon_ok GOOS c) eqn:Hj;
    [| apply fails_and_then, check_jobmon_fails; assumption].
  rewrite (and_then_next _ _ _ _ (check_jobmon_passes GOOS c [] Hj)).
  destruct (system_updates_checks_ok c) eqn:Hs;
    [| apply fails_and_then, check_system_updates_checks_fails; assumption].
  rewrite (and_then_next _ _ _ _ (check_system_updates_checks_passes c [] Hs)).
  destruct (mysql_monitoring_ok c) eqn:Hq;
    [| apply fails_and_then, check_mysql_monitoring_fails; exact Hq].
  match goal with
  | |- context [and_then check_mysql_monitoring _ (?c', ?l)] =>
      rewrite (and_then_next _ _ _ _ (check_mysql_monitoring_passes c' l Hq))
  end.
  destruct (updates_ok c) eqn:Hu; [| apply fails_and_then, check_updates_fails; exact Hu].
  discriminate Hbad.
Qed.

End ValidatorResults.

Section ValidatorVerdict.

Context `{Externals}.
Variable GOOS : string.

Import Config.

(** X7.  [validate] returns an error exactly when one of the rules that can
    fail does: the proxy URL (with its scheme) does not parse, the interval
    or the heartbeat is outside its bounds, the operation mode is unknown,
    the maximal speed of the network interfaces does not parse, the request
    timeout is outside 1..600, or the validator of the job monitoring, the
    system updates, the MySQL monitoring or the self-updates rejects its
    block.  The retry rules never fail. *)
Theorem validate_verdict (cfg : t) :
  is_err (snd (validate GOOS cfg)) = negb (earlier_rules_ok GOOS cfg).
Proof.
  destruct (earlier_rules_ok GOOS cfg) eqn:Hok.
  - rewrite (validate_passes GOOS cfg Hok).
    unfold and_then, check_on_http_5xx_retries, check_on_http_5xx_retry_interval,
      after_failing_rules.
    cbv beta iota.
    match goal with |- context [if ?b then _ else _] => destruct b end;
      [reflexivity|].
    match goal with |- context [if ?b then _ else _] => destruct b end; reflexivity.
  - apply (validate_fails GOOS cfg Hok).
Qed.

End ValidatorVerdict.

Section ValidatorEffects.

Context `{Externals}.
Variable GOOS : string.

Import Config.

Lemma validate_success_rules (cfg cfg' : t) (log : list log_entry) :
  validate GOOS cfg = (cfg', log, None) -> earlier_rules_ok GOOS cfg = true.
Proof.
  intros Hv. destruct (earlier_rules_ok GOOS cfg) eqn:Hok; [reflexivity|].
  pose proof (validate_fails GOOS cfg Hok) as Herr. rewrite Hv in Herr. discriminate.
Qed.

(** A configuration with nothing to correct that passes every rule is
    returned as it is, with no warning. *)
Lemma validate_stable (cfg : t) :
  with_proxy_scheme cfg = cfg ->
  earlier_rules_ok GOOS cfg = true ->
  fst (mysql_Validate (MysqlMonitoring cfg)) = MysqlMonitoring cfg ->
  (UpdatesMonitoringConfig.CheckInterval (SystemUpdatesChecks cfg)
   <? minSystemUpdatesCheckInterval) = false ->
  (OnHTTP5xxRetries cfg <? 0) || (OnHTTP5xxRetries cfg >? 5) = false ->
  ((OnHTTP5xxRetryInterval cfg <? 1) || (3 <? OnHTTP5xxRetryInterval cfg))%float = false ->
  validate GOOS cfg = (cfg, [], None).
Proof.
  intros Hproxy Hok Hmysql Hcheck Hretries Hinterval.
  rewrite (validate_passes GOOS cfg Hok).
  assert (Hsys : system_updates_checks_ok cfg = true).
  { unfold earlier_rules_ok, other_rules_ok in Hok.
    repeat (apply andb_prop in Hok; destruct Hok as [Hok ?]). assumption. }
  assert (Hafter : after_failing_rules cfg = (cfg, [])).
  { unfold after_failing_rules. rewrite Hproxy.
    unfold UpdatesMonitoringConfig.Validate.
    unfold system_updates_checks_ok in Hsys. apply Z.ltb_lt in Hsys.
    destruct (Z.geb_spec
                (UpdatesMonitoringConfig.FetchTimeout (SystemUpdatesChecks cfg))
                (UpdatesMonitoringConfig.CheckInterval (SystemUpdatesChecks cfg)));
      [lia|].
    rewrite Hcheck. simpl.
    rewrite set_SystemUpdatesChecks_same, Hmysql.
    rewrite set_MysqlMonitoring_same. reflexivity. }
  rewrite Hafter. unfold and_then, check_on_http_5xx_retries.
  rewrite Hretries. unfold check_on_http_5xx_retry_interval.
  rewrite Hinterval. reflexivity.
Qed.

(** X8.  What a successful [validate] has done: the proxy URL has its
    scheme, the check interval of the system updates is the larger of its
    value and 300, a retry count outside 0..5 is 5, and the retry interval
    is 3 when it was outside 1..3 and the retry count was in range; with a
    retry count out of range the retry interval is the one given. *)
Theorem validate_success_effect (cfg cfg' : t) (log : list log_entry) :
  validate GOOS cfg = (cfg', log, None) ->
  HubProxy cfg'
  = (if (HubProxy cfg =? "")%string || strings_HasPrefix (HubProxy cfg) "http"
     then HubProxy cfg else "http://" ++ HubProxy cfg)
  /\ UpdatesMonitoringConfig.CheckInterval (SystemUpdatesChecks cfg')
     = Z.max (UpdatesMonitoringConfig.CheckInterval (SystemUpdatesChecks cfg)) 300
  /\ OnHTTP5xxRetries cfg'
     = (if (OnHTTP5xxRetries cfg <? 0) || (OnHTTP5xxRetries cfg >? 5)
        then 5 else OnHTTP5xxRetries cfg)
  /\ OnHTTP5xxRetryInterval cfg'
     = (if (OnHTTP5xxRetries cfg <? 0) || (OnHTTP5xxRetries cfg >? 5)
        then OnHTTP5xxRetryInterval cfg
        else if ((OnHTTP5xxRetryInterval cfg <? 1)
                 || (3 <? OnHTTP5xxRetryInterval cfg))%float
             then 3%float else OnHTTP5xxRetryInterval cfg).
Proof.
  intros Hv. pose proof (validate_success_rules _ _ _ Hv) as Hok.
  rewrite (validate_passes GOOS cfg Hok) in Hv.
  assert (Hsys : system_updates_checks_ok cfg = true).
  { unfold earlier_rules_ok, other_rules_ok in Hok.
    repeat (apply andb_prop in Hok; destruct Hok as [Hok ?]). assumption. }
  unfold after_failing_rules in Hv.
  set (c1 := with_proxy_scheme cfg) in *.
  assert (Hc1 : HubProxy c1
                = (if (HubProxy cfg =? "")%string || strings_HasPrefix (HubProxy cfg) "http"
                   then HubProxy cfg else "http://" ++ HubProxy cfg)
                /\ SystemUpdatesChecks c1 = SystemUpdatesChecks cfg
                /\ OnHTTP5xxRetries c1 = OnHTTP5xxRetries cfg
                /\ OnHTTP5xxRetryInterval c1 = OnHTTP5xxRetryInterval cfg).
  { unfold c1, with_proxy_scheme.
    destruct (HubProxy cfg =? "")%string; [repeat split|].
    destruct (strings_HasPrefix (HubProxy cfg) "http"); repeat split. }
  destruct Hc1 as (Hp & Hs & Hr & Hi).
  unfold system_updates_checks_ok in Hsys. rewrite <- Hs in Hsys.
  destruct (UpdatesMonitoringConfig_Validate_passes _ Hsys) as [w Hw].
  rewrite Hw in Hv. cbv beta iota delta [fst snd] in Hv.
  unfold and_then, check_on_http_5xx_retries in Hv. cbv beta iota in Hv.
  change (OnHTTP5xxRetries (set_MysqlMonitoring _ (set_SystemUpdatesChecks _ c1)))
    with (OnHTTP5xxRetries c1) in Hv.
  rewrite Hr in Hv. rewrite <- Hp, <- Hs.
  assert (Hraised : UpdatesMonitoringConfig.CheckInterval
                      (raised (SystemUpdatesChecks c1))
                    = Z.max (UpdatesMonitoringConfig.CheckInterval (SystemUpdatesChecks c1)) 300).
  { unfold raised, minSystemUpdatesCheckInterval.
    destruct (Z.ltb_spec (UpdatesMonitoringConfig.CheckInterval (SystemUpdatesChecks c1)) 300);
      simpl; lia. }
  rewrite <- Hraised.
  destruct ((OnHTTP5xxRetries cfg <? 0) || (OnHTTP5xxRetries cfg >? 5)).
  - injection Hv as <- _. repeat split; try assumption; symmetry; assumption.
  - unfold check_on_http_5xx_retry_interval in Hv. cbv beta iota in Hv.
    change (OnHTTP5xxRetryInterval (set_MysqlMonitoring _ (set_SystemUpdatesChecks _ c1)))
      with (OnHTTP5xxRetryInterval c1) in Hv.
    rewrite Hi in Hv.
    destruct ((OnHTTP5xxRetryInterval cfg <? 1) || (3 <? OnHTTP5xxRetryInterval cfg))%float;
      injection Hv as <- _; repeat split; try assumption; symmetry; assumption.
Qed.

End ValidatorEffects.

(** X8 on a configuration with a proxy without scheme, a check interval of
    120 seconds and nine retries. *)
Lemma validate_success_effect_witness :
  snd (Config.validate "linux" to_correct) = None
  /\ Config.HubProxy (fst (fst (Config.validate "linux" to_correct)))
     = "http://proxy.example:3128"
  /\ UpdatesMonitoringConfig.CheckInterval
       (Config.SystemUpdatesChecks (fst (fst (Config.validate "linux" to_correct))))
     = 300
  /\ Config.OnHTTP5xxRetries (fst (fst (Config.validate "linux" to_correct))) = 5.
Proof.
  split; [vm_compute; reflexivity|].
  destruct (validate_success_effect "linux" to_correct
              (fst (fst (Config.validate "linux" to_correct)))
              (snd (fst (Config.validate "linux" to_correct)))
              ltac:(vm_compute; reflexivity))
    as (Hp & Hc & Hr & _).
  rewrite Hp, Hc, Hr. repeat split; vm_compute; reflexivity.
Defined.

Section ValidatorFixpoint.

Context `{Externals}.
Variable GOOS : string.

Import Config.

Lemma with_proxy_scheme_has_scheme (cfg : t) :
  (HubProxy (with_proxy_scheme cfg) =? "")%string
  || strings_HasPrefix (HubProxy (with_proxy_scheme cfg)) "http" = true.
Proof.
  unfold with_proxy_scheme.
  destruct (HubProxy cfg =? "")%string eqn:He; [rewrite He; reflexivity|].
  destruct (strings_HasPrefix (HubProxy cfg) "http") eqn:Hp.
  - rewrite He, Hp. reflexivity.
  - apply orb_true_r.
Qed.

Lemma with_proxy_scheme_fixed (cfg : t) :
  (HubProxy cfg =? "")%string || strings_HasPrefix (HubProxy cfg) "http" = true ->
  with_proxy_scheme cfg = cfg.
Proof.
  unfold with_proxy_scheme. intros Hs.
  destruct (HubProxy cfg =? "")%string; [reflexivity|].
  simpl in Hs. rewrite Hs. reflexivity.
Qed.

Lemma hub_proxy_ok_with_scheme (cfg : t) :
  hub_proxy_ok cfg = true -> hub_proxy_ok (with_proxy_scheme cfg) = true.
Proof.
  intros Hproxy. unfold with_proxy_scheme.
  destruct (HubProxy cfg =? "")%string eqn:He; [assumption|].
  destruct (strings_HasPrefix (HubProxy cfg) "http") eqn:Hpre; [assumption|].
  unfold hub_proxy_ok, proxy_url in *. rewrite He, Hpre in Hproxy.
  change (HubProxy (set_HubProxy ("http://" ++ HubProxy cfg) cfg))
    with ("http://" ++ HubProxy cfg).
  change (strings_HasPrefix ("http://" ++ HubProxy cfg) "http") with true.
  cbv beta iota. rewrite orb_false_l in Hproxy. rewrite Hproxy.
  apply orb_true_r.
Qed.

Lemma earlier_rules_ok_with_scheme (cfg : t) :
  earlier_rules_ok GOOS cfg = true -> earlier_rules_ok GOOS (with_proxy_scheme cfg) = true.
Proof.
  intros Hok. unfold earlier_rules_ok, other_rules_ok in *.
  assert (Hp : hub_proxy_ok cfg = true).
  { repeat (apply andb_prop in Hok; destruct Hok as [Hok ?]). assumption. }
  rewrite (hub_proxy_ok_with_scheme cfg Hp). rewrite Hp in Hok.
  destruct (with_proxy_scheme_cases cfg) as [-> | ->]; exact Hok.
Qed.

Lemma after_failing_rules_corrected (cfg : t) :
  (forall m, fst (mysql_Validate m) = m) ->
  earlier_rules_ok GOOS cfg = true ->
  fst (after_failing_rules cfg) = corrected_blocks cfg.
Proof.
  intros Hm Hok. apply earlier_rules_ok_with_scheme in Hok.
  unfold after_failing_rules, corrected_blocks.
  set (c1 := with_proxy_scheme cfg) in *.
  assert (Hsys : system_updates_checks_ok c1 = true).
  { unfold earlier_rules_ok, other_rules_ok in Hok.
    repeat (apply andb_prop in Hok; destruct Hok as [Hok ?]). assumption. }
  destruct (UpdatesMonitoringConfig_Validate_passes _ Hsys) as [w ->].
  rewrite Hm. cbv beta iota delta [fst snd].
  apply set_MysqlMonitoring_same.
Qed.

Lemma corrected_blocks_ok (cfg : t) :
  (forall m, fst (mysql_Validate m) = m) ->
  earlier_rules_ok GOOS cfg = true ->
  with_proxy_scheme (corrected_blocks cfg) = corrected_blocks cfg
  /\ earlier_rules_ok GOOS (corrected_blocks cfg) = true
  /\ (UpdatesMonitoringConfig.CheckInterval (SystemUpdatesChecks (corrected_blocks cfg))
      <? minSystemUpdatesCheckInterval) = false.
Proof.
  intros Hm Hok. pose proof (with_proxy_scheme_has_scheme cfg) as Hs.
  apply earlier_rules_ok_with_scheme in Hok.
  unfold corrected_blocks. set (c1 := with_proxy_scheme cfg) in *.
  split; [apply with_proxy_scheme_fixed; exact Hs|].
  unfold earlier_rules_ok, other_rules_ok in *.
  repeat (apply andb_prop in Hok; destruct Hok as [Hok ?]).
  unfold system_updates_checks_ok, raised, minSystemUpdatesCheckInterval in *.
  destruct (SystemUpdatesChecks c1) as [enabled fetch check] eqn:Hsuc.
  cbv beta iota delta [UpdatesMonitoringConfig.CheckInterval
                         UpdatesMonitoringConfig.FetchTimeout] in *.
  assert (Hfields :
    forall l, hub_proxy_ok (set_SystemUpdatesChecks l c1) = hub_proxy_ok c1
              /\ operation_mode_ok (set_SystemUpdatesChecks l c1) = operation_mode_ok c1
              /\ net_interface_max_speed_ok (set_SystemUpdatesChecks l c1)
                 = net_interface_max_speed_ok c1
              /\ hub_request_timeout_ok (set_SystemUpdatesChecks l c1)
                 = hub_request_timeout_ok c1
              /\ jobmon_ok GOOS (set_SystemUpdatesChecks l c1) = jobmon_ok GOOS c1
              /\ mysql_monitoring_ok (set_SystemUpdatesChecks l c1) = mysql_monitoring_ok c1
              /\ updates_ok (set_SystemUpdatesChecks l c1) = updates_ok c1
              /\ interval_ok (set_SystemUpdatesChecks l c1) = interval_ok c1
              /\ heartbeat_ok (set_SystemUpdatesChecks l c1) = heartbeat_ok c1
              /\ SystemUpdatesChecks (set_SystemUpdatesChecks l c1) = l)
    by (intros l; repeat split).
  match goal with
  | |- context [set_SystemUpdatesChecks ?l c1] =>
      destruct (Hfields l) as (-> & -> & -> & -> & -> & -> & -> & -> & -> & ->)
  end.
  repeat match goal with Hx : _ = true |- _ => rewrite Hx; clear Hx end.
  match goal with Hx : (fetch <? check) = true |- _ => apply Z.ltb_lt in Hx end.
  destruct (Z.ltb_spec check 300); simpl.
  - split; [|reflexivity]. rewrite !andb_true_r. apply Z.ltb_lt. lia.
  - split.
    + rewrite !andb_true_r. apply Z.ltb_lt. lia.
    + apply Z.ltb_ge. lia.
Qed.

End ValidatorFixpoint.

Section ValidatorSettled.

Context `{Externals}.
Variable GOOS : string.

Import Config.

Lemma validate_success_cases (cfg cfg' : t) (log : list log_entry) :
  (forall m, fst (mysql_Validate m) = m) ->
  validate GOOS cfg = (cfg', log, None) ->
  (retries_out_of_range cfg = true
   /\ cfg' = set_OnHTTP5xxRetries 5 (corrected_blocks cfg))
  \/ (retries_out_of_range cfg = false /\ retry_interval_out_of_range cfg = true
      /\ cfg' = set_OnHTTP5xxRetryInterval 3 (corrected_blocks cfg))
  \/ (retries_out_of_range cfg = false /\ retry_interval_out_of_range cfg = false
      /\ cfg' = corrected_blocks cfg).
Proof.
  intros Hm Hv. pose proof (validate_success_rules GOOS _ _ _ Hv) as Hok.
  rewrite (validate_passes GOOS cfg Hok) in Hv.
  pose proof (after_failing_rules_corrected GOOS cfg Hm Hok) as Hafter.
  destruct (after_failing_rules cfg) as [cb w]. simpl in Hafter. subst cb.
  assert (Hr : retries_out_of_range (corrected_blocks cfg) = retries_out_of_range cfg
               /\ retry_interval_out_of_range (corrected_blocks cfg)
                  = retry_interval_out_of_range cfg).
  { unfold corrected_blocks.
    destruct (with_proxy_scheme_cases cfg) as [-> | ->]; split; reflexivity. }
  destruct Hr as [Hr Hi].
  unfold and_then, check_on_http_5xx_retries in Hv. cbv beta iota in Hv.
  fold (retries_out_of_range (corrected_blocks cfg)) in Hv. rewrite Hr in Hv.
  destruct (retries_out_of_range cfg).
  - left. injection Hv as <- _. split; reflexivity.
  - right. unfold check_on_http_5xx_retry_interval in Hv. cbv beta iota in Hv.
    fold (retry_interval_out_of_range (corrected_blocks cfg)) in Hv. rewrite Hi in Hv.
    destruct (retry_interval_out_of_range cfg).
    + left. injection Hv as <- _. repeat split.
    + right. injection Hv as <- _. repeat split.
Qed.

Lemma settled_corrected_blocks (cfg : t) :
  (forall m, fst (mysql_Validate m) = m) ->
  earlier_rules_ok GOOS cfg = true ->
  retries_out_of_range cfg = false ->
  settled GOOS (corrected_blocks cfg).
Proof.
  intros Hm Hok Hr.
  destruct (corrected_blocks_ok GOOS cfg Hm Hok) as (H1 & H2 & H3).
  repeat split; try assumption.
  rewrite <- Hr. unfold corrected_blocks.
  destruct (with_proxy_scheme_cases cfg) as [-> | ->]; reflexivity.
Qed.

Lemma settled_set_OnHTTP5xxRetries (cfg : t) :
  (forall m, fst (mysql_Validate m) = m) ->
  earlier_rules_ok GOOS cfg = true ->
  settled GOOS (set_OnHTTP5xxRetries 5 (corrected_blocks cfg)).
Proof.
  intros Hm Hok.
  destruct (corrected_blocks_ok GOOS cfg Hm Hok) as (H1 & H2 & H3).
  split; [|split; [exact H2 | split; [exact H3 | reflexivity]]].
  apply with_proxy_scheme_fixed.
  change (HubProxy (set_OnHTTP5xxRetries 5 (corrected_blocks cfg)))
    with (HubProxy (with_proxy_scheme cfg)).
  apply with_proxy_scheme_has_scheme.
Qed.

Lemma settled_set_OnHTTP5xxRetryInterval (v : float) (cfg : t) :
  settled GOOS cfg -> settled GOOS (set_OnHTTP5xxRetryInterval v cfg).
Proof.
  intros (H1 & H2 & H3 & H4).
  split; [|split; [exact H2 | split; [exact H3 | exact H4]]].
  apply with_proxy_scheme_fixed.
  change (HubProxy (set_OnHTTP5xxRetryInterval v cfg)) with (HubProxy cfg).
  unfold with_proxy_scheme in H1.
  destruct (HubProxy cfg =? "")%string; [reflexivity|].
  destruct (strings_HasPrefix (HubProxy cfg) "http") eqn:Hp; [reflexivity|].
  exfalso. apply (f_equal HubProxy) in H1.
  change (HubProxy (set_HubProxy ("http://" ++ HubProxy cfg) cfg))
    with ("http://" ++ HubProxy cfg) in H1.
  rewrite <- H1 in Hp. discriminate Hp.
Qed.

(** [validate] on a settled configuration: it corrects the retry interval
    when that is out of range, and nothing else. *)
Lemma validate_settled (cfg : t) :
  (forall m, fst (mysql_Validate m) = m) ->
  settled GOOS cfg ->
  validate GOOS cfg
  = if retry_interval_out_of_range cfg
    then (set_OnHTTP5xxRetryInterval 3 cfg,
          [log_Warn "on_http_5xx_retry_interval value out of range (1-3). was reset to 3"],
          None)
    else (cfg, [], None).
Proof.
  intros Hm (H1 & H2 & H3 & H4).
  rewrite (validate_passes GOOS cfg H2).
  assert (Hsys : system_updates_checks_ok cfg = true).
  { unfold earlier_rules_ok, other_rules_ok in H2.
    repeat (apply andb_prop in H2; destruct H2 as [H2 ?]). assumption. }
  assert (Hafter : after_failing_rules cfg = (cfg, [])).
  { unfold after_failing_rules. rewrite H1.
    unfold UpdatesMonitoringConfig.Validate.
    unfold system_updates_checks_ok in Hsys. apply Z.ltb_lt in Hsys.
    destruct (Z.geb_spec
                (UpdatesMonitoringConfig.FetchTimeout (SystemUpdatesChecks cfg))
                (UpdatesMonitoringConfig.CheckInterval (SystemUpdatesChecks cfg)));
      [lia|].
    rewrite H3. simpl.
    rewrite set_SystemUpdatesChecks_same, Hm.
    rewrite set_MysqlMonitoring_same. reflexivity. }
  rewrite Hafter. unfold and_then, check_on_http_5xx_retries. cbv beta iota.
  fold (retries_out_of_range cfg). rewrite H4.
  unfold check_on_http_5xx_retry_interval. cbv beta iota.
  fold (retry_interval_out_of_range cfg).
  destruct (retry_interval_out_of_range cfg); reflexivity.
Qed.

Lemma settled_after_validate (cfg cfg' : t) (log : list log_entry) :
  (forall m, fst (mysql_Validate m) = m) ->
  validate GOOS cfg = (cfg', log, None) ->
  settled GOOS cfg'.
Proof.
  intros Hm Hv. pose proof (validate_success_rules GOOS _ _ _ Hv) as Hok.
  destruct (validate_success_cases _ _ _ Hm Hv)
    as [(Hr & ->) | [(Hr & Hi & ->) | (Hr & Hi & ->)]].
  - apply settled_set_OnHTTP5xxRetries; assumption.
  - apply settled_set_OnHTTP5xxRetryInterval, settled_corrected_blocks; assumption.
  - apply settled_corrected_blocks; assumption.
Qed.

End ValidatorSettled.

Section ValidatorTwice.

Context `{Externals}.
Variable GOOS : string.

Import Config.

(** X9.  Provided the MySQL validator leaves its block alone, a
    configuration that [validate] returns without error passes every rule
    that can fail, and its corrected fields are in range: the proxy URL is
    empty or starts with [http], the request timeout is in 1..600, the
    fetch timeout of the system updates is below their check interval,
    which is 300 at least, the check interval of the self-updates is 600 at
    least, and the retry count is in 0..5. *)
Theorem validate_sound (cfg cfg' : t) (log : list log_entry) :
  (forall m, fst (mysql_Validate m) = m) ->
  validate GOOS cfg = (cfg', log, None) ->
  earlier_rules_ok GOOS cfg' = true
  /\ (HubProxy cfg' = "" \/ strings_HasPrefix (HubProxy cfg') "http" = true)
  /\ 1 <= HubRequestTimeout cfg' <= 600
  /\ UpdatesMonitoringConfig.FetchTimeout (SystemUpdatesChecks cfg')
     < UpdatesMonitoringConfig.CheckInterval (SystemUpdatesChecks cfg')
  /\ 300 <= UpdatesMonitoringConfig.CheckInterval (SystemUpdatesChecks cfg')
  /\ 600 <= UpdatesConfig.CheckInterval (Updates cfg')
  /\ 0 <= OnHTTP5xxRetries cfg' <= 5.
Proof.
  intros Hm Hv.
  destruct (settled_after_validate GOOS _ _ _ Hm Hv) as (H1 & H2 & H3 & H4).
  split; [exact H2|].
  pose proof H2 as Hok. unfold earlier_rules_ok, other_rules_ok in Hok.
  repeat (apply andb_prop in Hok; destruct Hok as [Hok ?]).
  repeat split.
  - unfold with_proxy_scheme in H1.
    destruct (String.eqb_spec (HubProxy cfg') ""); [now left|].
    destruct (strings_HasPrefix (HubProxy cfg') "http") eqn:Hp; [now right|].
    exfalso. apply (f_equal HubProxy) in H1.
    change (HubProxy (set_HubProxy ("http://" ++ HubProxy cfg') cfg'))
      with ("http://" ++ HubProxy cfg') in H1.
    rewrite <- H1 in Hp. discriminate Hp.
  - match goal with
    | Ht : hub_request_timeout_ok _ = true |- _ =>
        unfold hub_request_timeout_ok, minHubRequestTimeout in Ht;
        apply andb_prop in Ht; destruct Ht as [Ht _]; apply Z.leb_le in Ht; exact Ht
    end.
  - match goal with
    | Ht : hub_request_timeout_ok _ = true |- _ =>
        unfold hub_request_timeout_ok, maxHubRequestTimeout in Ht;
        apply andb_prop in Ht; destruct Ht as [_ Ht]; apply Z.leb_le in Ht; exact Ht
    end.
  - match goal with
    | Hs : system_updates_checks_ok _ = true |- _ =>
        unfold system_updates_checks_ok in Hs; apply Z.ltb_lt in Hs; exact Hs
    end.
  - unfold minSystemUpdatesCheckInterval in H3. apply Z.ltb_ge in H3. exact H3.
  - match goal with
    | Hu : updates_ok _ = true |- _ =>
        unfold updates_ok, UpdatesConfig.Validate, minSelfUpdatesCheckInterval in Hu;
        destruct (Z.ltb_spec (UpdatesConfig.CheckInterval (Updates cfg')) 600);
        [discriminate Hu | assumption]
    end.
  - unfold retries_out_of_range in H4. apply orb_false_iff in H4.
    destruct H4 as [H4 _]. apply Z.ltb_ge in H4. exact H4.
  - unfold retries_out_of_range in H4. apply orb_false_iff in H4.
    destruct H4 as [_ H4]. rewrite Z.gtb_ltb in H4. apply Z.ltb_ge in H4. exact H4.
Qed.

(** X10.  Provided the MySQL validator leaves its block alone, [validate]
    settles in two calls: on the configuration a successful call returns, a
    second call succeeds too, and a third one changes nothing and logs
    nothing.  The second call changes nothing either when the retry
    count given to the first was in range; when it was not, the first call
    has skipped the rule on the retry interval, which the second applies. *)
Theorem validate_settles (cfg c1 : t) (l1 : list log_entry) :
  (forall m, fst (mysql_Validate m) = m) ->
  validate GOOS cfg = (c1, l1, None) ->
  exists c2 l2,
    validate GOOS c1 = (c2, l2, None)
    /\ validate GOOS c2 = (c2, [], None)
    /\ (retries_out_of_range cfg = false -> c2 = c1 /\ l2 = [])
    /\ (retry_interval_out_of_range c1 = true ->
        c2 = set_OnHTTP5xxRetryInterval 3 c1).
Proof.
  intros Hm Hv.
  pose proof (settled_after_validate GOOS _ _ _ Hm Hv) as Hs.
  pose proof (validate_settled GOOS c1 Hm Hs) as Hv1.
  assert (Hin : retries_out_of_range cfg = false -> retry_interval_out_of_range c1 = false).
  { intros Hr. pose proof (validate_success_rules GOOS _ _ _ Hv) as Hok.
    destruct (validate_success_cases GOOS _ _ _ Hm Hv)
      as [(Hr' & _) | [(_ & Hi & ->) | (_ & Hi & ->)]].
    - congruence.
    - reflexivity.
    - rewrite <- Hi. unfold corrected_blocks.
      destruct (with_proxy_scheme_cases cfg) as [-> | ->]; reflexivity. }
  destruct (retry_interval_out_of_range c1) eqn:Hi.
  - exists (set_OnHTTP5xxRetryInterval 3 c1). eexists. split; [exact Hv1|].
    split; [|split; [intros Hr; specialize (Hin Hr); discriminate | reflexivity]].
    rewrite (validate_settled GOOS _ Hm
               (settled_set_OnHTTP5xxRetryInterval GOOS 3 c1 Hs)).
    reflexivity.
  - exists c1, []. split; [exact Hv1|].
    split; [|split; [split; reflexivity | discriminate]].
    rewrite (validate_settled GOOS c1 Hm Hs), Hi. reflexivity.
Qed.

End ValidatorTwice.

(** X9 on the configuration with nine retries. *)
Lemma validate_sound_witness :
  (forall m, fst (@mysql_Validate Sample.externals m) = m)
  /\ snd (Config.validate "linux" nine_retries) = None
  /\ earlier_rules_ok "linux" (fst (fst (Config.validate "linux" nine_retries))) = true
  /\ Config.OnHTTP5xxRetries (fst (fst (Config.validate "linux" nine_retries))) = 5.
Proof.
  split; [intros m; reflexivity|].
  split; [vm_compute; reflexivity|].
  destruct (validate_sound "linux" nine_retries
              (fst (fst (Config.validate "linux" nine_retries)))
              (snd (fst (Config.validate "linux" nine_retries)))
              (fun m => eq_refl) ltac:(vm_compute; reflexivity))
    as (Hok & _ & _ & _ & _ & _ & Hr).
  split; [exact Hok | vm_compute; reflexivity].
Defined.

(** X10 on the configuration with nine retries and a retry interval of ten
    seconds: the first call leaves the interval at 10, the second sets it
    to 3, and the third changes nothing. *)
Lemma validate_settles_witness :
  (forall m, fst (@mysql_Validate Sample.externals m) = m)
  /\ Config.OnHTTP5xxRetryInterval (fst (fst (Config.validate "linux" nine_retries)))
     = 10%float
  /\ exists c2 l2,
       Config.validate "linux" (fst (fst (Config.validate "linux" nine_retries)))
       = (c2, l2, None)
       /\ Config.validate "linux" c2 = (c2, [], None)
       /\ Config.OnHTTP5xxRetryInterval c2 = 3%float.
Proof.
  split; [intros m; reflexivity|].
  split; [vm_compute; reflexivity|].
  destruct (validate_settles "linux" nine_retries
              (fst (fst (Config.validate "linux" nine_retries)))
              (snd (fst (Config.validate "linux" nine_retries)))
              (fun m => eq_refl) ltac:(vm_compute; reflexivity))
    as (c2 & l2 & H1 & H2 & _ & H4).
  exists c2, l2. split; [exact H1|]. split; [exact H2|].
  rewrite (H4 ltac:(vm_compute; reflexivity)). reflexivity.
Defined.

(** * Further properties of the migration *)

Section MigrationAlgebra.

Context `{Externals}.

Import Config.

(** The system updates checks after a successful [validate]: those given,
    with the check interval raised to its minimum. *)
Lemma validate_success_checks (GOOS : string) (cfg cfg' : t) (log : list log_entry) :
  validate GOOS cfg = (cfg', log, None) ->
  SystemUpdatesChecks cfg' = raised (SystemUpdatesChecks cfg).
Proof.
  intros Hv. pose proof (validate_success_rules _ _ _ _ Hv) as Hok.
  rewrite (validate_passes GOOS cfg Hok) in Hv.
  assert (Hsys : system_updates_checks_ok cfg = true).
  { unfold earlier_rules_ok, other_rules_ok in Hok.
    repeat (apply andb_prop in Hok; destruct Hok as [Hok ?]). assumption. }
  unfold after_failing_rules in Hv.
  assert (Hs : SystemUpdatesChecks (with_proxy_scheme cfg) = SystemUpdatesChecks cfg).
  { destruct (with_proxy_scheme_cases cfg) as [-> | ->]; reflexivity. }
  set (c1 := with_proxy_scheme cfg) in *.
  unfold system_updates_checks_ok in Hsys. rewrite <- Hs in Hsys.
  destruct (UpdatesMonitoringConfig_Validate_passes _ Hsys) as [w Hw].
  rewrite Hw in Hv. cbv beta iota delta [fst snd] in Hv.
  unfold and_then, check_on_http_5xx_retries in Hv. cbv beta iota in Hv.
  rewrite <- Hs.
  match type of Hv with
  | context [if ?b then _ else _] => destruct b
  end.
  - injection Hv as <- _. reflexivity.
  - unfold check_on_http_5xx_retry_interval in Hv. cbv beta iota in Hv.
    match type of Hv with
    | context [if ?b then _ else _] => destruct b
    end; injection Hv as <- _; reflexivity.
Qed.

(** X11.  [migrate] is idempotent, and within the system updates checks it
    never writes the fetch timeout, never switches the checks on, and
    leaves a check interval that fits a [uint32] when the one it found
    did. *)
Theorem migrate_idempotent (GOOS : string) (cfgDeprecated : ConfigDeprecated.t)
    (metadata : toml.MetaData) (cfg : t) :
  let cfg' := migrate GOOS cfgDeprecated metadata cfg in
  migrate GOOS cfgDeprecated metadata cfg' = cfg'
  /\ UpdatesMonitoringConfig.FetchTimeout (SystemUpdatesChecks cfg')
     = UpdatesMonitoringConfig.FetchTimeout (SystemUpdatesChecks cfg)
  /\ (UpdatesMonitoringConfig.Enabled (SystemUpdatesChecks cfg') = true ->
      UpdatesMonitoringConfig.Enabled (SystemUpdatesChecks cfg) = true)
  /\ (0 <= UpdatesMonitoringConfig.CheckInterval (SystemUpdatesChecks cfg) < 2 ^ 32 ->
      0 <= UpdatesMonitoringConfig.CheckInterval (SystemUpdatesChecks cfg') < 2 ^ 32).
Proof.
  unfold migrate.
  destruct ((GOOS =? "windows")%string
            && toml.IsDefined metadata ["windows_updates_watcher_interval"]);
    [|cbv zeta; repeat split; auto; match goal with Hr : _ /\ _ |- _ => apply Hr end].
  destruct (ConfigDeprecated.WindowsUpdatesWatcherInterval cfgDeprecated <=? 0);
    destruct cfg; cbv zeta; simpl; repeat split; try reflexivity; try discriminate;
    try (intros; assumption); try (intros; lia); intros;
    unfold uint32_of_int; apply Z.mod_pos_bound; reflexivity.
Qed.

(** X12.  A legacy interval and the validator.  On a Windows build, with
    the key [windows_updates_watcher_interval] present and its value [v]
    positive and below [2^32]: when [v] does not exceed the fetch timeout
    of the system updates checks, [validate] rejects the migrated
    configuration; when it does and the migrated configuration is accepted,
    the check interval [validate] leaves is the larger of [v] and 300. *)
Theorem migrate_then_validate (cfgDeprecated : ConfigDeprecated.t)
    (metadata : toml.MetaData) (cfg : t) :
  let v := ConfigDeprecated.WindowsUpdatesWatcherInterval cfgDeprecated in
  let migrated := migrate "windows" cfgDeprecated metadata cfg in
  toml.IsDefined metadata ["windows_updates_watcher_interval"] = true ->
  0 < v < 2 ^ 32 ->
  (v <= UpdatesMonitoringConfig.FetchTimeout (SystemUpdatesChecks cfg) ->
   is_err (snd (validate "windows" migrated)) = true)
  /\ (forall cfg' log,
         validate "windows" migrated = (cfg', log, None) ->
         UpdatesMonitoringConfig.FetchTimeout (SystemUpdatesChecks cfg) < v
         /\ UpdatesMonitoringConfig.CheckInterval (SystemUpdatesChecks cfg') = Z.max v 300).
Proof.
  intros v migrated Hkey Hv.
  assert (Hm : migrated
               = set_SystemUpdatesChecks
                   (UpdatesMonitoringConfig.set_CheckInterval v (SystemUpdatesChecks cfg))
                   cfg).
  { unfold migrated, migrate. rewrite Hkey. simpl. fold v.
    destruct (Z.leb_spec v 0); [lia|].
    unfold uint32_of_int. rewrite Z.mod_small by lia. reflexivity. }
  assert (Hrule : system_updates_checks_ok migrated
                  = (UpdatesMonitoringConfig.FetchTimeout (SystemUpdatesChecks cfg) <? v)).
  { rewrite Hm. destruct cfg; reflexivity. }
  assert (Hbad : v <= UpdatesMonitoringConfig.FetchTimeout (SystemUpdatesChecks cfg) ->
                 earlier_rules_ok "windows" migrated = false).
  { intros Hle. unfold earlier_rules_ok, other_rules_ok. rewrite Hrule.
    destruct (Z.ltb_spec (UpdatesMonitoringConfig.FetchTimeout (SystemUpdatesChecks cfg)) v);
      [lia|].
    rewrite !andb_false_r. reflexivity. }
  split.
  - intros Hle. apply validate_fails, Hbad, Hle.
  - intros cfg' log Hval.
    assert (Hlt : UpdatesMonitoringConfig.FetchTimeout (SystemUpdatesChecks cfg) < v).
    { destruct (Z.lt_ge_cases
                  (UpdatesMonitoringConfig.FetchTimeout (SystemUpdatesChecks cfg)) v)
        as [Hlt | Hge]; [exact Hlt|].
      pose proof (validate_fails "windows" migrated (Hbad Hge)) as Herr.
      rewrite Hval in Herr. discriminate Herr. }
    split; [exact Hlt|].
    rewrite (validate_success_checks _ _ _ _ Hval), Hm.
    unfold raised, minSystemUpdatesCheckInterval.
    change (SystemUpdatesChecks (set_SystemUpdatesChecks ?l cfg)) with l.
    cbv beta iota delta [UpdatesMonitoringConfig.set_CheckInterval
                         UpdatesMonitoringConfig.CheckInterval].
    destruct (Z.ltb_spec v 300); simpl; lia.
Qed.

End MigrationAlgebra.

(** X12 on the Windows defaults, whose fetch timeout is 30 seconds, with a
    legacy interval of 20 seconds. *)
Lemma migrate_then_validate_witness :
  toml.IsDefined deprecated_key_present ["windows_updates_watcher_interval"] = true
  /\ 0 < 20 < 2 ^ 32
  /\ is_err (snd (Config.validate "windows"
                    (Config.migrate "windows" (ConfigDeprecated.mk 20)
                       deprecated_key_present windows_defaults))) = true.
Proof.
  split; [vm_compute; reflexivity|].
  split; [lia|].
  apply (proj1 (migrate_then_validate (ConfigDeprecated.mk 20) deprecated_key_present
                  windows_defaults ltac:(vm_compute; reflexivity) ltac:(simpl; lia))).
  simpl. lia.
Defined.

(** * Further properties of the bandwidth parser *)

Section BandwidthResults.

Context `{Externals}.

Import Config.

(** X13.  On every input, also those whose number reads as a NaN or an
    infinity: [GetParsedNetInterfaceMaxSpeed] returns the value 0 with every
    error, and it returns no error on a string other than the empty one
    only when the string has two bytes or more, ends in [K], [M] or [G],
    and [strconv.ParseFloat] reads the bytes before the unit without error
    as a value for which the test [value <= 0.0] fails. *)
Theorem GetParsedNetInterfaceMaxSpeed_results (cfg : t) :
  let v := NetInterfaceMaxSpeed cfg in
  (is_err (snd (GetParsedNetInterfaceMaxSpeed cfg)) = true ->
   fst (GetParsedNetInterfaceMaxSpeed cfg) = Some 0)
  /\ (snd (GetParsedNetInterfaceMaxSpeed cfg) = None -> v <> "" ->
      (2 <= String.length v)%nat
      /\ (unit_part v = "K" \/ unit_part v = "M" \/ unit_part v = "G")%char
      /\ snd (strconv.ParseFloat (number_part v)) = None
      /\ (fst (strconv.ParseFloat (number_part v)) <=? 0)%float = false).
Proof.
  intros v. unfold GetParsedNetInterfaceMaxSpeed. fold v.
  unfold unit_part, number_part.
  destruct (String.eqb_spec v "") as [Hv | Hv].
  - split; [reflexivity | intros _ Hne; contradiction].
  - destruct (Nat.ltb_spec (String.length v) 2) as [Hlen | Hlen].
    + split; [reflexivity | discriminate].
    + destruct (strconv.ParseFloat (String.substring 0 (String.length v - 1) v))
        as [value [err|]]; cbv beta iota delta [is_err fst snd].
      * split; [reflexivity | discriminate].
      * destruct (value <=? 0)%float; [split; [reflexivity | discriminate]|].
        destruct (Ascii.eqb_spec (byte_at v (String.length v - 1)) "K") as [-> | _];
          [split; [discriminate | intros _ _; auto 6]|].
        destruct (Ascii.eqb_spec (byte_at v (String.length v - 1)) "M") as [-> | _];
          [split; [discriminate | intros _ _; auto 6]|].
        destruct (Ascii.eqb_spec (byte_at v (String.length v - 1)) "G") as [-> | _];
          [split; [discriminate | intros _ _; auto 6]|].
        split; [reflexivity | discriminate].
Qed.

End BandwidthResults.

(** * Further properties of the configuration file *)

Section FileContents.

(** The bytes of [s] from offset [n] on. *)
Lemma substring_all (s : string) : String.substring 0 (String.length s) s = s.
Proof. induction s as [|c s IH]; simpl; [reflexivity | now rewrite IH]. Qed.











End FileContents.

Section Directories.





End Directories.

Section BootstrapResults.

Context `{Externals}.



End BootstrapResults.


Section SaveResults.

Context `{Externals}.

(** X15.  Where the directory of the path exists, [SaveConfigFile] on a
    minimal configuration and [GenerateDefaultConfigFile] leave the same
    file system, and either both return an error or neither does. *)
Theorem SaveConfigFile_as_generated (mvc : MinValuableConfig.t) (configFilePath : string)
    (fs : gmap string os.node) :
  os.lookup fs (filepath.Dir configFilePath) <> None ->
  fst (fst (SaveConfigFile MinValuableConfig.t toml_Encode mvc configFilePath fs))
  = fst (fst (GenerateDefaultConfigFile mvc configFilePath fs))
  /\ is_err (snd (SaveConfigFile MinValuableConfig.t toml_Encode mvc configFilePath fs))
     = is_err (snd (GenerateDefaultConfigFile mvc configFilePath fs)).
Proof.
  intros Hdir. unfold SaveConfigFile, GenerateDefaultConfigFile.
  rewrite !IsExist_Stat. unfold os.Stat.
  destruct (os.lookup fs (filepath.Dir configFilePath)) as [n|] eqn:Hn;
    [clear Hdir | contradiction].
  cbv beta iota delta [snd os.IsNotExist].
  destruct (os.OpenFile_WRONLY_CREATE fs configFilePath) as [fs1 [f | err]];
    [|split; reflexivity].
  destruct (os.Write fs1 f configAutogeneratedHeadline) as [[fs2 f2] [e|]];
    [split; reflexivity|].
  unfold Encode. destruct (toml_Encode mvc) as [bytes encerr].
  destruct (os.Write fs2 f2 bytes) as [[fs3 f3] [e|]]; [split; reflexivity|].
  destruct encerr; split; reflexivity.
Qed.

End SaveResults.

Section SaveFrame.

Variable A : Type.
Variable encode : A -> string * option error.

(** X16.  [SaveConfigFile] writes at its path only: every other path keeps
    what it had, so no directory is ever created; and where there is
    neither a node at the path nor a directory to create the file in, the
    call fails and leaves the file system as it is. *)
Theorem SaveConfigFile_frame (cfg : A) (configFilePath : string)
    (fs : gmap string os.node) :
  let '(fs', log, err) := SaveConfigFile A encode cfg configFilePath fs in
  (forall p, p <> configFilePath -> fs' !! p = fs !! p)
  /\ (os.lookup fs configFilePath = None ->
      os.lookup fs (filepath.Dir configFilePath) <> Some os.Dir ->
      fs' = fs
      /\ err = Some (fmt_Errorf "failed to open the config file: '%s'"
                       [arg_string configFilePath])).
Proof.
  unfold SaveConfigFile, os.OpenFile_WRONLY_CREATE.
  assert (Hwrite : forall (fs1 : gmap string os.node) off b,
             let '(fs2, f2, _) := os.Write fs1 (os.mk_file configFilePath off) b in
             os.name f2 = configFilePath
             /\ forall p, p <> configFilePath -> fs2 !! p = fs1 !! p).
  { intros fs1 off b. unfold os.Write. cbv beta iota delta [os.name os.offset].
    destruct (fs1 !! configFilePath) as [[old|]|]; split; try reflexivity;
      intros p Hp; try reflexivity.
    now rewrite lookup_insert_ne by congruence. }
  assert (Hrun : forall fs1 : gmap string os.node,
             (forall p, p <> configFilePath -> fs1 !! p = fs !! p) ->
             let '(fs', _, _) :=
               match os.Write fs1 (os.mk_file configFilePath 0)
                       configAutogeneratedHeadline with
               | (fs, f, Some _) =>
                   (fs, @nil log_entry,
                    Some (fmt_Errorf "failed to write headline to config file" []))
               | (fs, f, None) =>
                   let (bytes, err) := encode cfg in
                   match os.Write fs f bytes with
                   | (fs, f, Some _) =>
                       (fs, [], Some (fmt_Errorf "failed to encode config to file" []))
                   | (fs, f, None) =>
                       match err with
                       | Some _ =>
                           (fs, [], Some (fmt_Errorf "failed to encode config to file" []))
                       | None => (fs, [], None)
                       end
                   end
               end in
             forall p, p <> configFilePath -> fs' !! p = fs !! p).
  { intros fs1 Hfs1.
    pose proof (Hwrite fs1 0%nat configAutogeneratedHeadline) as H1.
    destruct (os.Write fs1 _ configAutogeneratedHeadline) as [[fs2 f2] [e|]];
      destruct H1 as [Hname H1].
    - intros p Hp. rewrite H1 by exact Hp. now apply Hfs1.
    - destruct (encode cfg) as [bytes encerr].
      destruct f2 as [name2 off2]. simpl in Hname. subst name2.
      pose proof (Hwrite fs2 off2 bytes) as H2.
      destruct (os.Write fs2 _ bytes) as [[fs3 f3] [e|]]; destruct H2 as [_ H2];
        [|destruct encerr]; intros p Hp; rewrite H2, H1 by exact Hp; now apply Hfs1. }
  destruct (os.lookup fs configFilePath) as [[data|]|] eqn:Hpath.
  - specialize (Hrun fs (fun _ _ => eq_refl)). cbv beta iota delta [os.Close].
    destruct (os.Write fs _ configAutogeneratedHeadline) as [[fs2 f2] [e|]].
    + split; [exact Hrun | discriminate].
    + destruct (encode cfg) as [bytes encerr].
      destruct (os.Write fs2 f2 bytes) as [[fs3 f3] [e|]]; [|destruct encerr];
        (split; [exact Hrun | discriminate]).
  - split; [reflexivity | discriminate].
  - destruct (os.lookup fs (filepath.Dir configFilePath)) as [[d|]|] eqn:Hdir.
    + split; [reflexivity | intros _ _; split; reflexivity].
    + assert (Hnew : forall p, p <> configFilePath ->
                       (<[configFilePath := os.File ""]> fs) !! p = fs !! p)
        by (intros p Hp; now rewrite lookup_insert_ne by congruence).
      specialize (Hrun _ Hnew). cbv beta iota delta [os.Close].
      destruct (os.Write _ _ configAutogeneratedHeadline) as [[fs2 f2] [e|]].
      * split; [exact Hrun | intros _ Hne; now contradiction Hne].
      * destruct (encode cfg) as [bytes encerr].
        destruct (os.Write fs2 f2 bytes) as [[fs3 f3] [e|]]; [|destruct encerr];
          (split; [exact Hrun | intros _ Hne; now contradiction Hne]).
    + split; [reflexivity | intros _ _; split; reflexivity].
Qed.

End SaveFrame.

(** X15 on the file system that holds the configuration an operator
    wrote: both calls write over the beginning of the file. *)
Lemma SaveConfigFile_as_generated_witness :
  let mvc := NewMinimumConfig "linux" ∅ in
  os.lookup fs_with_conf (filepath.Dir conf_path) <> None
  /\ fst (fst (SaveConfigFile MinValuableConfig.t (@toml_Encode Sample.externals)
                 mvc conf_path fs_with_conf))
     = fst (fst (@GenerateDefaultConfigFile Sample.externals mvc conf_path fs_with_conf))
  /\ snd (@GenerateDefaultConfigFile Sample.externals mvc conf_path fs_with_conf) = None.
Proof.
  intros mvc.
  assert (Hdir : os.lookup fs_with_conf (filepath.Dir conf_path) <> None)
    by (vm_compute; discriminate).
  split; [exact Hdir|].
  split; [|vm_compute; reflexivity].
  exact (proj1 (@SaveConfigFile_as_generated Sample.externals mvc conf_path fs_with_conf
                  Hdir)).
Defined.

(** * Further properties of the loader *)

Section Loader.

Context `{Externals}.

Variable decodeConfig :
  string -> Config.t -> Config.t * toml.MetaData * option error.
Variable decodeDeprecated :
  string -> ConfigDeprecated.t -> ConfigDeprecated.t * toml.MetaData * option error.
Variable Error : error -> string.
Variable defaultLogPath : string.

Lemma TryUpdateConfigFromFile_missing (GOOS : string) (cfg : Config.t)
    (configFilePath : string) (fs : gmap string os.node) :
  os.lookup fs configFilePath = None ->
  TryUpdateConfigFromFile decodeConfig decodeDeprecated GOOS cfg configFilePath fs
  = (cfg, Some (os_PathError "stat" configFilePath (syscall_Errno ENOENT))).
Proof.
  intros Hpath. unfold TryUpdateConfigFromFile, os.Stat.
  rewrite Hpath. reflexivity.
Qed.

Lemma TryUpdateConfigFromFile_file (GOOS : string) (cfg : Config.t)
    (configFilePath data : string) (fs : gmap string os.node) :
  os.lookup fs configFilePath = Some (os.File data) ->
  TryUpdateConfigFromFile decodeConfig decodeDeprecated GOOS cfg configFilePath fs
  = match decodeConfig data cfg with
    | (cfg1, _, Some err) => (cfg1, Some err)
    | (cfg1, _, None) =>
        match decodeDeprecated data (ConfigDeprecated.mk 0) with
        | (_, _, Some err) => (cfg1, Some err)
        | (deprecatedCfg, meta, None) =>
            (Config.migrate GOOS deprecatedCfg meta cfg1, None)
        end
    end.
Proof.
  intros Hpath.
  unfold TryUpdateConfigFromFile, os.Stat, os.Open, DecodeReader, os.ReadAll,
    os.Seek_start.
  rewrite Hpath. cbv beta iota delta [snd os.name os.offset]. rewrite Hpath.
  rewrite Nat.sub_0_r, substring_all.
  destruct (decodeConfig data cfg) as [[cfg1 meta1] [err1|]]; [reflexivity|].
  cbv beta iota delta [os.name os.offset]. rewrite Hpath.
  rewrite Nat.sub_0_r, substring_all.
  destruct (decodeDeprecated data (ConfigDeprecated.mk 0))
    as [[d meta] [err2|]]; reflexivity.
Qed.

Lemma TryUpdateConfigFromFile_directory (GOOS : string) (cfg : Config.t)
    (configFilePath : string) (fs : gmap string os.node) :
  os.lookup fs configFilePath = Some os.Dir ->
  TryUpdateConfigFromFile decodeConfig decodeDeprecated GOOS cfg configFilePath fs
  = (cfg, Some (os_PathError "read" configFilePath (syscall_Errno EISDIR))).
Proof.
  intros Hpath.
  unfold TryUpdateConfigFromFile, os.Stat, os.Open, DecodeReader, os.ReadAll.
  rewrite Hpath. cbv beta iota delta [snd os.name os.offset]. rewrite Hpath.
  reflexivity.
Qed.


(** The configuration of a first run passes [validate] as it is. *)
Lemma validate_first_run (GOOS : string) (mvc : MinValuableConfig.t) :
  mysql_Validate mysql_Config_zero = (mysql_Config_zero, None) ->
  Config.validate GOOS (Config.set_MinValuableConfig mvc (NewConfig defaultLogPath GOOS))
  = (Config.set_MinValuableConfig mvc (NewConfig defaultLogPath GOOS), [], None).
Proof.
  intros Hm.
  assert (Hmysql : Config.MysqlMonitoring
                     (Config.set_MinValuableConfig mvc (NewConfig defaultLogPath GOOS))
                   = mysql_Config_zero).
  { unfold NewConfig.
    destruct (GOOS =? "windows")%string; [reflexivity|].
    destruct (GOOS =? "darwin")%string; reflexivity. }
  apply validate_unchanged.
  - unfold NewConfig.
    destruct (GOOS =? "windows")%string; [reflexivity|].
    destruct (GOOS =? "darwin")%string; reflexivity.
  - unfold earlier_rules_ok, other_rules_ok, mysql_monitoring_ok.
    rewrite Hmysql, Hm.
    unfold jobmon_ok, JobMonitoringConfig.Validate, filepath.IsAbs, is_windows, NewConfig.
    destruct (GOOS =? "windows")%string; [reflexivity|].
    destruct (GOOS =? "darwin")%string; reflexivity.
  - rewrite Hmysql. exact Hm.
  - unfold NewConfig.
    destruct (GOOS =? "windows")%string; [reflexivity|].
    destruct (GOOS =? "darwin")%string; reflexivity.
  - unfold NewConfig.
    destruct (GOOS =? "windows")%string; [reflexivity|].
    destruct (GOOS =? "darwin")%string; reflexivity.
  - unfold NewConfig.
    destruct (GOOS =? "windows")%string; [reflexivity|].
    destruct (GOOS =? "darwin")%string; reflexivity.
Qed.

(** X18.  [HandleAllConfigSetup] returns a configuration or an error, never
    both and never neither; and it leaves the file system as it found it
    unless [TryUpdateConfigFromFile] has reported that the file does not
    exist. *)
Theorem HandleAllConfigSetup_result (GOOS : string) (env : gmap string string)
    (configFilePath : string) (fs : gmap string os.node) :
  let '(cfg, fs', log, err) :=
    HandleAllConfigSetup decodeConfig decodeDeprecated Error defaultLogPath
      GOOS env configFilePath fs in
  (cfg = None <-> is_err err = true)
  /\ (fs' = fs
      \/ os.IsNotExist
           (snd (TryUpdateConfigFromFile decodeConfig decodeDeprecated GOOS
                   (NewConfig defaultLogPath GOOS) configFilePath fs)) = true).
Proof.
  unfold HandleAllConfigSetup.
  destruct (TryUpdateConfigFromFile decodeConfig decodeDeprecated GOOS
              (NewConfig defaultLogPath GOOS) configFilePath fs) as [cfg err].
  cbv beta iota delta [snd].
  destruct (os.IsNotExist err) eqn:Hne.
  - destruct (GenerateDefaultConfigFile _ configFilePath fs) as [[fs1 log] [e|]].
    + split; [split; reflexivity | now right].
    + destruct (Config.validate GOOS _) as [[cfg' vlog] [e|]];
        (split; [split; intros; (reflexivity || discriminate) | now right]).
  - destruct err as [e|].
    + destruct (strings_Contains _ _);
        (split; [split; reflexivity | now left]).
    + destruct (Config.validate GOOS cfg) as [[cfg' vlog] [e|]];
        (split; [split; intros; (reflexivity || discriminate) | now left]).
Qed.

(** X19.  The first run.  Where there is nothing at the path and
    [GenerateDefaultConfigFile] succeeds, [HandleAllConfigSetup] returns the
    defaults of [NewConfig] with the minimal configuration of the
    environment in place of its first fields, unchanged by [validate] and
    with no warning, on the file system the generator leaves; the decoders
    are not consulted.  The MySQL validator is assumed to accept the zero
    block as it is. *)
Theorem HandleAllConfigSetup_first_run (GOOS : string) (env : gmap string string)
    (configFilePath : string) (fs fs' : gmap string os.node) (log : list log_entry) :
  mysql_Validate mysql_Config_zero = (mysql_Config_zero, None) ->
  os.lookup fs configFilePath = None ->
  GenerateDefaultConfigFile (NewMinimumConfig GOOS env) configFilePath fs
  = (fs', log, None) ->
  HandleAllConfigSetup decodeConfig decodeDeprecated Error defaultLogPath
    GOOS env configFilePath fs
  = (Some (Config.set_MinValuableConfig (NewMinimumConfig GOOS env)
             (NewConfig defaultLogPath GOOS)),
     fs', log, None).
Proof.
  intros Hm Hpath Hgen. unfold HandleAllConfigSetup.
  rewrite (TryUpdateConfigFromFile_missing _ _ _ _ Hpath).
  cbv beta iota delta [os.IsNotExist os.underlyingError].
  rewrite Hgen, (validate_first_run _ _ Hm), app_nil_r. reflexivity.
Qed.

(** X20.  An existing configuration file is never written.  Where a file or
    a directory is at the path and neither decoder returns an error that
    [os.IsNotExist] recognises, [HandleAllConfigSetup] leaves the file
    system as it is, whatever it returns. *)
Theorem HandleAllConfigSetup_keeps_file (GOOS : string) (env : gmap string string)
    (configFilePath : string) (fs : gmap string os.node) :
  os.lookup fs configFilePath <> None ->
  (forall data cfg, os.IsNotExist (snd (decodeConfig data cfg)) = false) ->
  (forall data d, os.IsNotExist (snd (decodeDeprecated data d)) = false) ->
  snd (fst (fst (HandleAllConfigSetup decodeConfig decodeDeprecated Error defaultLogPath
                   GOOS env configFilePath fs))) = fs.
Proof.
  intros Hpath Hc Hd.
  assert (Hne : os.IsNotExist
                  (snd (TryUpdateConfigFromFile decodeConfig decodeDeprecated GOOS
                          (NewConfig defaultLogPath GOOS) configFilePath fs)) = false).
  { destruct (os.lookup fs configFilePath) as [[data|]|] eqn:Hnode; [| |contradiction].
    - rewrite (TryUpdateConfigFromFile_file _ _ _ _ _ Hnode).
      specialize (Hc data (NewConfig defaultLogPath GOOS)).
      destruct (decodeConfig data _) as [[cfg1 meta1] [e1|]]; [exact Hc|].
      specialize (Hd data (ConfigDeprecated.mk 0)).
      destruct (decodeDeprecated data _) as [[d meta] [e2|]]; [exact Hd | reflexivity].
    - rewrite (TryUpdateConfigFromFile_directory _ _ _ _ Hnode). reflexivity. }
  unfold HandleAllConfigSetup.
  destruct (TryUpdateConfigFromFile decodeConfig decodeDeprecated GOOS
              (NewConfig defaultLogPath GOOS) configFilePath fs) as [cfg err].
  cbv beta iota delta [snd] in Hne. rewrite Hne.
  destruct err as [e|].
  - destruct (strings_Contains _ _); reflexivity.
  - destruct (Config.validate GOOS cfg) as [[cfg' vlog] [e|]]; reflexivity.
Qed.

End Loader.

Section SampleDecoderErrors.

Import SampleDecoders.

Lemma fold_left_invariant {S L : Type} (P : S -> Prop) (step : S -> L -> S) (l : list L) :
  (forall st x, P st -> P (step st x)) -> forall st, P st -> P (fold_left step l st).
Proof.
  intros Hstep. induction l as [|x l IH]; intros st Hst; simpl; [exact Hst|].
  apply IH, Hstep, Hst.
Qed.

Lemma decode_Config_exists (data : string) (cfg : @Config.t Sample.externals) :
  os.IsNotExist (snd (decode_Config data cfg)) = false.
Proof.
  unfold decode_Config.
  apply (fold_left_invariant (fun st => os.IsNotExist (snd st) = false));
    [|reflexivity].
  intros [[c meta] [e|]] line Hst; [exact Hst|].
  destruct (assigned "hub_url" line) as [v|].
  - destruct (unquoted v); reflexivity.
  - destruct (assigned "interval" line) as [v|]; [|reflexivity].
    destruct (decimal v 0); [reflexivity|].
    destruct (strconv.ParseFloat v) as [f [e|]]; reflexivity.
Qed.

Lemma decode_ConfigDeprecated_exists (data : string) (d : ConfigDeprecated.t) :
  os.IsNotExist (snd (decode_ConfigDeprecated data d)) = false.
Proof.
  unfold decode_ConfigDeprecated.
  apply (fold_left_invariant (fun st => os.IsNotExist (snd st) = false));
    [|reflexivity].
  intros [[c meta] [e|]] line Hst; [exact Hst|].
  destruct (assigned "windows_updates_watcher_interval" line) as [v|]; [|reflexivity].
  destruct (decimal v 0); reflexivity.
Qed.

End SampleDecoderErrors.

(** X19 on a file system that holds [/etc] only, with no variable set. *)
Lemma HandleAllConfigSetup_first_run_witness :
  let generated :=
    @GenerateDefaultConfigFile Sample.externals (NewMinimumConfig "linux" ∅)
      conf_path {[ "/etc" := os.Dir ]} in
  @mysql_Validate Sample.externals mysql_Config_zero = (mysql_Config_zero, None)
  /\ os.lookup {[ "/etc" := os.Dir ]} conf_path = None
  /\ snd generated = None
  /\ @HandleAllConfigSetup Sample.externals
       SampleDecoders.decode_Config SampleDecoders.decode_ConfigDeprecated
       SampleDecoders.Error "/var/log/cagent/cagent.log" "linux" ∅ conf_path
       {[ "/etc" := os.Dir ]}
     = (Some (Config.set_MinValuableConfig (NewMinimumConfig "linux" ∅) linux_defaults),
        fst (fst generated), [], None).
Proof.
  intros generated.
  split; [reflexivity|]. split; [vm_compute; reflexivity|].
  split; [vm_compute; reflexivity|].
  apply (@HandleAllConfigSetup_first_run Sample.externals
           SampleDecoders.decode_Config SampleDecoders.decode_ConfigDeprecated
           SampleDecoders.Error "/var/log/cagent/cagent.log" "linux" ∅ conf_path
           {[ "/etc" := os.Dir ]} (fst (fst generated)) [] eq_refl).
  - vm_compute. reflexivity.
  - vm_compute. reflexivity.
Defined.

(** X20 on the file system that holds the configuration an operator
    wrote: the file is read, and stays as it is. *)
Lemma HandleAllConfigSetup_keeps_file_witness :
  let result :=
    @HandleAllConfigSetup Sample.externals
      SampleDecoders.decode_Config SampleDecoders.decode_ConfigDeprecated
      SampleDecoders.Error "/var/log/cagent/cagent.log" "linux" ∅ conf_path fs_with_conf in
  os.lookup fs_with_conf conf_path <> None
  /\ snd (fst (fst result)) = fs_with_conf
  /\ snd result = None
  /\ option_map Config.Interval (fst (fst (fst result))) = Some 120%float.
Proof.
  intros result.
  assert (Hpath : os.lookup fs_with_conf conf_path <> None) by (vm_compute; discriminate).
  split; [exact Hpath|].
  split; [|split; vm_compute; reflexivity].
  exact (@HandleAllConfigSetup_keeps_file Sample.externals
           SampleDecoders.decode_Config SampleDecoders.decode_ConfigDeprecated
           SampleDecoders.Error "/var/log/cagent/cagent.log" "linux" ∅ conf_path
           fs_with_conf Hpath decode_Config_exists decode_ConfigDeprecated_exists).
Defined.
